(** * UAVTalk: the telemetry protocol engine of flight/UAVTalk/uavtalk.c

    A shallow embedding of the receive state machine
    ([UAVTalkProcessInputStream]), the dispatcher ([receiveObject],
    [updateAck]), the transmitter ([sendObject], [sendSingleObject],
    [sendNack]), the transaction manager ([objectTransaction]) and the
    entry points that create a connection, set and read its output stream,
    and read and reset its counters.

    Integers of the C code are [Z] with their wrap-around written out
    ([u8], [u16], [u32]); the two packet buffers are lists of bytes updated
    by index; the connection is a record threaded through every operation.
    The output stream and the dispatcher are observed through two ghost
    logs kept in the connection record. *)

From Stdlib Require Import ZArith Lia Bool.
From stdpp Require Import base numbers list.

Local Open Scope Z_scope.

(** ** Machine integers *)

Definition u8 (x : Z) : Z := x mod 256.
Definition u16 (x : Z) : Z := x mod 65536.
Definition u32 (x : Z) : Z := x mod 4294967296.

Definition is_byte (x : Z) : Prop := 0 <= x < 256.

(** ** What uavtalk.c takes from headers that are not part of the sources

    The constants of uavtalk_priv.h, the all-instances sentinel of the object
    manager and the two checksum routines of PiOS are parameters of the
    development. *)

Class UAVTalkPriv := {
  UAVTALK_SYNC_VAL : Z;
  UAVTALK_TYPE_MASK : Z;
  UAVTALK_TYPE_VER : Z;
  UAVTALK_TYPE_OBJ : Z;
  UAVTALK_TYPE_OBJ_REQ : Z;
  UAVTALK_TYPE_OBJ_ACK : Z;
  UAVTALK_TYPE_ACK : Z;
  UAVTALK_TYPE_NACK : Z;
  UAVTALK_MIN_HEADER_LENGTH : Z;
  UAVTALK_MAX_HEADER_LENGTH : Z;
  UAVTALK_MAX_PAYLOAD_LENGTH : Z;
  UAVTALK_CHECKSUM_LENGTH : Z;
  UAVTALK_MAX_PACKET_LENGTH : Z;
  UAVOBJ_ALL_INSTANCES : Z;
  (* uint8_t PIOS_CRC_updateByte(uint8_t crc, const uint8_t data) *)
  PIOS_CRC_updateByte : Z -> Z -> Z;
  (* uint8_t PIOS_CRC_updateCRC(uint8_t crc, const uint8_t* data, int32_t length),
     applied to the [length] bytes it reads *)
  PIOS_CRC_updateCRC : Z -> list Z -> Z
}.

(** The object manager (the registry). A handle is a pointer, [0] when the
    object does not exist. [UAVObjPack] returns its status and the bytes it
    stored at the destination; [UAVObjUnpack] receives the receive buffer it
    is pointed at and returns its status and the updated registry. *)

Class UAVObjManager (R : Type) := {
  UAVObjGetByID : R -> Z -> Z;
  UAVObjGetID : R -> Z -> Z;
  UAVObjGetNumBytes : R -> Z -> Z;
  UAVObjIsSingleInstance : R -> Z -> bool;
  UAVObjGetNumInstances : R -> Z -> Z;
  UAVObjPack : R -> Z -> Z -> Z * list Z;
  UAVObjUnpack : R -> Z -> Z -> list Z -> Z * R
}.

(** ** Connection data *)

Inductive UAVTalkRxState :=
  | UAVTALK_STATE_SYNC
  | UAVTALK_STATE_TYPE
  | UAVTALK_STATE_SIZE
  | UAVTALK_STATE_OBJID
  | UAVTALK_STATE_INSTID
  | UAVTALK_STATE_DATA
  | UAVTALK_STATE_CS.

Record UAVTalkInputProcessor := mkIProc {
  ip_obj : Z;
  ip_type : Z;
  ip_packet_size : Z;
  ip_objId : Z;
  ip_instId : Z;
  ip_length : Z;
  ip_cs : Z;
  ip_rxCount : Z;
  ip_state : UAVTalkRxState;
  ip_rxPacketLength : Z
}.

Record UAVTalkStats := mkStats {
  txBytes : Z;
  rxBytes : Z;
  txObjectBytes : Z;
  txObjects : Z;
  txErrors : Z;
  rxObjectBytes : Z;
  rxObjects : Z;
  rxErrors : Z
}.

(** One call of the dispatcher: its type, object id, instance id and the
    [length] bytes of the data buffer it is given. *)
Record DispatchCall := mkCall {
  dc_type : Z;
  dc_objId : Z;
  dc_instId : Z;
  dc_data : list Z
}.

Record UAVTalkConnectionData := mkConn {
  iproc : UAVTalkInputProcessor;
  stats : UAVTalkStats;
  outStream : bool;            (* false: the function pointer is NULL *)
  lock : nat;                  (* recursive mutex: nesting depth *)
  transLock : nat;             (* recursive mutex: nesting depth *)
  respSema : bool;             (* binary semaphore *)
  respObj : Z;
  respInstId : Z;
  txSize : Z;
  rxBuffer : list Z;
  txBuffer : list Z;
  outLog : list (list Z);      (* ghost: the writes made on the output stream *)
  dispLog : list DispatchCall  (* ghost: the calls of receiveObject *)
}.

(** Field updates. *)

Definition set_iproc (f : UAVTalkInputProcessor -> UAVTalkInputProcessor)
    (c : UAVTalkConnectionData) : UAVTalkConnectionData :=
  let 'mkConn ip st os lk tl sem ro ri txs rxb txb ol dl := c in
  mkConn (f ip) st os lk tl sem ro ri txs rxb txb ol dl.
Definition set_stats (f : UAVTalkStats -> UAVTalkStats) (c : UAVTalkConnectionData)
    : UAVTalkConnectionData :=
  let 'mkConn ip st os lk tl sem ro ri txs rxb txb ol dl := c in
  mkConn ip (f st) os lk tl sem ro ri txs rxb txb ol dl.
Definition set_outStream (v : bool) (c : UAVTalkConnectionData)
    : UAVTalkConnectionData :=
  let 'mkConn ip st os lk tl sem ro ri txs rxb txb ol dl := c in
  mkConn ip st v lk tl sem ro ri txs rxb txb ol dl.
Definition set_lock (f : nat -> nat) (c : UAVTalkConnectionData)
    : UAVTalkConnectionData :=
  let 'mkConn ip st os lk tl sem ro ri txs rxb txb ol dl := c in
  mkConn ip st os (f lk) tl sem ro ri txs rxb txb ol dl.
Definition set_transLock (f : nat -> nat) (c : UAVTalkConnectionData)
    : UAVTalkConnectionData :=
  let 'mkConn ip st os lk tl sem ro ri txs rxb txb ol dl := c in
  mkConn ip st os lk (f tl) sem ro ri txs rxb txb ol dl.
Definition set_respSema (v : bool) (c : UAVTalkConnectionData)
    : UAVTalkConnectionData :=
  let 'mkConn ip st os lk tl sem ro ri txs rxb txb ol dl := c in
  mkConn ip st os lk tl v ro ri txs rxb txb ol dl.
Definition set_respObj (v : Z) (c : UAVTalkConnectionData)
    : UAVTalkConnectionData :=
  let 'mkConn ip st os lk tl sem ro ri txs rxb txb ol dl := c in
  mkConn ip st os lk tl sem v ri txs rxb txb ol dl.
Definition set_respInstId (v : Z) (c : UAVTalkConnectionData)
    : UAVTalkConnectionData :=
  let 'mkConn ip st os lk tl sem ro ri txs rxb txb ol dl := c in
  mkConn ip st os lk tl sem ro v txs rxb txb ol dl.
Definition set_rxBuffer (f : list Z -> list Z) (c : UAVTalkConnectionData)
    : UAVTalkConnectionData :=
  let 'mkConn ip st os lk tl sem ro ri txs rxb txb ol dl := c in
  mkConn ip st os lk tl sem ro ri txs (f rxb) txb ol dl.
Definition set_txBuffer (f : list Z -> list Z) (c : UAVTalkConnectionData)
    : UAVTalkConnectionData :=
  let 'mkConn ip st os lk tl sem ro ri txs rxb txb ol dl := c in
  mkConn ip st os lk tl sem ro ri txs rxb (f txb) ol dl.
Definition set_outLog (f : list (list Z) -> list (list Z)) (c : UAVTalkConnectionData)
    : UAVTalkConnectionData :=
  let 'mkConn ip st os lk tl sem ro ri txs rxb txb ol dl := c in
  mkConn ip st os lk tl sem ro ri txs rxb txb (f ol) dl.
Definition set_dispLog (f : list DispatchCall -> list DispatchCall) (c : UAVTalkConnectionData)
    : UAVTalkConnectionData :=
  let 'mkConn ip st os lk tl sem ro ri txs rxb txb ol dl := c in
  mkConn ip st os lk tl sem ro ri txs rxb txb ol (f dl).

Definition set_ip_obj (v : Z) (p : UAVTalkInputProcessor)
    : UAVTalkInputProcessor :=
  let 'mkIProc o ty ps oi ii len cs rc st rpl := p in
  mkIProc v ty ps oi ii len cs rc st rpl.
Definition set_ip_type (v : Z) (p : UAVTalkInputProcessor)
    : UAVTalkInputProcessor :=
  let 'mkIProc o ty ps oi ii len cs rc st rpl := p in
  mkIProc o v ps oi ii len cs rc st rpl.
Definition set_ip_packet_size (v : Z) (p : UAVTalkInputProcessor)
    : UAVTalkInputProcessor :=
  let 'mkIProc o ty ps oi ii len cs rc st rpl := p in
  mkIProc o ty v oi ii len cs rc st rpl.
Definition set_ip_objId (v : Z) (p : UAVTalkInputProcessor)
    : UAVTalkInputProcessor :=
  let 'mkIProc o ty ps oi ii len cs rc st rpl := p in
  mkIProc o ty ps v ii len cs rc st rpl.
Definition set_ip_instId (v : Z) (p : UAVTalkInputProcessor)
    : UAVTalkInputProcessor :=
  let 'mkIProc o ty ps oi ii len cs rc st rpl := p in
  mkIProc o ty ps oi v len cs rc st rpl.
Definition set_ip_length (v : Z) (p : UAVTalkInputProcessor)
    : UAVTalkInputProcessor :=
  let 'mkIProc o ty ps oi ii len cs rc st rpl := p in
  mkIProc o ty ps oi ii v cs rc st rpl.
Definition set_ip_cs (v : Z) (p : UAVTalkInputProcessor)
    : UAVTalkInputProcessor :=
  let 'mkIProc o ty ps oi ii len cs rc st rpl := p in
  mkIProc o ty ps oi ii len v rc st rpl.
Definition set_ip_rxCount (v : Z) (p : UAVTalkInputProcessor)
    : UAVTalkInputProcessor :=
  let 'mkIProc o ty ps oi ii len cs rc st rpl := p in
  mkIProc o ty ps oi ii len cs v st rpl.
Definition set_ip_state (v : UAVTalkRxState) (p : UAVTalkInputProcessor)
    : UAVTalkInputProcessor :=
  let 'mkIProc o ty ps oi ii len cs rc st rpl := p in
  mkIProc o ty ps oi ii len cs rc v rpl.
Definition set_ip_rxPacketLength (v : Z) (p : UAVTalkInputProcessor)
    : UAVTalkInputProcessor :=
  let 'mkIProc o ty ps oi ii len cs rc st rpl := p in
  mkIProc o ty ps oi ii len cs rc st v.

Definition set_txBytes (f : Z -> Z) (s : UAVTalkStats) : UAVTalkStats :=
  let 'mkStats tb rb tob to te rob ro re := s in
  mkStats (f tb) rb tob to te rob ro re.
Definition set_rxBytes (f : Z -> Z) (s : UAVTalkStats) : UAVTalkStats :=
  let 'mkStats tb rb tob to te rob ro re := s in
  mkStats tb (f rb) tob to te rob ro re.
Definition set_txObjectBytes (f : Z -> Z) (s : UAVTalkStats) : UAVTalkStats :=
  let 'mkStats tb rb tob to te rob ro re := s in
  mkStats tb rb (f tob) to te rob ro re.
Definition set_txObjects (f : Z -> Z) (s : UAVTalkStats) : UAVTalkStats :=
  let 'mkStats tb rb tob to te rob ro re := s in
  mkStats tb rb tob (f to) te rob ro re.
Definition set_rxObjectBytes (f : Z -> Z) (s : UAVTalkStats) : UAVTalkStats :=
  let 'mkStats tb rb tob to te rob ro re := s in
  mkStats tb rb tob to te (f rob) ro re.
Definition set_rxObjects (f : Z -> Z) (s : UAVTalkStats) : UAVTalkStats :=
  let 'mkStats tb rb tob to te rob ro re := s in
  mkStats tb rb tob to te rob (f ro) re.
Definition set_rxErrors (f : Z -> Z) (s : UAVTalkStats) : UAVTalkStats :=
  let 'mkStats tb rb tob to te rob ro re := s in
  mkStats tb rb tob to te rob ro (f re).

(** [x++] and [x += n] on a uint32_t counter. *)
Definition incr32 (x : Z) : Z := u32 (x + 1).
Definition add32 (n x : Z) : Z := u32 (x + n).

Section Engine.

Context {priv : UAVTalkPriv} {R : Type} {mgr : UAVObjManager R}.

Local Abbreviation Conn := UAVTalkConnectionData.

(** ** Output stream *)

(** A call of the output stream, made when the function pointer is not NULL:
    the write is recorded in the ghost log. *)
Definition outStream_write (buf : list Z) (c : Conn) : Conn :=
  if outStream c then set_outLog (fun l => l ++ [buf]) c else c.

(** [connection->txBuffer[i] = (uint8_t) v]. C leaves a store outside the
    buffer undefined; the list update does nothing there. *)
Definition tx_store (i v : Z) (c : Conn) : Conn :=
  set_txBuffer (fun b => <[Z.to_nat i := u8 v]> b) c.

(** ** Transmitter *)

(** The loop that hands the transmit buffer to the output stream in pieces of
    at most [txSize] bytes. Each turn that sends at least one byte brings
    [sent] closer to [total], so [total] turns are enough whenever the loop
    terminates; running out of turns ([None]) is the C loop running forever,
    which happens exactly when [txSize] is 0. *)
Fixpoint send_loop (turns : nat) (total sent : Z) (c : Conn) : option Conn :=
  if sent <? total then
    match turns with
    | O => None
    | S turns' =>
        let sending := total - sent in
        let sending := if sending >? txSize c then txSize c else sending in
        let c := outStream_write
                   (take (Z.to_nat sending) (drop (Z.to_nat sent) (txBuffer c))) c in
        send_loop turns' total (sent + sending) c
    end
  else Some c.

Definition sendSingleObject (c : Conn) (r : R) (obj instId type : Z)
    : option (Conn * Z) :=
  (* Setup type and object id fields *)
  let objId := UAVObjGetID r obj in
  let c := tx_store 0 UAVTALK_SYNC_VAL c in
  let c := tx_store 1 type c in
  let c := tx_store 4 (Z.land objId 255) c in
  let c := tx_store 5 (Z.land (Z.shiftr objId 8) 255) c in
  let c := tx_store 6 (Z.land (Z.shiftr objId 16) 255) c in
  let c := tx_store 7 (Z.land (Z.shiftr objId 24) 255) c in
  (* Setup instance ID if one is required *)
  let '(c, dataOffset) :=
    if UAVObjIsSingleInstance r obj then (c, 8)
    else
      let c := tx_store 8 (Z.land instId 255) c in
      let c := tx_store 9 (Z.land (Z.shiftr instId 8) 255) c in
      (c, 10) in
  (* Determine data length *)
  let length :=
    if (type =? UAVTALK_TYPE_OBJ_REQ) || (type =? UAVTALK_TYPE_ACK) then 0
    else UAVObjGetNumBytes r obj in
  (* Check length *)
  if length >=? UAVTALK_MAX_PAYLOAD_LENGTH then Some (c, -1)
  else
    (* Copy data (if any) *)
    let '(c, packed) :=
      if length >? 0 then
        let '(ret, bytes) := UAVObjPack r obj instId in
        (set_txBuffer (list_inserts (Z.to_nat dataOffset) bytes) c, ret)
      else (c, 0) in
    if packed <? 0 then Some (c, -1)
    else
      (* Store the packet length *)
      let c := tx_store 2 (Z.land (dataOffset + length) 255) c in
      let c := tx_store 3 (Z.land (Z.shiftr (dataOffset + length) 8) 255) c in
      (* Calculate checksum *)
      let c := tx_store (dataOffset + length)
                 (PIOS_CRC_updateCRC 0 (take (Z.to_nat (dataOffset + length)) (txBuffer c)))
                 c in
      (* Send buffer (partially if needed) *)
      let total := dataOffset + length + UAVTALK_CHECKSUM_LENGTH in
      c ← send_loop (Z.to_nat total) total 0 c;
      (* Update stats *)
      let c := set_stats (set_txObjects incr32) c in
      let c := set_stats (set_txBytes (add32 total)) c in
      let c := set_stats (set_txObjectBytes (add32 length)) c in
      Some (c, 0).

Definition sendNack (c : Conn) (objId : Z) : Conn * Z :=
  let c := tx_store 0 UAVTALK_SYNC_VAL c in
  let c := tx_store 1 UAVTALK_TYPE_NACK c in
  let c := tx_store 4 (Z.land objId 255) c in
  let c := tx_store 5 (Z.land (Z.shiftr objId 8) 255) c in
  let c := tx_store 6 (Z.land (Z.shiftr objId 16) 255) c in
  let c := tx_store 7 (Z.land (Z.shiftr objId 24) 255) c in
  let dataOffset := 8 in
  (* Store the packet length *)
  let c := tx_store 2 (Z.land dataOffset 255) c in
  let c := tx_store 3 (Z.land (Z.shiftr dataOffset 8) 255) c in
  (* Calculate checksum *)
  let c := tx_store dataOffset
             (PIOS_CRC_updateCRC 0 (take (Z.to_nat dataOffset) (txBuffer c))) c in
  (* Send buffer *)
  let c := outStream_write
             (take (Z.to_nat (dataOffset + UAVTALK_CHECKSUM_LENGTH)) (txBuffer c)) c in
  (* Update stats *)
  let c := set_stats (set_txBytes (add32 (dataOffset + UAVTALK_CHECKSUM_LENGTH))) c in
  (c, 0).

(** [for (n = 0; n < numInst; ++n) sendSingleObject(connection, obj, n, type);]
    over the instance numbers [ns]; the results are dropped. *)
Fixpoint send_instances (c : Conn) (r : R) (obj type : Z) (ns : list Z)
    : option Conn :=
  match ns with
  | [] => Some c
  | n :: ns' =>
      '(c, _) ← sendSingleObject c r obj (u16 n) type;
      send_instances c r obj type ns'
  end.

Definition sendObject (c : Conn) (r : R) (obj instId type : Z)
    : option (Conn * Z) :=
  (* If all instances are requested and this is a single instance object,
     force instance ID to zero *)
  let instId :=
    if (instId =? UAVOBJ_ALL_INSTANCES) && UAVObjIsSingleInstance r obj
    then 0 else instId in
  if (type =? UAVTALK_TYPE_OBJ) || (type =? UAVTALK_TYPE_OBJ_ACK) then
    if instId =? UAVOBJ_ALL_INSTANCES then
      let numInst := UAVObjGetNumInstances r obj in
      c ← send_instances c r obj type (seqZ 0 numInst);
      Some (c, 0)
    else sendSingleObject c r obj instId type
  else if type =? UAVTALK_TYPE_OBJ_REQ then
    sendSingleObject c r obj instId UAVTALK_TYPE_OBJ_REQ
  else if type =? UAVTALK_TYPE_ACK then
    if negb (instId =? UAVOBJ_ALL_INSTANCES)
    then sendSingleObject c r obj instId UAVTALK_TYPE_ACK
    else Some (c, -1)
  else Some (c, -1).

(** ** Dispatcher *)

(** The test of [updateAck]. *)
Definition ack_pending (c : Conn) (obj instId : Z) : bool :=
  (respObj c =? obj) &&
  ((respInstId c =? instId) || (respInstId c =? UAVOBJ_ALL_INSTANCES)).

Definition updateAck (c : Conn) (obj instId : Z) : Conn :=
  if ack_pending c obj instId then
    let c := set_respSema true c in   (* xSemaphoreGive(connection->respSema) *)
    set_respObj 0 c
  else c.

Definition receiveObject (c : Conn) (r : R) (type objId instId : Z)
    (data : list Z) (length : Z) : option (Conn * R * Z) :=
  let c := set_dispLog
             (fun l => l ++ [mkCall type objId instId (take (Z.to_nat length) data)]) c in
  (* Get the handle to the Object. Will be zero if object does not exist. *)
  let obj := UAVObjGetByID r objId in
  (* Process message type *)
  if type =? UAVTALK_TYPE_OBJ then
    if negb (instId =? UAVOBJ_ALL_INSTANCES) then
      let '(_, r) := UAVObjUnpack r obj instId data in
      let c := updateAck c obj instId in
      Some (c, r, 0)
    else Some (c, r, -1)
  else if type =? UAVTALK_TYPE_OBJ_ACK then
    if negb (instId =? UAVOBJ_ALL_INSTANCES) then
      let '(ret, r) := UAVObjUnpack r obj instId data in
      if ret =? 0 then
        '(c, _) ← sendObject c r obj instId UAVTALK_TYPE_ACK;
        Some (c, r, 0)
      else Some (c, r, -1)
    else Some (c, r, -1)
  else if type =? UAVTALK_TYPE_OBJ_REQ then
    if obj =? 0 then
      let '(c, _) := sendNack c objId in Some (c, r, 0)
    else
      '(c, _) ← sendObject c r obj instId UAVTALK_TYPE_OBJ;
      Some (c, r, 0)
  else if type =? UAVTALK_TYPE_NACK then
    Some (c, r, 0)
  else if type =? UAVTALK_TYPE_ACK then
    if negb (instId =? UAVOBJ_ALL_INSTANCES) then
      let c := updateAck c obj instId in
      Some (c, r, 0)
    else Some (c, r, -1)
  else Some (c, r, -1).

(** ** Receive state machine *)

(** One byte of the telemetry stream. The [default:] arm of the switch cannot
    be reached: [state] only ever holds one of the seven enumerators. The
    handle check of the entry point is passed: [c] is a live connection. *)
Definition UAVTalkProcessInputStream (c : Conn) (r : R) (rxbyte : Z)
    : option (Conn * R * Z) :=
  let c := set_stats (set_rxBytes incr32) c in
  let c :=
    if ip_rxPacketLength (iproc c) <? 65535
    then set_iproc (fun p => set_ip_rxPacketLength (ip_rxPacketLength p + 1) p) c
    else c in                                   (* update packet byte count *)
  let p := iproc c in
  match ip_state p with
  | UAVTALK_STATE_SYNC =>
      if negb (rxbyte =? UAVTALK_SYNC_VAL) then Some (c, r, 0)
      else
        (* Initialize and update the CRC *)
        let c := set_iproc (set_ip_cs (PIOS_CRC_updateByte 0 rxbyte)) c in
        let c := set_iproc (set_ip_rxPacketLength 1) c in
        let c := set_iproc (set_ip_state UAVTALK_STATE_TYPE) c in
        Some (c, r, 0)
  | UAVTALK_STATE_TYPE =>
      (* update the CRC *)
      let c := set_iproc (set_ip_cs (PIOS_CRC_updateByte (ip_cs p) rxbyte)) c in
      if negb (Z.land rxbyte UAVTALK_TYPE_MASK =? UAVTALK_TYPE_VER) then
        Some (set_iproc (set_ip_state UAVTALK_STATE_SYNC) c, r, 0)
      else
        let c := set_iproc (set_ip_type rxbyte) c in
        let c := set_iproc (set_ip_packet_size 0) c in
        let c := set_iproc (set_ip_state UAVTALK_STATE_SIZE) c in
        let c := set_iproc (set_ip_rxCount 0) c in
        Some (c, r, 0)
  | UAVTALK_STATE_SIZE =>
      (* update the CRC *)
      let c := set_iproc (set_ip_cs (PIOS_CRC_updateByte (ip_cs p) rxbyte)) c in
      if ip_rxCount p =? 0 then
        let c := set_iproc (set_ip_packet_size (u16 (ip_packet_size p + rxbyte))) c in
        let c := set_iproc (set_ip_rxCount (ip_rxCount p + 1)) c in
        Some (c, r, 0)
      else
        let packet_size := u16 (ip_packet_size p + Z.shiftl rxbyte 8) in
        let c := set_iproc (set_ip_packet_size packet_size) c in
        if (packet_size <? UAVTALK_MIN_HEADER_LENGTH) ||
           (packet_size >? UAVTALK_MAX_HEADER_LENGTH + UAVTALK_MAX_PAYLOAD_LENGTH)
        then (* incorrect packet size *)
          Some (set_iproc (set_ip_state UAVTALK_STATE_SYNC) c, r, 0)
        else
          let c := set_iproc (set_ip_rxCount 0) c in
          let c := set_iproc (set_ip_objId 0) c in
          let c := set_iproc (set_ip_state UAVTALK_STATE_OBJID) c in
          Some (c, r, 0)
  | UAVTALK_STATE_OBJID =>
      (* update the CRC *)
      let c := set_iproc (set_ip_cs (PIOS_CRC_updateByte (ip_cs p) rxbyte)) c in
      let c := set_iproc
                 (set_ip_objId (u32 (ip_objId p + Z.shiftl rxbyte (8 * ip_rxCount p)))) c in
      let c := set_iproc (set_ip_rxCount (ip_rxCount p + 1)) c in
      if ip_rxCount (iproc c) <? 4 then Some (c, r, 0)
      else
        (* Search for object, if not found reset state machine except if we
           got a OBJ_REQ for an object which does not exist, in which case
           we'll send a NACK *)
        let obj := UAVObjGetByID r (ip_objId (iproc c)) in
        let c := set_iproc (set_ip_obj obj) c in
        if (obj =? 0) && negb (ip_type p =? UAVTALK_TYPE_OBJ_REQ) then
          let c := set_stats (set_rxErrors incr32) c in
          Some (set_iproc (set_ip_state UAVTALK_STATE_SYNC) c, r, 0)
        else
          (* Determine data length *)
          let length :=
            if (ip_type p =? UAVTALK_TYPE_OBJ_REQ) || (ip_type p =? UAVTALK_TYPE_ACK)
               || (ip_type p =? UAVTALK_TYPE_NACK)
            then 0 else UAVObjGetNumBytes r obj in
          let c := set_iproc (set_ip_length length) c in
          (* Check length and determine next state *)
          if length >=? UAVTALK_MAX_PAYLOAD_LENGTH then
            let c := set_stats (set_rxErrors incr32) c in
            Some (set_iproc (set_ip_state UAVTALK_STATE_SYNC) c, r, 0)
          (* Check the lengths match *)
          else if negb (ip_rxPacketLength p + length =? ip_packet_size p) then
            (* packet error - mismatched packet size *)
            let c := set_stats (set_rxErrors incr32) c in
            Some (set_iproc (set_ip_state UAVTALK_STATE_SYNC) c, r, 0)
          else
            let c := set_iproc (set_ip_instId 0) c in
            if obj =? 0 then
              (* If this is a NACK, we skip to Checksum *)
              let c := set_iproc (set_ip_state UAVTALK_STATE_CS) c in
              Some (set_iproc (set_ip_rxCount 0) c, r, 0)
            (* Check if this is a single instance object (i.e. if the instance
               ID field is coming next) *)
            else if UAVObjIsSingleInstance r obj then
              (* If there is a payload get it, otherwise receive checksum *)
              let c :=
                if length >? 0
                then set_iproc (set_ip_state UAVTALK_STATE_DATA) c
                else set_iproc (set_ip_state UAVTALK_STATE_CS) c in
              Some (set_iproc (set_ip_rxCount 0) c, r, 0)
            else
              let c := set_iproc (set_ip_state UAVTALK_STATE_INSTID) c in
              Some (set_iproc (set_ip_rxCount 0) c, r, 0)
  | UAVTALK_STATE_INSTID =>
      (* update the CRC *)
      let c := set_iproc (set_ip_cs (PIOS_CRC_updateByte (ip_cs p) rxbyte)) c in
      let c := set_iproc
                 (set_ip_instId (u16 (ip_instId p + Z.shiftl rxbyte (8 * ip_rxCount p)))) c in
      let c := set_iproc (set_ip_rxCount (ip_rxCount p + 1)) c in
      if ip_rxCount (iproc c) <? 2 then Some (c, r, 0)
      else
        let c := set_iproc (set_ip_rxCount 0) c in
        (* If there is a payload get it, otherwise receive checksum *)
        let c :=
          if ip_length p >? 0
          then set_iproc (set_ip_state UAVTALK_STATE_DATA) c
          else set_iproc (set_ip_state UAVTALK_STATE_CS) c in
        Some (c, r, 0)
  | UAVTALK_STATE_DATA =>
      (* update the CRC *)
      let c := set_iproc (set_ip_cs (PIOS_CRC_updateByte (ip_cs p) rxbyte)) c in
      let c := set_rxBuffer (fun b => <[Z.to_nat (ip_rxCount p) := rxbyte]> b) c in
      let c := set_iproc (set_ip_rxCount (ip_rxCount p + 1)) c in
      if ip_rxCount (iproc c) <? ip_length p then Some (c, r, 0)
      else
        let c := set_iproc (set_ip_state UAVTALK_STATE_CS) c in
        Some (set_iproc (set_ip_rxCount 0) c, r, 0)
  | UAVTALK_STATE_CS =>
      (* the CRC byte *)
      if negb (rxbyte =? ip_cs p) then
        (* packet error - faulty CRC *)
        let c := set_stats (set_rxErrors incr32) c in
        Some (set_iproc (set_ip_state UAVTALK_STATE_SYNC) c, r, 0)
      else if negb (ip_rxPacketLength p =? ip_packet_size p + 1) then
        (* packet error - mismatched packet size *)
        let c := set_stats (set_rxErrors incr32) c in
        Some (set_iproc (set_ip_state UAVTALK_STATE_SYNC) c, r, 0)
      else
        let c := set_lock S c in
        '(c, r, _) ← receiveObject c r (ip_type p) (ip_objId p) (ip_instId p)
                       (rxBuffer c) (ip_length p);
        let c := set_stats (set_rxObjectBytes (add32 (ip_length p))) c in
        let c := set_stats (set_rxObjects incr32) c in
        let c := set_lock Nat.pred c in
        Some (set_iproc (set_ip_state UAVTALK_STATE_SYNC) c, r, 0)
  end.

(** The receive task: a sequence of bytes handed to the state machine one at a
    time. *)
Fixpoint feed (c : Conn) (r : R) (bytes : list Z) : option (Conn * R) :=
  match bytes with
  | [] => Some (c, r)
  | b :: bytes' =>
      '(c, r, _) ← UAVTalkProcessInputStream c r b;
      feed c r bytes'
  end.

(** ** Transaction manager *)

(** [objectTransaction] blocks in [xSemaphoreTake(respSema, timeout)]. The
    calling task is suspended there and the receive task runs: [rxWait] is the
    stream of bytes the receive task handles until the caller is resumed,
    either because the semaphore was given or because the timeout expired.
    After a timeout the caller takes the connection lock again; [rxLate] is
    what the receive task handles before the caller gets it. The length of
    the wait itself is not modelled. *)
Definition objectTransaction (rxWait rxLate : list Z) (c : Conn) (r : R)
    (obj instId type timeoutMs : Z) : option (Conn * R * Z) :=
  (* Send object depending on if a response is needed *)
  if (type =? UAVTALK_TYPE_OBJ_ACK) || (type =? UAVTALK_TYPE_OBJ_REQ) then
    (* Get transaction lock (will block if a transaction is pending) *)
    let c := set_transLock S c in
    (* Send object *)
    let c := set_lock S c in
    let c := set_respObj obj c in
    let c := set_respInstId instId c in
    '(c, _) ← sendObject c r obj instId type;
    let c := set_lock Nat.pred c in
    (* Wait for response (or timeout) *)
    '(c, r) ← feed c r rxWait;
    let respReceived := respSema c in
    let c := set_respSema false c in
    (* Check if a response was received *)
    if negb respReceived then
      '(c, r) ← feed c r rxLate;
      (* Cancel transaction *)
      let c := set_lock S c in
      let c := set_respSema false c in  (* make sure the value is reset to zero *)
      let c := set_respObj 0 c in
      let c := set_lock Nat.pred c in
      let c := set_transLock Nat.pred c in
      Some (c, r, -1)
    else
      let c := set_transLock Nat.pred c in
      Some (c, r, 0)
  else if type =? UAVTALK_TYPE_OBJ then
    let c := set_lock S c in
    '(c, _) ← sendObject c r obj instId UAVTALK_TYPE_OBJ;
    let c := set_lock Nat.pred c in
    Some (c, r, 0)
  else Some (c, r, -1).

Definition UAVTalkSendObjectRequest (rxWait rxLate : list Z) (c : Conn) (r : R)
    (obj instId timeout : Z) : option (Conn * R * Z) :=
  objectTransaction rxWait rxLate c r obj instId UAVTALK_TYPE_OBJ_REQ timeout.

Definition UAVTalkSendObject (rxWait rxLate : list Z) (c : Conn) (r : R)
    (obj instId acked timeoutMs : Z) : option (Conn * R * Z) :=
  (* Send object *)
  if acked =? 1 then
    objectTransaction rxWait rxLate c r obj instId UAVTALK_TYPE_OBJ_ACK timeoutMs
  else
    objectTransaction rxWait rxLate c r obj instId UAVTALK_TYPE_OBJ timeoutMs.

(** ** Connection creation *)

(** [pvPortMalloc] returns memory that is not cleared: [raw] is what the
    block allocated for the connection holds, [rxMem] and [txMem] are the two
    blocks of [UAVTALK_MAX_PACKET_LENGTH] bytes allocated for the buffers.
    Allocation is taken to succeed. [None] is the null handle. *)
Definition UAVTalkInitialize (raw : Conn) (rxMem txMem : list Z)
    (outputStream : bool) (maxPacketSize : Z) : option Conn :=
  if maxPacketSize <? 1 then None
  else
    let c := set_iproc (set_ip_rxPacketLength 0) raw in
    let c := set_iproc (set_ip_state UAVTALK_STATE_SYNC) c in
    let c := set_outStream outputStream c in
    let c := set_lock (fun _ => O) c in
    let c := set_transLock (fun _ => O) c in
    let c := mkConn (iproc c) (stats c) (outStream c) (lock c) (transLock c)
                    (respSema c) (respObj c) (respInstId c) maxPacketSize
                    rxMem txMem (outLog c) (dispLog c) in
    let c := set_respSema false c in              (* reset to zero *)
    (* UAVTalkResetStats *)
    let c := set_stats (fun _ => mkStats 0 0 0 0 0 0 0 0) c in
    Some c.

(** ** Output stream and statistics

    The entry points that set and read the output stream and the counters.
    As for the other entry points, the handle check is passed: [c] is a live
    connection. *)



Definition UAVTalkGetStats (c : Conn) : Conn * UAVTalkStats :=
  (* Lock *)
  let c := set_lock S c in
  (* Copy stats *)
  let statsOut := stats c in
  (* Release lock *)
  let c := set_lock Nat.pred c in
  (c, statsOut).

Definition UAVTalkResetStats (c : Conn) : Conn :=
  (* Lock *)
  let c := set_lock S c in
  (* Clear stats *)
  let c := set_stats (fun _ => mkStats 0 0 0 0 0 0 0 0) c in
  (* Release lock *)
  set_lock Nat.pred c.

End Engine.

(** ** Vocabulary of the statements *)

(** Little-endian fields. *)
Definition le16 (x : Z) : list Z :=
  [Z.land x 255; Z.land (Z.shiftr x 8) 255].

Definition le32 (x : Z) : list Z :=
  [Z.land x 255; Z.land (Z.shiftr x 8) 255;
   Z.land (Z.shiftr x 16) 255; Z.land (Z.shiftr x 24) 255].

Section Vocabulary.

Context {priv : UAVTalkPriv} {R : Type} {mgr : UAVObjManager R}.

Local Abbreviation Conn := UAVTalkConnectionData.

(** A frame on the wire: sync byte, type, length of everything before the
    checksum, object id, instance id when there is one, payload, checksum. *)
Definition frame_body (type objId : Z) (inst payload : list Z) : list Z :=
  UAVTALK_SYNC_VAL :: type
    :: le16 (8 + Z.of_nat (length inst) + Z.of_nat (length payload))
    ++ le32 objId ++ inst ++ payload.

Definition frame_of (type objId : Z) (inst payload : list Z) : list Z :=
  let body := frame_body type objId inst payload in
  body ++ [PIOS_CRC_updateCRC 0 body].

(** The connection after a frame of [total] bytes with [len] payload bytes
    was handed to the output stream as [chunks], leaving [tx] in the transmit
    buffer. *)
Definition after_send (c : Conn) (chunks : list (list Z)) (tx : list Z)
    (total len : Z) : Conn :=
  set_stats (set_txObjectBytes (add32 len))
    (set_stats (set_txBytes (add32 total))
       (set_stats (set_txObjects incr32)
          (set_outLog (fun l => if outStream c then l ++ chunks else l)
             (set_txBuffer (fun _ => tx) c)))).

(** The payload length the receiver expects for a message type. *)
Definition rx_length (r : R) (ty obj : Z) : Z :=
  if (ty =? UAVTALK_TYPE_OBJ_REQ) || (ty =? UAVTALK_TYPE_ACK) || (ty =? UAVTALK_TYPE_NACK)
  then 0 else UAVObjGetNumBytes r obj.

(** The connection with one more call in the dispatcher log. *)
Definition logged (c : UAVTalkConnectionData) (type objId instId : Z) (data : list Z) (len : Z) : UAVTalkConnectionData :=
  set_dispLog (fun l => l ++ [mkCall type objId instId (take (Z.to_nat len) data)]) c.

(** Only the contents of the transmit buffer differ. *)
Definition buf_rel (c c' : Conn) : Prop :=
  length (txBuffer c') = length (txBuffer c) /\
  c' = set_txBuffer (fun _ => txBuffer c') c.

(** How the transmitter may change a connection: transmit buffer (not its
    length), transmit counters and output log, the log only by appending. *)
Record tx_rel (c c' : Conn) : Prop := mk_tx_rel {
  tx_iproc : iproc c' = iproc c;
  tx_outStream : outStream c' = outStream c;
  tx_lock : lock c' = lock c;
  tx_transLock : transLock c' = transLock c;
  tx_respSema : respSema c' = respSema c;
  tx_respObj : respObj c' = respObj c;
  tx_respInstId : respInstId c' = respInstId c;
  tx_txSize : txSize c' = txSize c;
  tx_rxBuffer : rxBuffer c' = rxBuffer c;
  tx_dispLog : dispLog c' = dispLog c;
  tx_length : length (txBuffer c') = length (txBuffer c);
  tx_rxErrors : rxErrors (stats c') = rxErrors (stats c);
  tx_outLog : exists l, outLog c' = outLog c ++ l
}.

(** How the receive task may change a connection, as far as a caller blocked
    in a transaction can tell: locks, chunk size, output stream and pending
    instance id are as before, the output log has grown, and the pending
    object and the completion signal are either untouched or cleared and
    raised together. *)
Record evolves (c c' : Conn) : Prop := mk_evolves {
  ev_outStream : outStream c' = outStream c;
  ev_lock : lock c' = lock c;
  ev_transLock : transLock c' = transLock c;
  ev_respInstId : respInstId c' = respInstId c;
  ev_txSize : txSize c' = txSize c;
  ev_outLog : exists l, outLog c' = outLog c ++ l;
  ev_resp :
    (respSema c' = respSema c /\ respObj c' = respObj c) \/
    (respSema c' = true /\ respObj c' = 0)
}.

(** The connection and the registry at the moment the caller of a blocking
    transaction is resumed from its wait: the transaction lock is held, the
    pending target recorded, the object sent, and the receive task has
    handled [rxWait]. *)
Definition wakeup (rxWait : list Z) (c : Conn) (r : R) (obj instId type : Z)
    : option (Conn * R) :=
  let c := set_transLock S c in
  let c := set_lock S c in
  let c := set_respObj obj c in
  let c := set_respInstId instId c in
  '(c, _) ← sendObject c r obj instId type;
  feed (set_lock Nat.pred c) r rxWait.

(** What went over the wire during an operation of the transmitter that
    started with an empty log: the writes joined. *)
Definition wire (x : option (UAVTalkConnectionData * Z)) : option (list Z) :=
  '(c, _) ← x; Some (concat (outLog c)).

(** What a run of the receive task leaves to be seen: state of the machine,
    receive errors, calls of the dispatcher, writes on the output stream. *)
Definition observe (x : option (UAVTalkConnectionData * R))
    : option (UAVTalkRxState * Z * list DispatchCall * list (list Z)) :=
  '(c, _) ← x; Some (ip_state (iproc c), rxErrors (stats c), dispLog c, outLog c).

(** What holds of the input processor between two bytes of a run that began
    in the sync state. From the instance id on, the length field is within
    its bounds and the object was found unless the message is a request.
    While payload is being received, the index of the next byte in the
    receive buffer is below the payload length, which is below the maximum.
    And either no instance id was read, or more bytes were counted than the
    length field allows at the checksum ([rxPacketLength] stops counting at
    65535). *)
Definition rx_inv (r : R) (p : UAVTalkInputProcessor) : Prop :=
  let known := ip_type p = UAVTALK_TYPE_OBJ_REQ \/ UAVObjGetByID r (ip_objId p) <> 0 in
  let bound := ip_packet_size p <= UAVTALK_MAX_HEADER_LENGTH + UAVTALK_MAX_PAYLOAD_LENGTH in
  match ip_state p with
  | UAVTALK_STATE_SYNC | UAVTALK_STATE_TYPE | UAVTALK_STATE_SIZE => True
  | UAVTALK_STATE_OBJID => bound
  | UAVTALK_STATE_INSTID =>
      bound /\ known /\ 0 <= ip_rxCount p /\
      ip_length p < UAVTALK_MAX_PAYLOAD_LENGTH /\
      (65535 <= ip_rxPacketLength p \/
       ip_packet_size p + ip_rxCount p <= ip_rxPacketLength p + ip_length p)
  | UAVTALK_STATE_DATA =>
      bound /\ known /\
      0 <= ip_rxCount p < ip_length p /\
      ip_length p < UAVTALK_MAX_PAYLOAD_LENGTH /\
      (ip_instId p = 0 \/ 65535 <= ip_rxPacketLength p \/
       ip_packet_size p + 2 + ip_rxCount p <= ip_rxPacketLength p + ip_length p)
  | UAVTALK_STATE_CS =>
      bound /\ known /\
      (ip_instId p = 0 \/ 65535 <= ip_rxPacketLength p \/
       ip_packet_size p + 2 <= ip_rxPacketLength p)
  end.

(** What only the first statement of [UAVTalkProcessInputStream] changes of
    the counters, and what nothing changes: the received bytes and the
    transmit errors. *)
Definition counted (c c' : UAVTalkConnectionData) : Prop :=
  rxBytes (stats c') = rxBytes (stats c) /\ txErrors (stats c') = txErrors (stats c).

End Vocabulary.

(** ** Assumptions on the missing constants

    What the proofs use of the constants and of the checksum: the five message
    types are distinct bytes carrying the version tag, a header without
    instance id (8 bytes) is allowed and so is one with it (10 bytes), a
    packet length fits the 16-bit length field, there is one checksum byte,
    instance 0 is not the all-instances sentinel, and the checksum of a buffer
    is the byte-wise checksum folded over it. *)

Class UAVTalkPrivOK (priv : UAVTalkPriv) : Prop := {
  sync_byte : is_byte UAVTALK_SYNC_VAL;
  type_version :
    Forall (fun t => is_byte t /\ Z.land t UAVTALK_TYPE_MASK = UAVTALK_TYPE_VER)
      [UAVTALK_TYPE_OBJ; UAVTALK_TYPE_OBJ_REQ; UAVTALK_TYPE_OBJ_ACK;
       UAVTALK_TYPE_ACK; UAVTALK_TYPE_NACK];
  type_distinct :
    NoDup [UAVTALK_TYPE_OBJ; UAVTALK_TYPE_OBJ_REQ; UAVTALK_TYPE_OBJ_ACK;
           UAVTALK_TYPE_ACK; UAVTALK_TYPE_NACK];
  min_header_length : UAVTALK_MIN_HEADER_LENGTH <= 8;
  max_header_length : 10 <= UAVTALK_MAX_HEADER_LENGTH;
  max_payload_length :
    0 < UAVTALK_MAX_PAYLOAD_LENGTH /\
    UAVTALK_MAX_HEADER_LENGTH + UAVTALK_MAX_PAYLOAD_LENGTH < 65535;
  checksum_length : UAVTALK_CHECKSUM_LENGTH = 1;
  all_instances : UAVOBJ_ALL_INSTANCES <> 0;
  crc_byte : forall crc b, is_byte (PIOS_CRC_updateByte crc b);
  crc_fold : forall crc l, PIOS_CRC_updateCRC crc l = fold_left PIOS_CRC_updateByte l crc
}.

(** ** A concrete instance

    The values below are one admissible choice of the missing constants (sync
    byte 0x3C, version tag 0x20 under mask 0x78, headers of 8 to 10 bytes,
    payloads below 255 bytes, one checksum byte, 0xFFFF for all instances) and
    of the checksum (CRC-8 with polynomial x^8 + x^2 + x + 1, computed bit by
    bit). The general theorems do not depend on them; they serve to run the
    engine on explicit inputs. *)

Module Ref.

Definition crc8_round (x : Z) : Z :=
  if Z.testbit x 7 then Z.land (Z.lxor (Z.shiftl x 1) 7) 255
  else Z.land (Z.shiftl x 1) 255.

Definition crc8_updateByte (crc data : Z) : Z :=
  Nat.iter 8 crc8_round (Z.land (Z.lxor crc data) 255).

Definition crc8_updateCRC (crc : Z) (data : list Z) : Z :=
  fold_left crc8_updateByte data crc.

#[export] Instance priv : UAVTalkPriv := {|
  UAVTALK_SYNC_VAL := 60;
  UAVTALK_TYPE_MASK := 120;
  UAVTALK_TYPE_VER := 32;
  UAVTALK_TYPE_OBJ := 32;
  UAVTALK_TYPE_OBJ_REQ := 33;
  UAVTALK_TYPE_OBJ_ACK := 34;
  UAVTALK_TYPE_ACK := 35;
  UAVTALK_TYPE_NACK := 36;
  UAVTALK_MIN_HEADER_LENGTH := 8;
  UAVTALK_MAX_HEADER_LENGTH := 10;
  UAVTALK_MAX_PAYLOAD_LENGTH := 255;
  UAVTALK_CHECKSUM_LENGTH := 1;
  UAVTALK_MAX_PACKET_LENGTH := 266;
  UAVOBJ_ALL_INSTANCES := 65535;
  PIOS_CRC_updateByte := crc8_updateByte;
  PIOS_CRC_updateCRC := crc8_updateCRC
|}.

(** A registry kept as a list of objects; the handle of an object is its
    position in the list plus one. *)
Record Obj := mkObj {
  o_id : Z;
  o_single : bool;
  o_numBytes : Z;
  o_insts : list (list Z)
}.

Definition Registry := list Obj.

Definition get (r : Registry) (h : Z) : option Obj :=
  if h <=? 0 then None else r !! Z.to_nat (h - 1).

Fixpoint find_id (r : Registry) (h id : Z) : Z :=
  match r with
  | [] => 0
  | o :: r' => if o_id o =? id then h else find_id r' (h + 1) id
  end.

Definition pack (r : Registry) (h inst : Z) : Z * list Z :=
  match get r h with
  | Some o =>
      match o_insts o !! Z.to_nat inst with
      | Some d => (0, d)
      | None => (-1, [])
      end
  | None => (-1, [])
  end.

Definition unpack (r : Registry) (h inst : Z) (data : list Z) : Z * Registry :=
  match get r h with
  | Some o =>
      let d := take (Z.to_nat (o_numBytes o)) data in
      let n := Z.to_nat inst in
      let insts :=
        o_insts o ++ replicate (S n - length (o_insts o)) (replicate (length d) 0) in
      let o' := mkObj (o_id o) (o_single o) (o_numBytes o) (<[n := d]> insts) in
      (0, <[Z.to_nat (h - 1) := o']> r)
  | None => (-1, r)
  end.

#[export] Instance mgr : UAVObjManager Registry := {|
  UAVObjGetByID r id := find_id r 1 id;
  UAVObjGetID r h := from_option o_id 0 (get r h);
  UAVObjGetNumBytes r h := from_option o_numBytes 0 (get r h);
  UAVObjIsSingleInstance r h := from_option o_single true (get r h);
  UAVObjGetNumInstances r h := from_option (fun o => Z.of_nat (length (o_insts o))) 0 (get r h);
  UAVObjPack := pack;
  UAVObjUnpack := unpack
|}.

(** The same registry behind an object manager that refuses every update:
    [UAVObjUnpack] fails and leaves the registry as it is. *)
Definition frozen : UAVObjManager Registry := {|
  UAVObjGetByID r id := find_id r 1 id;
  UAVObjGetID r h := from_option o_id 0 (get r h);
  UAVObjGetNumBytes r h := from_option o_numBytes 0 (get r h);
  UAVObjIsSingleInstance r h := from_option o_single true (get r h);
  UAVObjGetNumInstances r h := from_option (fun o => Z.of_nat (length (o_insts o))) 0 (get r h);
  UAVObjPack := pack;
  UAVObjUnpack r h inst data := (-1, r)
|}.

(** A fresh connection with an output stream: cleared buffers, every field
    that [UAVTalkInitialize] does not set cleared as well. *)
Definition blank : UAVTalkConnectionData :=
  mkConn (mkIProc 0 0 0 0 0 0 0 0 UAVTALK_STATE_SYNC 0) (mkStats 0 0 0 0 0 0 0 0)
         false O O false 0 0 0 [] [] [] [].

Definition connect (maxPacketSize : Z) : option UAVTalkConnectionData :=
  UAVTalkInitialize blank (replicate 266 0) (replicate 266 0) true maxPacketSize.

(** The objects of the examples: [A] has a single instance of 4 bytes, [M]
    two instances of one byte each, [B] a single instance of 255 bytes. *)
Definition objA : Obj := mkObj 3735928559 true 4 [[1; 2; 3; 4]].
Definition objM : Obj := mkObj 305419896 false 1 [[7]; [9]].
Definition objB : Obj := mkObj 2864434397 true 255 [replicate 255 5].

Definition sender : Registry := [objA; objM; objB].
Definition peer : Registry :=
  [mkObj 3735928559 true 4 [[0; 0; 0; 0]]; mkObj 305419896 false 1 [[0]; [0]]].

(** Two connections: one that sends in chunks of up to 64 bytes, one in
    chunks of up to 4 bytes. *)
Definition c64 : UAVTalkConnectionData := default blank (connect 64).
Definition c4 : UAVTalkConnectionData := default blank (connect 4).

(** A connection of the peer with a transaction pending on instance 0 of
    [A], whose handle in the registry of the peer is 1. *)
Definition waitingA : UAVTalkConnectionData := set_respInstId 0 (set_respObj 1 c64).

End Ref.


(** ** Bytes and little-endian fields *)

Lemma land_255 x : Z.land x 255 = x mod 256.
Proof. exact (Z.land_ones x 8 ltac:(lia)). Qed.

Lemma is_byte_land x : is_byte (Z.land x 255).
Proof. rewrite land_255. unfold is_byte. apply Z.mod_pos_bound. lia. Qed.

Lemma u8_byte x : is_byte x -> u8 x = x.
Proof. unfold is_byte, u8. intros. apply Z.mod_small. lia. Qed.

Lemma u8_land x : u8 (Z.land x 255) = Z.land x 255.
Proof. apply u8_byte, is_byte_land. Qed.

Lemma incr32_add32 n x : 0 <= n -> incr32 (add32 n x) = add32 (n + 1) x.
Proof.
  intros. unfold incr32, add32, u32.
  rewrite Zplus_mod_idemp_l. f_equal. lia.
Qed.

Lemma incr32_is_add32 x : incr32 x = add32 1 x.
Proof. reflexivity. Qed.

(** Drops every [mod] whose argument is within range. *)
Ltac mod_small :=
  repeat match goal with
         | |- context [?a mod ?b] => rewrite (Z.mod_small a b) by lia
         end.

(** Reading back a 16-bit length written low byte first. *)
Lemma le16_decode x :
  0 <= x < 65536 ->
  u16 (u16 (0 + Z.land x 255) + Z.shiftl (Z.land (Z.shiftr x 8) 255) 8) = x.
Proof.
  intros Hx. rewrite !land_255, Z.shiftl_mul_pow2, Z.shiftr_div_pow2 by lia.
  unfold u16. change (2 ^ 8) with 256.
  assert (Ha : 0 <= x mod 256 < 256) by (apply Z.mod_pos_bound; lia).
  assert (Hb : 0 <= (x / 256) mod 256 < 256) by (apply Z.mod_pos_bound; lia).
  assert (Hsum : x = x mod 256 + 256 * ((x / 256) mod 256))
    by (Z.to_euclidean_division_equations; lia).
  revert Ha Hb Hsum. generalize (x mod 256), ((x / 256) mod 256).
  intros a b Ha Hb Hsum.
  mod_small. lia.
Qed.

(** Reading back a 32-bit identifier written low byte first. *)
Lemma le32_decode x :
  0 <= x < 4294967296 ->
  u32 (u32 (u32 (u32 (0 + Z.shiftl (Z.land x 255) (8 * 0))
                 + Z.shiftl (Z.land (Z.shiftr x 8) 255) (8 * 1))
            + Z.shiftl (Z.land (Z.shiftr x 16) 255) (8 * 2))
       + Z.shiftl (Z.land (Z.shiftr x 24) 255) (8 * 3)) = x.
Proof.
  intros Hx. rewrite !land_255, !Z.shiftl_mul_pow2, !Z.shiftr_div_pow2 by lia.
  change (2 ^ (8 * 0)) with 1. change (2 ^ (8 * 1)) with 256.
  change (2 ^ (8 * 2)) with 65536. change (2 ^ (8 * 3)) with 16777216.
  change (2 ^ 8) with 256. change (2 ^ 16) with 65536. change (2 ^ 24) with 16777216.
  unfold u32.
  assert (Ha : 0 <= x mod 256 < 256) by (apply Z.mod_pos_bound; lia).
  assert (Hb : 0 <= (x / 256) mod 256 < 256) by (apply Z.mod_pos_bound; lia).
  assert (Hc : 0 <= (x / 65536) mod 256 < 256) by (apply Z.mod_pos_bound; lia).
  assert (Hd : 0 <= (x / 16777216) mod 256 < 256) by (apply Z.mod_pos_bound; lia).
  assert (Hsum : x = x mod 256 + 256 * ((x / 256) mod 256)
                     + 65536 * ((x / 65536) mod 256)
                     + 16777216 * ((x / 16777216) mod 256))
    by (Z.to_euclidean_division_equations; lia).
  revert Ha Hb Hc Hd Hsum.
  generalize (x mod 256), ((x / 256) mod 256), ((x / 65536) mod 256),
    ((x / 16777216) mod 256).
  intros a b c d Ha Hb Hc Hd Hsum.
  mod_small. lia.
Qed.

(** ** The receive state machine, one byte at a time

    Each lemma is one arm of the switch on a connection whose fields are
    spelled out, so that a run over a frame is a chain of rewrites. *)

Section Steps.

Context {priv : UAVTalkPriv} {R : Type} {mgr : UAVObjManager R}.
Variables (os : bool) (lk tl : nat) (sem : bool) (ro ri txs : Z) (txb : list Z)
  (ol : list (list Z)) (dl : list DispatchCall).

Local Abbreviation conn p s rxb := (mkConn p s os lk tl sem ro ri txs rxb txb ol dl).

Ltac step_tac :=
  unfold UAVTalkProcessInputStream; simpl;
  repeat match goal with
         | H : ?x < ?y |- context [?x <? ?y] =>
             rewrite (proj2 (Z.ltb_lt x y) H); simpl
         | H : ?b = true |- context [?b] => rewrite H; simpl
         | H : ?b = false |- context [?b] => rewrite H; simpl
         end;
  try reflexivity.

Lemma step_sync o ty ps oi ii len cs rc rpl s rxb r :
  UAVTalkProcessInputStream
    (conn (mkIProc o ty ps oi ii len cs rc UAVTALK_STATE_SYNC rpl) s rxb) r
    UAVTALK_SYNC_VAL
  = Some (conn (mkIProc o ty ps oi ii len (PIOS_CRC_updateByte 0 UAVTALK_SYNC_VAL) rc
                        UAVTALK_STATE_TYPE 1) (set_rxBytes incr32 s) rxb, r, 0).
Proof.
  unfold UAVTalkProcessInputStream; simpl.
  destruct (rpl <? 65535); simpl; rewrite Z.eqb_refl; reflexivity.
Qed.

Lemma step_sync_skip o ty ps oi ii len cs rc rpl s rxb r b :
  b <> UAVTALK_SYNC_VAL ->
  UAVTalkProcessInputStream
    (conn (mkIProc o ty ps oi ii len cs rc UAVTALK_STATE_SYNC rpl) s rxb) r b
  = Some (conn (mkIProc o ty ps oi ii len cs rc UAVTALK_STATE_SYNC
                        (if rpl <? 65535 then rpl + 1 else rpl))
               (set_rxBytes incr32 s) rxb, r, 0).
Proof.
  intros Hb. apply Z.eqb_neq in Hb.
  unfold UAVTalkProcessInputStream; simpl.
  destruct (rpl <? 65535); simpl; rewrite Hb; reflexivity.
Qed.

Lemma step_type o ty ps oi ii len cs rc rpl s rxb r t :
  rpl < 65535 ->
  Z.land t UAVTALK_TYPE_MASK = UAVTALK_TYPE_VER ->
  UAVTalkProcessInputStream
    (conn (mkIProc o ty ps oi ii len cs rc UAVTALK_STATE_TYPE rpl) s rxb) r t
  = Some (conn (mkIProc o t 0 oi ii len (PIOS_CRC_updateByte cs t) 0
                        UAVTALK_STATE_SIZE (rpl + 1)) (set_rxBytes incr32 s) rxb, r, 0).
Proof. intros Hl Ht. step_tac. rewrite Ht, Z.eqb_refl. reflexivity. Qed.

Lemma step_size_lo o ty ps oi ii len cs rpl s rxb r b :
  rpl < 65535 ->
  UAVTalkProcessInputStream
    (conn (mkIProc o ty ps oi ii len cs 0 UAVTALK_STATE_SIZE rpl) s rxb) r b
  = Some (conn (mkIProc o ty (u16 (ps + b)) oi ii len (PIOS_CRC_updateByte cs b) (0 + 1)
                        UAVTALK_STATE_SIZE (rpl + 1)) (set_rxBytes incr32 s) rxb, r, 0).
Proof. intros Hl. step_tac. Qed.

Lemma step_size_hi o ty ps oi ii len cs rpl s rxb r b :
  rpl < 65535 ->
  UAVTALK_MIN_HEADER_LENGTH <= u16 (ps + Z.shiftl b 8)
    <= UAVTALK_MAX_HEADER_LENGTH + UAVTALK_MAX_PAYLOAD_LENGTH ->
  UAVTalkProcessInputStream
    (conn (mkIProc o ty ps oi ii len cs (0 + 1) UAVTALK_STATE_SIZE rpl) s rxb) r b
  = Some (conn (mkIProc o ty (u16 (ps + Z.shiftl b 8)) 0 ii len (PIOS_CRC_updateByte cs b) 0
                        UAVTALK_STATE_OBJID (rpl + 1)) (set_rxBytes incr32 s) rxb, r, 0).
Proof.
  intros Hl Hs. step_tac.
  replace (_ <? UAVTALK_MIN_HEADER_LENGTH) with false by (symmetry; apply Z.ltb_ge; lia).
  replace (_ >? _) with false by (symmetry; rewrite Z.gtb_ltb; apply Z.ltb_ge; lia).
  reflexivity.
Qed.

Lemma step_objid o ty ps oi ii len cs rc rpl s rxb r b :
  rpl < 65535 -> rc + 1 < 4 ->
  UAVTalkProcessInputStream
    (conn (mkIProc o ty ps oi ii len cs rc UAVTALK_STATE_OBJID rpl) s rxb) r b
  = Some (conn (mkIProc o ty ps (u32 (oi + Z.shiftl b (8 * rc))) ii len
                        (PIOS_CRC_updateByte cs b) (rc + 1)
                        UAVTALK_STATE_OBJID (rpl + 1)) (set_rxBytes incr32 s) rxb, r, 0).
Proof. intros Hl Hc. step_tac. Qed.




(** The last byte of the object id of a known object whose length agrees
    with the length field when no instance id is counted. *)
Lemma step_objid_single o ty ps oi ii len cs rc rpl s rxb r b :
  rpl < 65535 -> 4 <= rc + 1 ->
  let objId := u32 (oi + Z.shiftl b (8 * rc)) in
  let obj := UAVObjGetByID r objId in
  obj <> 0 ->
  UAVObjIsSingleInstance r obj = true ->
  rx_length r ty obj < UAVTALK_MAX_PAYLOAD_LENGTH ->
  rpl + 1 + rx_length r ty obj = ps ->
  UAVTalkProcessInputStream
    (conn (mkIProc o ty ps oi ii len cs rc UAVTALK_STATE_OBJID rpl) s rxb) r b
  = Some (conn (mkIProc obj ty ps objId 0 (rx_length r ty obj)
                        (PIOS_CRC_updateByte cs b) 0
                        (if rx_length r ty obj >? 0 then UAVTALK_STATE_DATA
                         else UAVTALK_STATE_CS) (rpl + 1))
               (set_rxBytes incr32 s) rxb, r, 0).
Proof.
  intros Hl Hc objId obj Ho Hs Hm Hp. step_tac.
  apply Z.ltb_ge in Hc. rewrite Hc. fold objId. fold obj. fold (rx_length r ty obj).
  apply Z.eqb_neq in Ho. rewrite Ho. simpl.
  replace (_ >=? _) with false by (symmetry; rewrite Z.geb_leb; apply Z.leb_gt; lia).
  rewrite (proj2 (Z.eqb_eq _ _) Hp). simpl. rewrite Hs.
  destruct (rx_length r ty obj >? 0); reflexivity.
Qed.

(** The last byte of the object id of a known object whose length does not
    add up to the length field. *)
Lemma step_objid_mismatch o ty ps oi ii len cs rc rpl s rxb r b :
  rpl < 65535 -> 4 <= rc + 1 ->
  let objId := u32 (oi + Z.shiftl b (8 * rc)) in
  let obj := UAVObjGetByID r objId in
  obj <> 0 ->
  rx_length r ty obj < UAVTALK_MAX_PAYLOAD_LENGTH ->
  rpl + 1 + rx_length r ty obj <> ps ->
  UAVTalkProcessInputStream
    (conn (mkIProc o ty ps oi ii len cs rc UAVTALK_STATE_OBJID rpl) s rxb) r b
  = Some (conn (mkIProc obj ty ps objId ii (rx_length r ty obj)
                        (PIOS_CRC_updateByte cs b) (rc + 1)
                        UAVTALK_STATE_SYNC (rpl + 1))
               (set_rxErrors incr32 (set_rxBytes incr32 s)) rxb, r, 0).
Proof.
  intros Hl Hc objId obj Ho Hm Hp. step_tac.
  apply Z.ltb_ge in Hc. rewrite Hc. fold objId. fold obj. fold (rx_length r ty obj).
  apply Z.eqb_neq in Ho. rewrite Ho. simpl.
  replace (_ >=? _) with false by (symmetry; rewrite Z.geb_leb; apply Z.leb_gt; lia).
  rewrite (proj2 (Z.eqb_neq _ _) Hp). reflexivity.
Qed.

Lemma step_data o ty ps oi ii len cs rc rpl s rxb r b :
  rpl < 65535 -> rc + 1 < len ->
  UAVTalkProcessInputStream
    (conn (mkIProc o ty ps oi ii len cs rc UAVTALK_STATE_DATA rpl) s rxb) r b
  = Some (conn (mkIProc o ty ps oi ii len (PIOS_CRC_updateByte cs b) (rc + 1)
                        UAVTALK_STATE_DATA (rpl + 1))
               (set_rxBytes incr32 s) (<[Z.to_nat rc := b]> rxb), r, 0).
Proof. intros Hl Hc. step_tac. Qed.

Lemma step_data_last o ty ps oi ii len cs rc rpl s rxb r b :
  rpl < 65535 -> len <= rc + 1 ->
  UAVTalkProcessInputStream
    (conn (mkIProc o ty ps oi ii len cs rc UAVTALK_STATE_DATA rpl) s rxb) r b
  = Some (conn (mkIProc o ty ps oi ii len (PIOS_CRC_updateByte cs b) 0
                        UAVTALK_STATE_CS (rpl + 1))
               (set_rxBytes incr32 s) (<[Z.to_nat rc := b]> rxb), r, 0).
Proof. intros Hl Hc. step_tac. apply Z.ltb_ge in Hc. rewrite Hc. reflexivity. Qed.

Lemma step_cs_bad o ty ps oi ii len cs rc rpl s rxb r b :
  rpl < 65535 -> b <> cs ->
  UAVTalkProcessInputStream
    (conn (mkIProc o ty ps oi ii len cs rc UAVTALK_STATE_CS rpl) s rxb) r b
  = Some (conn (mkIProc o ty ps oi ii len cs rc UAVTALK_STATE_SYNC (rpl + 1))
               (set_rxErrors incr32 (set_rxBytes incr32 s)) rxb, r, 0).
Proof. intros Hl Hc. step_tac. apply Z.eqb_neq in Hc. rewrite Hc. reflexivity. Qed.

(** The checksum byte of a frame of the announced length: the dispatcher is
    called under the connection lock, the counters of received objects are
    updated and the machine returns to the sync state. *)
Lemma step_cs_ok o ty ps oi ii len cs rc rpl s rxb r :
  rpl < 65535 -> rpl + 1 = ps + 1 ->
  UAVTalkProcessInputStream
    (conn (mkIProc o ty ps oi ii len cs rc UAVTALK_STATE_CS rpl) s rxb) r cs
  = '(c, r, _) ← receiveObject
        (mkConn (mkIProc o ty ps oi ii len cs rc UAVTALK_STATE_CS (rpl + 1))
                (set_rxBytes incr32 s) os (S lk) tl sem ro ri txs rxb txb ol dl)
        r ty oi ii rxb len;
    Some (set_iproc (set_ip_state UAVTALK_STATE_SYNC)
            (set_lock Nat.pred
               (set_stats (set_rxObjects incr32)
                  (set_stats (set_rxObjectBytes (add32 len)) c))), r, 0).
Proof.
  intros Hl Hp. step_tac. rewrite Z.eqb_refl. simpl.
  rewrite (proj2 (Z.eqb_eq _ _) Hp). reflexivity.
Qed.

End Steps.

(** ** Runs of the receive state machine *)

(** After a step that returned: continue with the rest of the run. *)
Ltac next := change (mbind ?f (Some ?x)) with (f x); cbv beta iota.

Section Runs.

Context {priv : UAVTalkPriv} {ok : UAVTalkPrivOK priv} {R : Type} {mgr : UAVObjManager R}.

Lemma feed_app c r l1 l2 :
  feed c r (l1 ++ l2) = '(c, r) ← feed c r l1; feed c r l2.
Proof.
  revert c r. induction l1 as [|b l1 IH]; intros c r; simpl; [reflexivity|].
  destruct (UAVTalkProcessInputStream c r b) as [[[c' r'] ret]|]; simpl; auto.
Qed.

Lemma rxBytes_step n s :
  0 <= n -> set_rxBytes incr32 (set_rxBytes (add32 n) s) = set_rxBytes (add32 (n + 1)) s.
Proof. intros. destruct s; simpl. rewrite incr32_add32 by lia. reflexivity. Qed.

Lemma rxBytes_first s : set_rxBytes incr32 s = set_rxBytes (add32 1) s.
Proof. destruct s; reflexivity. Qed.

Lemma crc_byte_lt crc b : PIOS_CRC_updateByte crc b < 65535.
Proof. pose proof (crc_byte crc b) as H. unfold is_byte in H. lia. Qed.

Variables (os : bool) (lk tl : nat) (sem : bool) (ro ri txs : Z) (txb : list Z)
  (ol : list (list Z)) (dl : list DispatchCall).

Local Abbreviation conn p s rxb := (mkConn p s os lk tl sem ro ri txs rxb txb ol dl).

(** The header up to the third byte of the object id. *)
Lemma feed_header o ty ps oi ii len cs rc rpl s rxb r t size i0 i1 i2 :
  Z.land t UAVTALK_TYPE_MASK = UAVTALK_TYPE_VER ->
  0 <= size < 65536 ->
  UAVTALK_MIN_HEADER_LENGTH <= size
    <= UAVTALK_MAX_HEADER_LENGTH + UAVTALK_MAX_PAYLOAD_LENGTH ->
  feed (conn (mkIProc o ty ps oi ii len cs rc UAVTALK_STATE_SYNC rpl) s rxb) r
       (UAVTALK_SYNC_VAL :: t :: le16 size ++ [i0; i1; i2])
  = Some (conn (mkIProc o t size
                  (u32 (u32 (u32 (0 + Z.shiftl i0 (8 * 0)) + Z.shiftl i1 (8 * 1))
                        + Z.shiftl i2 (8 * 2)))
                  ii len
                  (fold_left PIOS_CRC_updateByte
                     (UAVTALK_SYNC_VAL :: t :: le16 size ++ [i0; i1; i2]) 0)
                  3 UAVTALK_STATE_OBJID 7)
               (set_rxBytes (add32 7) s) rxb, r).
Proof.
  intros Ht Hsz Hb. unfold le16, feed, app.
  rewrite step_sync. next.
  rewrite step_type by (lia || assumption). next.
  rewrite step_size_lo by lia. next.
  rewrite step_size_hi by (rewrite ?le16_decode by lia; lia). next.
  rewrite le16_decode by lia.
  rewrite step_objid by lia. next.
  rewrite step_objid by lia. next.
  rewrite step_objid by lia. next.
  rewrite (rxBytes_first s). repeat rewrite rxBytes_step by lia.
  reflexivity.
Qed.

(** The payload bytes, from the data state to the checksum state. *)
Lemma feed_data o ty ps oi ii len r payload :
  forall cs rc rpl n s rxb,
  payload <> [] ->
  0 <= rc -> 0 <= n ->
  rc + Z.of_nat (length payload) = len ->
  rpl + Z.of_nat (length payload) <= 65535 ->
  feed (conn (mkIProc o ty ps oi ii len cs rc UAVTALK_STATE_DATA rpl)
             (set_rxBytes (add32 n) s) rxb) r payload
  = Some (conn (mkIProc o ty ps oi ii len (fold_left PIOS_CRC_updateByte payload cs) 0
                        UAVTALK_STATE_CS (rpl + Z.of_nat (length payload)))
               (set_rxBytes (add32 (n + Z.of_nat (length payload))) s)
               (list_inserts (Z.to_nat rc) payload rxb), r).
Proof.
  induction payload as [|b payload IH]; intros cs rc rpl n s rxb Hne Hrc Hn Hlen Hrpl;
    [congruence|].
  cbn [feed fold_left].
  destruct payload as [|b' payload']; simpl length in Hlen, Hrpl.
  - rewrite step_data_last by lia. next.
    rewrite rxBytes_step by lia. reflexivity.
  - rewrite step_data by lia. next.
    rewrite rxBytes_step by lia.
    rewrite IH by (simpl length; (congruence || lia)).
    replace (Z.to_nat (rc + 1)) with (S (Z.to_nat rc)) by lia.
    rewrite <- list_insert_inserts_lt by lia.
    replace (rpl + 1 + Z.of_nat (length (b' :: payload')))
      with (rpl + Z.of_nat (length (b :: b' :: payload'))) by (simpl length; lia).
    replace (n + 1 + Z.of_nat (length (b' :: payload')))
      with (n + Z.of_nat (length (b :: b' :: payload'))) by (simpl length; lia).
    reflexivity.
Qed.

(** A frame without instance id for a known single-instance object, up to
    the checksum state. *)
Lemma feed_body o ty ps oi ii len cs rc rpl s rxb r t id payload :
  Z.land t UAVTALK_TYPE_MASK = UAVTALK_TYPE_VER ->
  0 <= id < 4294967296 ->
  let obj := UAVObjGetByID r id in
  let L := Z.of_nat (length payload) in
  obj <> 0 ->
  UAVObjIsSingleInstance r obj = true ->
  rx_length r t obj = L ->
  L < UAVTALK_MAX_PAYLOAD_LENGTH ->
  feed (conn (mkIProc o ty ps oi ii len cs rc UAVTALK_STATE_SYNC rpl) s rxb) r
       (frame_body t id [] payload)
  = Some (conn (mkIProc obj t (8 + L) id 0 L
                  (fold_left PIOS_CRC_updateByte (frame_body t id [] payload) 0)
                  0 UAVTALK_STATE_CS (8 + L))
               (set_rxBytes (add32 (8 + L)) s)
               (list_inserts 0 payload rxb), r).
Proof.
  intros Ht Hid obj L Hobj Hsingle Hlen Hmax.
  pose proof max_payload_length as [Hmp1 Hmp2]. pose proof max_header_length as Hmh.
  pose proof min_header_length as Hmin.
  unfold frame_body. simpl length. replace (8 + Z.of_nat 0 + Z.of_nat (length payload)) with (8 + L) by lia.
  match goal with |- context [feed _ _ ?l] =>
    change l with ((UAVTALK_SYNC_VAL :: t :: le16 (8 + L)
                     ++ [Z.land id 255; Z.land (Z.shiftr id 8) 255;
                         Z.land (Z.shiftr id 16) 255])
                   ++ Z.land (Z.shiftr id 24) 255 :: payload)
  end.
  rewrite feed_app, feed_header by (assumption || lia). next.
  cbn [feed].
  rewrite step_objid_single;
    [| lia | lia | rewrite le32_decode by lia; exact Hobj
     | rewrite le32_decode by lia; exact Hsingle
     | rewrite le32_decode by lia; fold obj; lia
     | rewrite le32_decode by lia; fold obj; lia ].
  next. rewrite le32_decode by lia. fold obj. rewrite Hlen.
  rewrite rxBytes_step by lia.
  rewrite fold_left_app. cbn [fold_left].
  destruct payload as [|b payload'].
  - reflexivity.
  - replace (L >? 0) with true by (symmetry; apply Z.gtb_lt; unfold L; simpl length; lia).
    rewrite (feed_data obj t (8 + L) id 0 L r (b :: payload'))
      by (congruence || (fold L; lia)).
    fold L. change (Z.to_nat 0) with 0%nat.
    replace (7 + 1 + L) with (8 + L) by lia. reflexivity.
Qed.

(** The whole frame: the dispatcher is called on what was received. *)
Lemma feed_frame o ty ps oi ii len cs rc rpl s rxb r t id payload :
  Z.land t UAVTALK_TYPE_MASK = UAVTALK_TYPE_VER ->
  0 <= id < 4294967296 ->
  let obj := UAVObjGetByID r id in
  let L := Z.of_nat (length payload) in
  obj <> 0 ->
  UAVObjIsSingleInstance r obj = true ->
  rx_length r t obj = L ->
  L < UAVTALK_MAX_PAYLOAD_LENGTH ->
  feed (conn (mkIProc o ty ps oi ii len cs rc UAVTALK_STATE_SYNC rpl) s rxb) r
       (frame_of t id [] payload)
  = '(c', r', _) ←
      receiveObject
        (mkConn (mkIProc obj t (8 + L) id 0 L (PIOS_CRC_updateCRC 0 (frame_body t id [] payload))
                         0 UAVTALK_STATE_CS (8 + L + 1))
                (set_rxBytes (add32 (8 + L + 1)) s) os (S lk) tl sem ro ri txs
                (list_inserts 0 payload rxb) txb ol dl)
        r t id 0 (list_inserts 0 payload rxb) L;
    Some (set_iproc (set_ip_state UAVTALK_STATE_SYNC)
            (set_lock Nat.pred
               (set_stats (set_rxObjects incr32)
                  (set_stats (set_rxObjectBytes (add32 L)) c'))), r').
Proof.
  intros Ht Hid obj L Hobj Hsingle Hlen Hmax.
  pose proof max_payload_length as [Hmp1 Hmp2]. pose proof max_header_length as Hmh.
  unfold frame_of. rewrite feed_app, feed_body by assumption. next.
  fold L. fold obj. cbn [feed]. rewrite crc_fold.
  rewrite step_cs_ok by lia.
  rewrite rxBytes_step by lia.
  destruct (receiveObject _ _ _ _ _ _ _) as [[[c' r'] ret]|]; reflexivity.
Qed.

(** The frame with a wrong checksum byte: one receive error, no dispatch. *)
Lemma feed_frame_bad_cs o ty ps oi ii len cs rc rpl s rxb r t id payload bad :
  Z.land t UAVTALK_TYPE_MASK = UAVTALK_TYPE_VER ->
  0 <= id < 4294967296 ->
  let obj := UAVObjGetByID r id in
  let L := Z.of_nat (length payload) in
  obj <> 0 ->
  UAVObjIsSingleInstance r obj = true ->
  rx_length r t obj = L ->
  L < UAVTALK_MAX_PAYLOAD_LENGTH ->
  bad <> PIOS_CRC_updateCRC 0 (frame_body t id [] payload) ->
  feed (conn (mkIProc o ty ps oi ii len cs rc UAVTALK_STATE_SYNC rpl) s rxb) r
       (frame_body t id [] payload ++ [bad])
  = Some (conn (mkIProc obj t (8 + L) id 0 L (PIOS_CRC_updateCRC 0 (frame_body t id [] payload))
                        0 UAVTALK_STATE_SYNC (8 + L + 1))
               (set_rxErrors incr32 (set_rxBytes (add32 (8 + L + 1)) s))
               (list_inserts 0 payload rxb), r).
Proof.
  intros Ht Hid obj L Hobj Hsingle Hlen Hmax Hbad.
  pose proof max_payload_length as [Hmp1 Hmp2]. pose proof max_header_length as Hmh.
  rewrite feed_app, feed_body by assumption. next.
  fold L. fold obj. cbn [feed]. rewrite crc_fold in *.
  rewrite step_cs_bad by (lia || assumption). next.
  rewrite rxBytes_step by lia. reflexivity.
Qed.

End Runs.

(** ** The transmitter *)

Section Transmit.

Context {priv : UAVTalkPriv} {ok : UAVTalkPrivOK priv} {R : Type} {mgr : UAVObjManager R}.

Local Abbreviation Conn := UAVTalkConnectionData.


Lemma is_byte_crc crc l :
  is_byte crc -> is_byte (fold_left PIOS_CRC_updateByte l crc).
Proof.
  revert crc. induction l as [|b l IH]; intros crc Hc; simpl; [exact Hc|].
  apply IH, crc_byte.
Qed.

Lemma is_byte_updateCRC l : is_byte (PIOS_CRC_updateCRC 0 l).
Proof. rewrite crc_fold. apply is_byte_crc. unfold is_byte; lia. Qed.

Lemma outStream_write_fields buf c :
  txSize (outStream_write buf c) = txSize c /\
  txBuffer (outStream_write buf c) = txBuffer c /\
  outStream (outStream_write buf c) = outStream c.
Proof. unfold outStream_write. destruct c as [? ? []]; simpl; auto. Qed.

(** The send loop terminates when the chunk size is positive; it hands over
    the bytes from [sent] to [total] in order, in pieces of at most [txSize]
    bytes. *)
Lemma send_loop_spec turns : forall total sent c,
  1 <= txSize c -> 0 <= sent ->
  total - sent <= Z.of_nat turns ->
  exists chunks,
    send_loop turns total sent c
      = Some (set_outLog (fun l => if outStream c then l ++ chunks else l) c) /\
    concat chunks = take (Z.to_nat (total - sent)) (drop (Z.to_nat sent) (txBuffer c)) /\
    Forall (fun w => Z.of_nat (length w) <= txSize c) chunks.
Proof.
  induction turns as [|turns IH]; intros total sent c Htx Hs Ht.
  - exists []. simpl. replace (sent <? total) with false by (symmetry; apply Z.ltb_ge; lia).
    replace (Z.to_nat (total - sent)) with O by lia.
    split; [|split; [reflexivity | constructor]].
    destruct c as [? ? []]; unfold set_outLog; simpl; rewrite ?app_nil_r; reflexivity.
  - simpl. destruct (sent <? total) eqn:Hlt.
    + apply Z.ltb_lt in Hlt.
      set (sending := if total - sent >? txSize c then txSize c else total - sent).
      assert (Hsg : 1 <= sending <= total - sent /\ sending <= txSize c).
      { unfold sending. destruct (total - sent >? txSize c) eqn:Hg.
        - rewrite Z.gtb_ltb in Hg. apply Z.ltb_lt in Hg. lia.
        - rewrite Z.gtb_ltb in Hg. apply Z.ltb_ge in Hg. lia. }
      set (chunk := take (Z.to_nat sending) (drop (Z.to_nat sent) (txBuffer c))).
      destruct (outStream_write_fields chunk c) as (Hf1 & Hf2 & Hf3).
      destruct (IH total (sent + sending) (outStream_write chunk c)) as (chunks & He & Hc & Hall);
        [rewrite Hf1; lia | lia | lia |].
      exists (chunk :: chunks). rewrite He, Hf3. split; [|split].
      * unfold outStream_write. destruct c as [? ? []]; unfold set_outLog; simpl;
          rewrite <- ?app_assoc; reflexivity.
      * simpl. rewrite Hc, Hf2. unfold chunk.
        replace (Z.to_nat (sent + sending)) with (Z.to_nat sent + Z.to_nat sending)%nat by lia.
        rewrite <- drop_drop, take_take_drop. f_equal. lia.
      * constructor; [|rewrite Hf1 in Hall; exact Hall].
        unfold chunk. rewrite length_take. lia.
    + apply Z.ltb_ge in Hlt. exists [].
      replace (Z.to_nat (total - sent)) with O by lia.
      split; [|split; [reflexivity | constructor]].
      destruct c as [? ? []]; unfold set_outLog; simpl; rewrite ?app_nil_r; reflexivity.
Qed.

(** With a chunk size of 0 the loop never advances. *)
Lemma send_loop_stuck turns : forall total sent c,
  txSize c = 0 -> 0 <= sent < total -> send_loop turns total sent c = None.
Proof.
  induction turns as [|turns IH]; intros total sent c Htx Hs; simpl;
    rewrite (proj2 (Z.ltb_lt _ _) (proj2 Hs)); [reflexivity|].
  rewrite Htx. replace (total - sent >? 0) with true by (symmetry; apply Z.gtb_lt; lia).
  rewrite Z.add_0_r. apply IH; [|lia].
  destruct (outStream_write_fields (take (Z.to_nat 0) (drop (Z.to_nat sent) (txBuffer c))) c)
    as (-> & _); exact Htx.
Qed.

(** The end of [sendSingleObject] once the transmit buffer holds the header
    of [off] bytes followed by [bytes]: length field, checksum, send loop. *)
Ltac finish_send bytes off :=
  simpl;
  match goal with
  | |- context [Z.to_nat (?o + ?len)] =>
      replace (Z.to_nat (o + len)) with (off + length bytes)%nat by (simpl length; lia)
  end;
  cbn [take Nat.add list_insert insert];
  rewrite ?take_app_length, ?u8_land, (u8_byte _ (is_byte_updateCRC _));
  rewrite ?(insert_app_r_alt bytes) by lia; rewrite ?Nat.sub_diag;
  cbn [list_insert insert app];
  match goal with
  | |- context [send_loop ?t ?tot 0 ?c] =>
      let chunks := fresh "chunks" in
      let He := fresh "He" in
      let Hc := fresh "Hc" in
      let Hall := fresh "Hall" in
      destruct (send_loop_spec t tot 0 c) as (chunks & He & Hc & Hall);
      [simpl; lia | lia | lia |]; rewrite He; exists chunks, (txBuffer c);
      simpl in Hc, Hall |- *;
      split; [reflexivity|]; split; [|split; [exact Hall|]];
      [ rewrite Hc; unfold frame_of, frame_body;
        match goal with
        | |- context [Z.to_nat (?o + ?len + 1 - 0)] =>
            replace (Z.to_nat (o + len + 1 - 0)) with (off + (length bytes + 1))%nat
              by (simpl length; lia);
            match goal with
            | |- context [8 + Z.of_nat (length ?i) + Z.of_nat (length bytes)] =>
                replace (8 + Z.of_nat (length i) + Z.of_nat (length bytes))
                  with (o + len) by (simpl length; lia)
            end
        end;
        unfold le16, le32;
        cbn [take Nat.add app]; rewrite ?take_app_add; reflexivity
      | rewrite ?length_app; simpl; lia ]
  end.

(** A buffer that is long enough splits into a header area, a payload area
    and the checksum cell. *)
Lemma split_buffer (l : list Z) (a b : nat) :
  (a + b + 1 <= length l)%nat ->
  exists h p x rest, l = h ++ p ++ x :: rest /\ length h = a /\ length p = b.
Proof.
  intros Hl.
  destruct (drop (a + b) l) as [|x rest] eqn:Hd.
  { apply (f_equal length) in Hd. rewrite length_drop in Hd. simpl in Hd. lia. }
  exists (take a l), (take b (drop a l)), x, rest. split; [|split].
  - rewrite <- Hd, <- drop_drop. rewrite take_drop. rewrite take_drop. reflexivity.
  - rewrite length_take. lia.
  - rewrite length_take, length_drop. lia.
Qed.

Ltac norm_idx :=
  change (Z.to_nat 0) with 0%nat; change (Z.to_nat 1) with 1%nat;
  change (Z.to_nat 2) with 2%nat; change (Z.to_nat 3) with 3%nat;
  change (Z.to_nat 4) with 4%nat; change (Z.to_nat 5) with 5%nat;
  change (Z.to_nat 6) with 6%nat; change (Z.to_nat 7) with 7%nat;
  change (Z.to_nat 8) with 8%nat; change (Z.to_nat 9) with 9%nat;
  change (Z.to_nat 10) with 10%nat.

(** [sendSingleObject] on an object whose payload is below the maximum and
    packs: it returns 0 and the writes on the output stream, each of at most
    [txSize] bytes, add up to the frame. *)
Lemma sendSingleObject_ok c r obj instId type :
  is_byte type ->
  let inst := if UAVObjIsSingleInstance r obj then [] else le16 instId in
  let len := if (type =? UAVTALK_TYPE_OBJ_REQ) || (type =? UAVTALK_TYPE_ACK) then 0
             else UAVObjGetNumBytes r obj in
  let payload := if len >? 0 then snd (UAVObjPack r obj instId) else [] in
  0 <= len < UAVTALK_MAX_PAYLOAD_LENGTH ->
  (0 < len -> 0 <= fst (UAVObjPack r obj instId) /\ Z.of_nat (length payload) = len) ->
  8 + Z.of_nat (length inst) + len + 1 <= Z.of_nat (length (txBuffer c)) ->
  1 <= txSize c ->
  exists chunks tx,
    sendSingleObject c r obj instId type
      = Some (after_send c chunks tx (8 + Z.of_nat (length inst) + len + 1) len, 0) /\
    concat chunks = frame_of type (UAVObjGetID r obj) inst payload /\
    Forall (fun w => Z.of_nat (length w) <= txSize c) chunks /\
    length tx = length (txBuffer c).
Proof.
  intros Hty inst len payload Hlen Hpack Hbuf Htx.
  destruct (split_buffer (txBuffer c) (8 + length inst) (Z.to_nat len))
    as (h & p & x & rest & Hsplit & Hh & Hp); [lia|].
  pose proof checksum_length as Hck.
  unfold sendSingleObject. fold len. rewrite Hck.
  replace (len >=? UAVTALK_MAX_PAYLOAD_LENGTH) with false
    by (symmetry; rewrite Z.geb_leb; apply Z.leb_gt; lia).
  destruct c as [ip st os lk tl sem ro ri txs rxb txb ol dl].
  simpl in Hsplit, Htx, Hbuf. subst txb.
  do 8 (destruct h as [|? h]; [simpl in Hh; lia|]).
  unfold tx_store. norm_idx. simpl.
  rewrite !u8_land, (u8_byte _ sync_byte), (u8_byte _ Hty).
  (* the payload, packed or absent *)
  assert (Hpay : Z.of_nat (length payload) = len /\
                 ((len >? 0) = true -> 0 <= fst (UAVObjPack r obj instId))).
  { unfold payload in *. destruct (len >? 0) eqn:Hpos.
    - apply Z.gtb_lt in Hpos. destruct (Hpack Hpos). auto.
    - rewrite Z.gtb_ltb in Hpos. apply Z.ltb_ge in Hpos. simpl. split; [lia|discriminate]. }
  destruct Hpay as [Hpl Hret].
  assert (Hp' : length p = length payload) by lia.
  destruct (UAVObjIsSingleInstance r obj) eqn:Hsingle; simpl in inst.
  - destruct h; [|simpl in Hh; lia]. clear Hh. simpl app. cbv beta iota.
    destruct (len >? 0) eqn:Hpos.
    + destruct (UAVObjPack r obj instId) as [ret bytes] eqn:Hpk.
      simpl in Hret, payload. specialize (Hret eq_refl). subst payload.
      cbv beta iota. simpl set_txBuffer. norm_idx.
      rewrite !list_inserts_cons, (list_inserts_0_r bytes p) by lia.
      replace (ret <? 0) with false by (symmetry; apply Z.ltb_ge; lia).
      subst inst. finish_send bytes 8%nat.
    + subst payload. destruct p; [|simpl in Hp'; lia].
      subst inst. finish_send (@nil Z) 8%nat.
  - do 2 (destruct h as [|? h]; [simpl in Hh; lia|]).
    destruct h; [|simpl in Hh; lia]. clear Hh. simpl app. cbv beta iota.
    cbn [list_insert insert]. rewrite ?u8_land.
    destruct (len >? 0) eqn:Hpos.
    + destruct (UAVObjPack r obj instId) as [ret bytes] eqn:Hpk.
      simpl in Hret, payload. specialize (Hret eq_refl). subst payload.
      cbv beta iota. simpl set_txBuffer. norm_idx.
      rewrite !list_inserts_cons, (list_inserts_0_r bytes p) by lia.
      replace (ret <? 0) with false by (symmetry; apply Z.ltb_ge; lia).
      subst inst. finish_send bytes 10%nat.
    + subst payload. destruct p; [|simpl in Hp'; lia].
      subst inst. finish_send (@nil Z) 10%nat.
Qed.

End Transmit.

(** ** The dispatcher *)

Section Dispatch.

Context {priv : UAVTalkPriv} {ok : UAVTalkPrivOK priv} {R : Type} {mgr : UAVObjManager R}.

Local Abbreviation Conn := UAVTalkConnectionData.

(** The five message types are pairwise different. *)
Lemma types_neq :
  UAVTALK_TYPE_OBJ <> UAVTALK_TYPE_OBJ_REQ /\ UAVTALK_TYPE_OBJ <> UAVTALK_TYPE_OBJ_ACK /\
  UAVTALK_TYPE_OBJ <> UAVTALK_TYPE_ACK /\ UAVTALK_TYPE_OBJ <> UAVTALK_TYPE_NACK /\
  UAVTALK_TYPE_OBJ_REQ <> UAVTALK_TYPE_OBJ_ACK /\ UAVTALK_TYPE_OBJ_REQ <> UAVTALK_TYPE_ACK /\
  UAVTALK_TYPE_OBJ_REQ <> UAVTALK_TYPE_NACK /\ UAVTALK_TYPE_OBJ_ACK <> UAVTALK_TYPE_ACK /\
  UAVTALK_TYPE_OBJ_ACK <> UAVTALK_TYPE_NACK /\ UAVTALK_TYPE_ACK <> UAVTALK_TYPE_NACK.
Proof.
  pose proof type_distinct as H.
  repeat match goal with
         | H : NoDup (_ :: _) |- _ => apply NoDup_cons in H; destruct H
         end.
  repeat match goal with
         | H : _ ∉ _ :: _ |- _ => apply not_elem_of_cons in H; destruct H
         end.
  repeat split; congruence.
Qed.

Lemma types_byte :
  (is_byte UAVTALK_TYPE_OBJ /\ Z.land UAVTALK_TYPE_OBJ UAVTALK_TYPE_MASK = UAVTALK_TYPE_VER) /\
  (is_byte UAVTALK_TYPE_OBJ_REQ /\
     Z.land UAVTALK_TYPE_OBJ_REQ UAVTALK_TYPE_MASK = UAVTALK_TYPE_VER) /\
  (is_byte UAVTALK_TYPE_OBJ_ACK /\
     Z.land UAVTALK_TYPE_OBJ_ACK UAVTALK_TYPE_MASK = UAVTALK_TYPE_VER) /\
  (is_byte UAVTALK_TYPE_ACK /\ Z.land UAVTALK_TYPE_ACK UAVTALK_TYPE_MASK = UAVTALK_TYPE_VER) /\
  (is_byte UAVTALK_TYPE_NACK /\ Z.land UAVTALK_TYPE_NACK UAVTALK_TYPE_MASK = UAVTALK_TYPE_VER).
Proof.
  pose proof type_version as H.
  repeat match goal with
         | H : Forall _ (_ :: _) |- _ => apply Forall_cons in H; destruct H
         end.
  cbv beta in *. tauto.
Qed.

(** Decides the comparisons between message types in the goal. *)
Ltac type_eqb :=
  let H := fresh "Hneq" in
  pose proof types_neq as H;
  repeat match goal with
         | |- context [?a =? ?a] => rewrite (Z.eqb_refl a)
         | |- context [UAVTALK_TYPE_OBJ =? ?b] =>
             replace (UAVTALK_TYPE_OBJ =? b) with false by (symmetry; apply Z.eqb_neq; intuition congruence)
         | |- context [UAVTALK_TYPE_OBJ_REQ =? ?b] =>
             replace (UAVTALK_TYPE_OBJ_REQ =? b) with false by (symmetry; apply Z.eqb_neq; intuition congruence)
         | |- context [UAVTALK_TYPE_OBJ_ACK =? ?b] =>
             replace (UAVTALK_TYPE_OBJ_ACK =? b) with false by (symmetry; apply Z.eqb_neq; intuition congruence)
         | |- context [UAVTALK_TYPE_ACK =? ?b] =>
             replace (UAVTALK_TYPE_ACK =? b) with false by (symmetry; apply Z.eqb_neq; intuition congruence)
         | |- context [UAVTALK_TYPE_NACK =? ?b] =>
             replace (UAVTALK_TYPE_NACK =? b) with false by (symmetry; apply Z.eqb_neq; intuition congruence)
         end;
  clear H.


Lemma receiveObject_OBJ c r objId instId data len :
  instId <> UAVOBJ_ALL_INSTANCES ->
  receiveObject c r UAVTALK_TYPE_OBJ objId instId data len
  = Some (updateAck (logged c UAVTALK_TYPE_OBJ objId instId data len)
            (UAVObjGetByID r objId) instId,
          snd (UAVObjUnpack r (UAVObjGetByID r objId) instId data), 0).
Proof.
  intros Hi. unfold receiveObject, logged. type_eqb.
  rewrite (proj2 (Z.eqb_neq _ _) Hi). simpl.
  destruct (UAVObjUnpack r (UAVObjGetByID r objId) instId data); reflexivity.
Qed.

Lemma receiveObject_ACK c r objId instId data len :
  instId <> UAVOBJ_ALL_INSTANCES ->
  receiveObject c r UAVTALK_TYPE_ACK objId instId data len
  = Some (updateAck (logged c UAVTALK_TYPE_ACK objId instId data len)
            (UAVObjGetByID r objId) instId, r, 0).
Proof.
  intros Hi. unfold receiveObject, logged. type_eqb.
  rewrite (proj2 (Z.eqb_neq _ _) Hi). reflexivity.
Qed.

Lemma receiveObject_OBJ_ACK c r objId instId data len :
  instId <> UAVOBJ_ALL_INSTANCES ->
  let obj := UAVObjGetByID r objId in
  let r' := snd (UAVObjUnpack r obj instId data) in
  receiveObject c r UAVTALK_TYPE_OBJ_ACK objId instId data len
  = if fst (UAVObjUnpack r obj instId data) =? 0 then
      '(c', _) ← sendObject (logged c UAVTALK_TYPE_OBJ_ACK objId instId data len)
                   r' obj instId UAVTALK_TYPE_ACK;
      Some (c', r', 0)
    else Some (logged c UAVTALK_TYPE_OBJ_ACK objId instId data len, r', -1).
Proof.
  intros Hi obj r'. unfold receiveObject, logged. type_eqb.
  rewrite (proj2 (Z.eqb_neq _ _) Hi). simpl. subst r'. fold obj.
  destruct (UAVObjUnpack r obj instId data) as [ret r2]. reflexivity.
Qed.


Lemma updateAck_fields c obj instId :
  let c' := updateAck c obj instId in
  iproc c' = iproc c /\ stats c' = stats c /\ outLog c' = outLog c /\
  dispLog c' = dispLog c /\ respInstId c' = respInstId c /\
  lock c' = lock c /\ transLock c' = transLock c /\ txSize c' = txSize c /\
  respSema c' = (if ack_pending c obj instId then true else respSema c) /\
  respObj c' = (if ack_pending c obj instId then 0 else respObj c).
Proof.
  unfold updateAck. destruct (ack_pending c obj instId); destruct c; simpl; repeat split.
Qed.

Lemma ack_pending_iff c obj instId :
  ack_pending c obj instId = true <->
  respObj c = obj /\ (respInstId c = instId \/ respInstId c = UAVOBJ_ALL_INSTANCES).
Proof.
  unfold ack_pending. rewrite andb_true_iff, orb_true_iff, !Z.eqb_eq. reflexivity.
Qed.

Lemma sendObject_ACK c r obj instId :
  instId <> UAVOBJ_ALL_INSTANCES ->
  sendObject c r obj instId UAVTALK_TYPE_ACK
  = sendSingleObject c r obj instId UAVTALK_TYPE_ACK.
Proof.
  intros Hi. apply Z.eqb_neq in Hi. unfold sendObject. rewrite Hi. simpl.
  type_eqb. rewrite Hi. reflexivity.
Qed.

(** An object frame for one instance. *)
Lemma sendObject_instance c r obj instId type :
  type = UAVTALK_TYPE_OBJ \/ type = UAVTALK_TYPE_OBJ_ACK ->
  instId <> UAVOBJ_ALL_INSTANCES ->
  sendObject c r obj instId type = sendSingleObject c r obj instId type.
Proof.
  intros Hty Hi. apply Z.eqb_neq in Hi. unfold sendObject. rewrite Hi. simpl.
  destruct Hty as [-> | ->]; type_eqb; rewrite ?orb_true_r; simpl; rewrite Hi; reflexivity.
Qed.

(** All instances of a single-instance object: instance 0. *)
Lemma sendObject_all_single c r obj type :
  type = UAVTALK_TYPE_OBJ \/ type = UAVTALK_TYPE_OBJ_ACK ->
  UAVObjIsSingleInstance r obj = true ->
  sendObject c r obj UAVOBJ_ALL_INSTANCES type = sendSingleObject c r obj 0 type.
Proof.
  intros Hty Hs. unfold sendObject. rewrite Z.eqb_refl, Hs. cbn [andb]. cbv zeta.
  rewrite (proj2 (Z.eqb_neq 0 UAVOBJ_ALL_INSTANCES)) by (pose proof all_instances; congruence).
  destruct Hty as [-> | ->]; type_eqb; rewrite ?orb_true_r; reflexivity.
Qed.

(** All instances of a multi-instance object: one frame per instance. *)
Lemma sendObject_all_multi c r obj type :
  type = UAVTALK_TYPE_OBJ \/ type = UAVTALK_TYPE_OBJ_ACK ->
  UAVObjIsSingleInstance r obj = false ->
  sendObject c r obj UAVOBJ_ALL_INSTANCES type
  = c' ← send_instances c r obj type (seqZ 0 (UAVObjGetNumInstances r obj)); Some (c', 0).
Proof.
  intros Hty Hs. unfold sendObject. rewrite Z.eqb_refl, Hs. cbn [andb]. cbv zeta.
  rewrite Z.eqb_refl.
  destruct Hty as [-> | ->]; type_eqb; rewrite ?orb_true_r; reflexivity.
Qed.

End Dispatch.

(** ** The concrete instance meets the assumptions *)

Lemma crc8_round_byte x : is_byte (Ref.crc8_round x).
Proof. unfold Ref.crc8_round. destruct (Z.testbit x 7); apply is_byte_land. Qed.

Lemma crc8_updateByte_byte crc b : is_byte (Ref.crc8_updateByte crc b).
Proof. unfold Ref.crc8_updateByte. cbn [Nat.iter]. apply crc8_round_byte. Qed.

#[export] Instance Ref_priv_ok : UAVTalkPrivOK Ref.priv.
Proof.
  split.
  - unfold is_byte; simpl; lia.
  - repeat constructor; unfold is_byte; simpl; lia.
  - repeat constructor; simpl; rewrite ?not_elem_of_cons, ?elem_of_nil; intuition congruence.
  - simpl; lia.
  - simpl; lia.
  - simpl; lia.
  - reflexivity.
  - discriminate.
  - exact crc8_updateByte_byte.
  - reflexivity.
Qed.

(** ** Pending transactions *)

Section Pending.

Context {priv : UAVTalkPriv} {ok : UAVTalkPrivOK priv} {R : Type} {mgr : UAVObjManager R}.

Local Abbreviation Conn := UAVTalkConnectionData.


(** C10. For an inbound DATA frame with an instance id that is not the
    wildcard, the pending-transaction check is made after the unpack whatever
    the unpack returned: a matching pending transaction is completed (signal
    raised, slot cleared) for every status of the unpack. For a
    DATA-WITH-ACK frame the ACK is handed to the transmitter when the unpack
    returned 0, and nothing is written to the output stream otherwise. *)
Theorem data_checks_pending_whatever_unpack (c : Conn) (r : R) (objId instId : Z)
    (data : list Z) (len : Z) :
  instId <> UAVOBJ_ALL_INSTANCES ->
  let obj := UAVObjGetByID r objId in
  let status := fst (UAVObjUnpack r obj instId data) in
  let r' := snd (UAVObjUnpack r obj instId data) in
  (* DATA *)
  (receiveObject c r UAVTALK_TYPE_OBJ objId instId data len
     = Some (updateAck (logged c UAVTALK_TYPE_OBJ objId instId data len) obj instId, r', 0)
   /\ (respObj c = obj ->
       respInstId c = instId \/ respInstId c = UAVOBJ_ALL_INSTANCES ->
       exists c',
         receiveObject c r UAVTALK_TYPE_OBJ objId instId data len = Some (c', r', 0) /\
         respSema c' = true /\ respObj c' = 0)) /\
  (* DATA-WITH-ACK *)
  (status <> 0 ->
     exists c',
       receiveObject c r UAVTALK_TYPE_OBJ_ACK objId instId data len = Some (c', r', -1) /\
       outLog c' = outLog c) /\
  (status = 0 ->
     receiveObject c r UAVTALK_TYPE_OBJ_ACK objId instId data len
     = '(c', _) ← sendObject (logged c UAVTALK_TYPE_OBJ_ACK objId instId data len)
                    r' obj instId UAVTALK_TYPE_ACK;
       Some (c', r', 0)).
Proof.
  intros Hinst obj status r'. split; [split|split].
  - apply receiveObject_OBJ; assumption.
  - intros Ho Hi.
    exists (updateAck (logged c UAVTALK_TYPE_OBJ objId instId data len) obj instId).
    split; [apply receiveObject_OBJ; assumption|].
    destruct (updateAck_fields (logged c UAVTALK_TYPE_OBJ objId instId data len) obj instId)
      as (_ & _ & _ & _ & _ & _ & _ & _ & Hsem & Hro).
    assert (Hp : ack_pending (logged c UAVTALK_TYPE_OBJ objId instId data len) obj instId
                 = true).
    { apply ack_pending_iff. destruct c; simpl in *. auto. }
    rewrite Hp in Hsem, Hro. auto.
  - intros Hs. exists (logged c UAVTALK_TYPE_OBJ_ACK objId instId data len).
    rewrite receiveObject_OBJ_ACK by assumption. fold obj. fold status.
    rewrite (proj2 (Z.eqb_neq _ _) Hs). split; [reflexivity|].
    destruct c; reflexivity.
  - intros Hs. rewrite receiveObject_OBJ_ACK by assumption. fold obj. fold status.
    rewrite Hs. reflexivity.
Qed.

End Pending.

(** ** The engine on explicit inputs *)

Section Scenarios.

Import Ref.

(** C1, on a frame for which the round trip fails. The sender transmits
    instance 1 of the two-instance object [M] as a DATA frame; the header
    carries the instance id, so the length field is 10 + 1. The receiver knows
    [M], compares 8 + 1 with the length field when the object id is complete,
    counts a receive error and returns to the sync state: the dispatcher is
    never called. *)
Theorem multi_instance_frame_is_rejected :
  UAVObjGetByID peer 305419896 = 2 /\
  UAVObjIsSingleInstance peer 2 = false /\
  UAVObjGetNumInstances peer 2 = 2 /\
  wire (sendSingleObject c64 sender 2 1 UAVTALK_TYPE_OBJ)
    = Some [60; 32; 11; 0; 120; 86; 52; 18; 1; 0; 9; 246] /\
  observe (feed c64 peer [60; 32; 11; 0; 120; 86; 52; 18; 1; 0; 9; 246])
    = Some (UAVTALK_STATE_SYNC, 1, [], []).
Proof. repeat split; vm_compute; reflexivity. Qed.

(** C7, on a frame for which it fails. Instance 0 of [M] goes out as a DATA
    frame with checksum 183; the checksum is replaced by 60, which is the sync
    byte. The receiver has dropped the frame at the end of the object id (one
    receive error, no dispatch), reads the rest as bytes between frames, and
    takes the last byte for the start of a frame: it ends in the type state. *)
Theorem corrupted_multi_instance_frame_not_in_sync :
  wire (sendSingleObject c64 sender 2 0 UAVTALK_TYPE_OBJ)
    = Some [60; 32; 11; 0; 120; 86; 52; 18; 0; 0; 7; 183] /\
  observe (feed c64 peer [60; 32; 11; 0; 120; 86; 52; 18; 0; 0; 7; 60])
    = Some (UAVTALK_STATE_TYPE, 1, [], []).
Proof. repeat split; vm_compute; reflexivity. Qed.

(** C4, on a connection created with a maximum chunk size of 4. An object
    frame goes out in pieces of at most 4 bytes; the NACK frame goes out as
    one write of 9 bytes. *)
Theorem nack_written_in_one_piece :
  txSize c4 = 4 /\
  outLog <$> (fst <$> sendSingleObject c4 sender 1 0 UAVTALK_TYPE_OBJ_ACK)
    = Some [[60; 34; 12; 0]; [239; 190; 173; 222]; [1; 2; 3; 4]; [13]] /\
  outLog (fst (sendNack c4 3735928559))
    = [[60; 36; 8; 0; 239; 190; 173; 222; 131]].
Proof. repeat split; vm_compute; reflexivity. Qed.

(** C2 does not hold as stated: the length field of the DATA-WITH-ACK frame
    for the 4-byte object [A] is not 13. *)
Lemma length_field_of_A_is_not_13 :
  ~ (exists frame,
       wire (sendSingleObject c64 sender 1 0 UAVTALK_TYPE_OBJ_ACK) = Some frame /\
       take 2 (drop 2 frame) = le16 13).
Proof.
  intros (frame & Hw & Hl). vm_compute in Hw. injection Hw as <-.
  vm_compute in Hl. discriminate.
Qed.

(** C3 does not hold as stated: sending [A] with the wildcard instance id and
    an acknowledgment required writes a DATA-WITH-ACK frame, and returns 0
    when the ACK comes in during the wait. *)
Lemma wildcard_acked_send_is_not_rejected :
  (fun '(c, _, ret) => (ret, outLog c))
    <$> UAVTalkSendObject [60; 35; 8; 0; 239; 190; 173; 222; 144] [] c64 sender
          1 UAVOBJ_ALL_INSTANCES 1 100
  = Some (0, [[60; 34; 12; 0; 239; 190; 173; 222; 1; 2; 3; 4; 13]]) /\
  ~ (exists rxWait c' r',
       UAVTalkSendObject rxWait [] c64 sender 1 UAVOBJ_ALL_INSTANCES 1 100
         = Some (c', r', -1) /\
       rxWait = [60; 35; 8; 0; 239; 190; 173; 222; 144] /\
       outLog c' = outLog c64).
Proof.
  split; [vm_compute; reflexivity|].
  intros (rxWait & c' & r' & Hrun & -> & Hlog). vm_compute in Hrun. discriminate.
Qed.

(** C6 does not hold as stated: the object [B], whose 255 bytes do not exceed
    the maximum payload length and which packs, is refused. *)
Lemma payload_of_maximum_length_is_refused :
  ~ (snd <$> sendSingleObject c64 sender 3 0 UAVTALK_TYPE_OBJ = Some (-1) <->
     UAVObjGetNumBytes sender 3 > UAVTALK_MAX_PAYLOAD_LENGTH \/
     fst (UAVObjPack sender 3 0) < 0).
Proof.
  intros [H _].
  assert (Hr : snd <$> sendSingleObject c64 sender 3 0 UAVTALK_TYPE_OBJ = Some (-1))
    by (vm_compute; reflexivity).
  destruct (H Hr) as [Hl | Hl]; vm_compute in Hl; discriminate.
Qed.

End Scenarios.

(** ** What the transmitter leaves untouched *)

Section Frames.

Context {priv : UAVTalkPriv} {ok : UAVTalkPrivOK priv} {R : Type} {mgr : UAVObjManager R}.

Local Abbreviation Conn := UAVTalkConnectionData.

Lemma tx_rel_refl c : tx_rel c c.
Proof. split; try reflexivity. exists []. symmetry. apply app_nil_r. Qed.

Lemma tx_rel_trans c1 c2 c3 : tx_rel c1 c2 -> tx_rel c2 c3 -> tx_rel c1 c3.
Proof.
  intros [] []. split; try congruence.
  destruct tx_outLog0 as [l1 H1], tx_outLog1 as [l2 H2].
  exists (l1 ++ l2). rewrite H2, H1, app_assoc. reflexivity.
Qed.

Lemma tx_rel_set_txBuffer c c1 f :
  (forall b, length (f b) = length b) ->
  tx_rel c c1 -> tx_rel c (set_txBuffer f c1).
Proof.
  intros Hf H. apply (tx_rel_trans _ _ _ H).
  destruct c1; split; simpl; try reflexivity; [apply Hf | exists []; symmetry; apply app_nil_r].
Qed.

Lemma tx_rel_tx_store c c1 i v : tx_rel c c1 -> tx_rel c (tx_store i v c1).
Proof. apply tx_rel_set_txBuffer. intros b. apply length_insert. Qed.

Lemma tx_rel_outStream_write c c1 buf : tx_rel c c1 -> tx_rel c (outStream_write buf c1).
Proof.
  intros H. apply (tx_rel_trans _ _ _ H). unfold outStream_write.
  destruct c1 as [? ? []]; split; simpl; try reflexivity;
    solve [exists [buf]; reflexivity | exists []; symmetry; apply app_nil_r].
Qed.

Lemma tx_rel_set_outLog c c1 k :
  tx_rel c c1 -> tx_rel c (set_outLog (fun l => if outStream c1 then l ++ k else l) c1).
Proof.
  intros H. apply (tx_rel_trans _ _ _ H).
  destruct c1 as [? ? []]; split; simpl; try reflexivity;
    solve [exists k; reflexivity | exists []; symmetry; apply app_nil_r].
Qed.

Lemma tx_rel_txObjects c c1 f : tx_rel c c1 -> tx_rel c (set_stats (set_txObjects f) c1).
Proof.
  intros H. apply (tx_rel_trans _ _ _ H).
  destruct c1 as [? []]; split; simpl; try reflexivity. exists []; symmetry; apply app_nil_r.
Qed.

Lemma tx_rel_txBytes c c1 f : tx_rel c c1 -> tx_rel c (set_stats (set_txBytes f) c1).
Proof.
  intros H. apply (tx_rel_trans _ _ _ H).
  destruct c1 as [? []]; split; simpl; try reflexivity. exists []; symmetry; apply app_nil_r.
Qed.

Lemma tx_rel_txObjectBytes c c1 f :
  tx_rel c c1 -> tx_rel c (set_stats (set_txObjectBytes f) c1).
Proof.
  intros H. apply (tx_rel_trans _ _ _ H).
  destruct c1 as [? []]; split; simpl; try reflexivity. exists []; symmetry; apply app_nil_r.
Qed.

Create HintDb tx discriminated.
#[local] Hint Resolve tx_rel_refl tx_rel_tx_store tx_rel_outStream_write tx_rel_set_outLog
  tx_rel_txObjects tx_rel_txBytes tx_rel_txObjectBytes : tx.

Lemma tx_rel_inserts c c1 off bytes :
  tx_rel c c1 -> tx_rel c (set_txBuffer (list_inserts off bytes) c1).
Proof. apply tx_rel_set_txBuffer. intros b. apply length_inserts. Qed.

#[local] Hint Resolve tx_rel_inserts : tx.

Lemma buf_rel_refl c : buf_rel c c.
Proof. destruct c; split; reflexivity. Qed.

Lemma buf_rel_set_txBuffer c c1 f :
  (forall b, length (f b) = length b) ->
  buf_rel c c1 -> buf_rel c (set_txBuffer f c1).
Proof.
  intros Hf [Hl He]. destruct c, c1; simpl in *. inversion He; subst.
  split; simpl; [rewrite Hf; exact Hl | reflexivity].
Qed.

Lemma buf_rel_tx_store c c1 i v : buf_rel c c1 -> buf_rel c (tx_store i v c1).
Proof. apply buf_rel_set_txBuffer. intros b. apply length_insert. Qed.

Lemma buf_rel_inserts c c1 off bytes :
  buf_rel c c1 -> buf_rel c (set_txBuffer (list_inserts off bytes) c1).
Proof. apply buf_rel_set_txBuffer. intros b. apply length_inserts. Qed.

#[local] Hint Resolve buf_rel_refl buf_rel_tx_store buf_rel_inserts : tx.

Lemma buf_rel_tx_rel c c' : buf_rel c c' -> tx_rel c c'.
Proof.
  intros [Hl He]. destruct c, c'; simpl in *. inversion He; subst.
  split; simpl; try reflexivity; [exact Hl | exists []; symmetry; apply app_nil_r].
Qed.

Lemma buf_rel_outLog c c' : buf_rel c c' -> outLog c' = outLog c.
Proof. intros [_ He]. rewrite He. destruct c; reflexivity. Qed.

(** [sendSingleObject] returns whenever the chunk size is positive. It
    returns -1 exactly when the payload length reaches the maximum or the
    pack fails, and then nothing was written. *)
Lemma sendSingleObject_rel c r obj instId type :
  1 <= txSize c ->
  let len := if (type =? UAVTALK_TYPE_OBJ_REQ) || (type =? UAVTALK_TYPE_ACK) then 0
             else UAVObjGetNumBytes r obj in
  exists c' ret,
    sendSingleObject c r obj instId type = Some (c', ret) /\
    tx_rel c c' /\
    (ret = -1 \/ ret = 0) /\
    (ret = -1 <->
       UAVTALK_MAX_PAYLOAD_LENGTH <= len \/
       (0 < len /\ fst (UAVObjPack r obj instId) < 0)) /\
    (ret = -1 -> outLog c' = outLog c).
Proof.
  intros Htx len. unfold sendSingleObject. fold len. cbv zeta.
  set (c1 := tx_store 7 _ _).
  assert (H1 : buf_rel c c1) by (unfold c1; auto 10 with tx).
  set (cd := if UAVObjIsSingleInstance r obj then _ else _).
  assert (Hcd : exists c2 off, cd = (c2, off) /\ buf_rel c c2).
  { unfold cd. destruct (UAVObjIsSingleInstance r obj); eexists _, _; split;
      try reflexivity; auto 10 with tx. }
  destruct Hcd as (c2 & off & -> & H2). clearbody c1. clear H1 c1.
  destruct (len >=? UAVTALK_MAX_PAYLOAD_LENGTH) eqn:Hmax;
    rewrite Z.geb_leb in Hmax; [apply Z.leb_le in Hmax | apply Z.leb_gt in Hmax].
  { exists c2, (-1). split; [reflexivity|]. split; [apply buf_rel_tx_rel; exact H2|].
    split; [auto|]. split; [tauto|]. intros _. apply buf_rel_outLog; exact H2. }
  set (cp := if len >? 0 then _ else _).
  assert (Hcp : exists c3 packed, cp = (c3, packed) /\ buf_rel c c3 /\
                  (packed < 0 <-> 0 < len /\ fst (UAVObjPack r obj instId) < 0)).
  { unfold cp. destruct (len >? 0) eqn:Hpos; rewrite Z.gtb_ltb in Hpos;
      [apply Z.ltb_lt in Hpos | apply Z.ltb_ge in Hpos].
    - destruct (UAVObjPack r obj instId) as [ret bytes]. simpl.
      eexists _, _; split; [reflexivity|]. split; [auto with tx | tauto].
    - eexists _, _; split; [reflexivity|]. split; [auto with tx | lia]. }
  destruct Hcp as (c3 & packed & -> & H3 & Hpk).
  destruct (packed <? 0) eqn:Hneg; [apply Z.ltb_lt in Hneg | apply Z.ltb_ge in Hneg].
  { exists c3, (-1). split; [reflexivity|]. split; [apply buf_rel_tx_rel; exact H3|].
    split; [auto|]. split; [tauto|]. intros _. apply buf_rel_outLog; exact H3. }
  match goal with
  | |- context [send_loop ?t ?tot 0 ?c4] =>
      assert (H4 : buf_rel c c4) by auto 10 with tx;
      destruct (send_loop_spec t tot 0 c4) as (chunks & He & _ & _);
        [rewrite (tx_txSize _ _ (buf_rel_tx_rel _ _ H4)); exact Htx | lia | lia |];
      rewrite He; simpl
  end.
  eexists _, 0. split; [reflexivity|].
  split; [auto 10 using buf_rel_tx_rel with tx|].
  split; [auto|]. split; [|discriminate].
  split; [discriminate|]. lia.
Qed.

Lemma sendNack_rel c objId : tx_rel c (fst (sendNack c objId)) /\ snd (sendNack c objId) = 0.
Proof. unfold sendNack. cbv zeta. simpl. split; [auto 20 with tx | reflexivity]. Qed.

Lemma send_instances_rel r obj type ns : forall c,
  1 <= txSize c ->
  exists c', send_instances c r obj type ns = Some c' /\ tx_rel c c'.
Proof.
  induction ns as [|n ns IH]; intros c Htx; simpl.
  - exists c. split; [reflexivity | apply tx_rel_refl].
  - destruct (sendSingleObject_rel c r obj (u16 n) type Htx) as (c1 & ret & He & H1 & _).
    rewrite He. simpl.
    destruct (IH c1) as (c2 & He2 & H2); [rewrite (tx_txSize _ _ H1); exact Htx|].
    exists c2. split; [exact He2 | eapply tx_rel_trans; eassumption].
Qed.

(** [sendObject] returns whenever the chunk size is positive. *)
Lemma sendObject_rel c r obj instId type :
  1 <= txSize c ->
  exists c' ret, sendObject c r obj instId type = Some (c', ret) /\ tx_rel c c'.
Proof.
  intros Htx. unfold sendObject. cbv zeta.
  set (inst := if _ && _ then 0 else instId).
  destruct (_ || _).
  - destruct (inst =? UAVOBJ_ALL_INSTANCES).
    + destruct (send_instances_rel r obj type (seqZ 0 (UAVObjGetNumInstances r obj)) c Htx)
        as (c1 & He & H1).
      rewrite He. simpl. eauto.
    + destruct (sendSingleObject_rel c r obj inst type Htx) as (c1 & ret & He & H1 & _). eauto.
  - destruct (type =? UAVTALK_TYPE_OBJ_REQ).
    + destruct (sendSingleObject_rel c r obj inst UAVTALK_TYPE_OBJ_REQ Htx)
        as (c1 & ret & He & H1 & _). eauto.
    + destruct (type =? UAVTALK_TYPE_ACK); [destruct (negb _)|].
      * destruct (sendSingleObject_rel c r obj inst UAVTALK_TYPE_ACK Htx)
          as (c1 & ret & He & H1 & _). eauto.
      * eexists _, _. split; [reflexivity | apply tx_rel_refl].
      * eexists _, _. split; [reflexivity | apply tx_rel_refl].
Qed.

(** *** What the receive task leaves untouched *)

Lemma evolves_refl c : evolves c c.
Proof. split; auto. exists []. symmetry. apply app_nil_r. Qed.

Lemma evolves_trans c1 c2 c3 : evolves c1 c2 -> evolves c2 c3 -> evolves c1 c3.
Proof.
  intros [] []. split; try congruence.
  - destruct ev_outLog0 as [l1 H1], ev_outLog1 as [l2 H2].
    exists (l1 ++ l2). rewrite H2, H1, app_assoc. reflexivity.
  - destruct ev_resp1 as [[Ha Hb] | Hc]; [|right; exact Hc].
    destruct ev_resp0 as [[Hd He] | Hf]; [left | right]; split; intuition congruence.
Qed.

Lemma tx_rel_evolves c c' : tx_rel c c' -> evolves c c'.
Proof. intros []. split; auto. Qed.

Lemma evolves_set_iproc c f : evolves c (set_iproc f c).
Proof. destruct c; split; simpl; auto. exists []. symmetry. apply app_nil_r. Qed.

Lemma evolves_set_stats c f : evolves c (set_stats f c).
Proof. destruct c; split; simpl; auto. exists []. symmetry. apply app_nil_r. Qed.

Lemma evolves_set_rxBuffer c f : evolves c (set_rxBuffer f c).
Proof. destruct c; split; simpl; auto. exists []. symmetry. apply app_nil_r. Qed.

Lemma evolves_set_dispLog c f : evolves c (set_dispLog f c).
Proof. destruct c; split; simpl; auto. exists []. symmetry. apply app_nil_r. Qed.

Lemma evolves_updateAck c obj instId : evolves c (updateAck c obj instId).
Proof.
  destruct (updateAck_fields c obj instId) as (_ & _ & Hol & _ & Hri & Hl & Htl & Hts & Hs & Ho).
  split; auto.
  - unfold updateAck. destruct (ack_pending c obj instId); destruct c; reflexivity.
  - exists []. rewrite Hol. symmetry. apply app_nil_r.
  - rewrite Hs, Ho. destruct (ack_pending c obj instId); auto.
Qed.

Lemma evolves_step c c1 c2 : evolves c c1 -> evolves c1 c2 -> evolves c c2.
Proof. apply evolves_trans. Qed.

(** The dispatcher returns whenever the chunk size is positive; it logs its
    call and leaves input processor, receive buffer and receive errors
    alone. *)
Lemma receiveObject_evolves c r type objId instId data len :
  1 <= txSize c ->
  exists c' r' ret,
    receiveObject c r type objId instId data len = Some (c', r', ret) /\
    evolves c c' /\
    dispLog c' = dispLog c ++ [mkCall type objId instId (take (Z.to_nat len) data)] /\
    iproc c' = iproc c /\
    rxErrors (stats c') = rxErrors (stats c).
Proof.
  intros Htx. unfold receiveObject. cbv zeta.
  set (c0 := set_dispLog _ c).
  assert (H0 : evolves c c0) by apply evolves_set_dispLog.
  assert (Htx0 : 1 <= txSize c0) by (rewrite (ev_txSize _ _ H0); exact Htx).
  assert (Hleaf : forall c' obj,
             c' = c0 \/ c' = updateAck c0 obj instId \/ tx_rel c0 c' ->
             evolves c c' /\
             dispLog c' = dispLog c ++ [mkCall type objId instId (take (Z.to_nat len) data)] /\
             iproc c' = iproc c /\ rxErrors (stats c') = rxErrors (stats c)).
  { assert (Hc0 : dispLog c0
                  = dispLog c ++ [mkCall type objId instId (take (Z.to_nat len) data)] /\
                  iproc c0 = iproc c /\ stats c0 = stats c)
      by (unfold c0; destruct c; repeat split).
    destruct Hc0 as (Hd0 & Hi0 & Hs0).
    intros c' obj [-> | [-> | Hrel]].
    - rewrite Hs0. auto.
    - destruct (updateAck_fields c0 obj instId) as (Hi & Hs & _ & Hd & _).
      split; [eapply evolves_trans; [exact H0 | apply evolves_updateAck]|].
      rewrite Hd, Hi, Hs, Hs0. auto.
    - split; [eapply evolves_trans; [exact H0 | apply tx_rel_evolves; exact Hrel]|].
      destruct Hrel. rewrite tx_dispLog0, tx_iproc0, tx_rxErrors0, Hs0. auto. }
  clearbody c0.
  set (obj := UAVObjGetByID r objId).
  destruct (type =? UAVTALK_TYPE_OBJ).
  { destruct (negb _).
    - destruct (UAVObjUnpack r obj instId data) as [ret r'].
      eexists _, _, _. split; [reflexivity | apply (Hleaf _ obj); auto].
    - eexists _, _, _. split; [reflexivity | apply (Hleaf _ obj); auto]. }
  destruct (type =? UAVTALK_TYPE_OBJ_ACK).
  { destruct (negb _).
    - destruct (UAVObjUnpack r obj instId data) as [ret r'].
      destruct (ret =? 0).
      + destruct (sendObject_rel c0 r' obj instId UAVTALK_TYPE_ACK Htx0) as (c1 & ret1 & He & H1).
        rewrite He. simpl. eexists _, _, _. split; [reflexivity | apply (Hleaf _ obj); auto].
      + eexists _, _, _. split; [reflexivity | apply (Hleaf _ obj); auto].
    - eexists _, _, _. split; [reflexivity | apply (Hleaf _ obj); auto]. }
  destruct (type =? UAVTALK_TYPE_OBJ_REQ).
  { destruct (obj =? 0).
    - destruct (sendNack_rel c0 objId) as [H1 _].
      destruct (sendNack c0 objId) as [c1 ret1]. simpl in H1.
      eexists _, _, _. split; [reflexivity | apply (Hleaf _ obj); auto].
    - destruct (sendObject_rel c0 r obj instId UAVTALK_TYPE_OBJ Htx0) as (c1 & ret1 & He & H1).
      rewrite He. simpl. eexists _, _, _. split; [reflexivity | apply (Hleaf _ obj); auto]. }
  destruct (type =? UAVTALK_TYPE_NACK).
  { eexists _, _, _. split; [reflexivity | apply (Hleaf _ obj); auto]. }
  destruct (type =? UAVTALK_TYPE_ACK).
  { destruct (negb _).
    - eexists _, _, _. split; [reflexivity | apply (Hleaf _ obj); auto].
    - eexists _, _, _. split; [reflexivity | apply (Hleaf _ obj); auto]. }
  eexists _, _, _. split; [reflexivity | apply (Hleaf _ obj); auto].
Qed.

Lemma ev_iproc c c1 f : evolves c c1 -> evolves c (set_iproc f c1).
Proof. intros H. eapply evolves_trans; [exact H | apply evolves_set_iproc]. Qed.

Lemma ev_stats c c1 f : evolves c c1 -> evolves c (set_stats f c1).
Proof. intros H. eapply evolves_trans; [exact H | apply evolves_set_stats]. Qed.

Lemma ev_rxBuffer c c1 f : evolves c c1 -> evolves c (set_rxBuffer f c1).
Proof. intros H. eapply evolves_trans; [exact H | apply evolves_set_rxBuffer]. Qed.

Create HintDb ev discriminated.
#[local] Hint Resolve evolves_refl ev_iproc ev_stats ev_rxBuffer : ev.

(** Taking the connection lock around the dispatcher and giving it back. *)
Lemma ev_locked c0 c2 : evolves (set_lock S c0) c2 -> evolves c0 (set_lock Nat.pred c2).
Proof.
  intros []. destruct c0, c2; simpl in *. split; simpl; auto.
  rewrite ev_lock0. reflexivity.
Qed.

(** The state machine returns for every byte whenever the chunk size is
    positive. *)
Lemma process_evolves c r b :
  1 <= txSize c ->
  exists c' r', UAVTalkProcessInputStream c r b = Some (c', r', 0) /\ evolves c c'.
Proof.
  intros Htx. unfold UAVTalkProcessInputStream. cbv zeta.
  set (c0 := if _ <? 65535 then _ else _).
  assert (H0 : evolves c c0) by (unfold c0; destruct (_ <? _); auto with ev).
  assert (Htx0 : 1 <= txSize c0) by (rewrite (ev_txSize _ _ H0); exact Htx).
  clearbody c0.
  destruct (ip_state (iproc c0)).
  all: try solve
    [ repeat match goal with
             | |- context [if ?b then _ else _] => destruct b
             end;
      eexists _, _; (split; [reflexivity | auto 20 with ev]) ].
  (* the checksum state *)
  destruct (negb (b =? _)); [eexists _, _; split; [reflexivity | auto 20 with ev]|].
  destruct (negb (_ =? _)); [eexists _, _; split; [reflexivity | auto 20 with ev]|].
  match goal with
  | |- context [receiveObject ?c1 r ?ty ?oi ?ii ?d ?l] =>
      destruct (receiveObject_evolves c1 r ty oi ii d l) as (c2 & r' & ret & He & H2 & _);
        [destruct c0; exact Htx0 | rewrite He; simpl]
  end.
  eexists _, _. split; [reflexivity|].
  apply ev_iproc. eapply evolves_trans; [exact H0|].
  apply ev_locked. auto with ev.
Qed.

(** The receive task returns for every stream of bytes, and leaves the locks
    and the chunk size as they were. *)
Lemma feed_evolves bytes : forall c r,
  1 <= txSize c ->
  exists c' r', feed c r bytes = Some (c', r') /\ evolves c c'.
Proof.
  induction bytes as [|b bytes IH]; intros c r Htx; simpl.
  - exists c, r. split; [reflexivity | apply evolves_refl].
  - destruct (process_evolves c r b Htx) as (c1 & r1 & He & H1). rewrite He. simpl.
    destruct (IH c1 r1) as (c2 & r2 & He2 & H2); [rewrite (ev_txSize _ _ H1); exact Htx|].
    exists c2, r2. split; [exact He2 | eapply evolves_trans; eassumption].
Qed.

End Frames.

(** ** Frames for unknown objects *)

Section UnknownObject.

Context {priv : UAVTalkPriv} {ok : UAVTalkPrivOK priv} {R : Type} {mgr : UAVObjManager R}.

Ltac norm_idx :=
  change (Z.to_nat 0) with 0%nat; change (Z.to_nat 1) with 1%nat;
  change (Z.to_nat 2) with 2%nat; change (Z.to_nat 3) with 3%nat;
  change (Z.to_nat 4) with 4%nat; change (Z.to_nat 5) with 5%nat;
  change (Z.to_nat 6) with 6%nat; change (Z.to_nat 7) with 7%nat;
  change (Z.to_nat 8) with 8%nat; change (Z.to_nat 9) with 9%nat;
  change (Z.to_nat 10) with 10%nat.


(** Bytes other than the sync byte leave a machine that is in the sync state
    where it is. *)
Lemma feed_skip tail : forall c r,
  ip_state (iproc c) = UAVTALK_STATE_SYNC ->
  Forall (fun b => b <> UAVTALK_SYNC_VAL) tail ->
  exists c', feed c r tail = Some (c', r) /\
    ip_state (iproc c') = UAVTALK_STATE_SYNC /\
    rxErrors (stats c') = rxErrors (stats c) /\
    dispLog c' = dispLog c /\ outLog c' = outLog c.
Proof.
  induction tail as [|b tail IH]; intros c r Hs Hall.
  - exists c. repeat split; (reflexivity || assumption).
  - apply Forall_cons in Hall. destruct Hall as [Hb Hall].
    destruct c as [[o ty ps oi ii len cs rc st rpl] [] os lk tl sem ro ri txs rxb txb ol dl].
    simpl in Hs. subst st. cbn [feed]. rewrite step_sync_skip by exact Hb. next.
    match goal with |- context [feed ?c1 r tail] =>
      destruct (IH c1 r eq_refl Hall) as (c' & He & H1 & H2 & H3 & H4) end.
    exists c'. split; [exact He|]. simpl in *. auto.
Qed.

End UnknownObject.

(** ** Round trips *)

Section RoundTrip.

Context {priv : UAVTalkPriv} {ok : UAVTalkPrivOK priv} {R : Type} {mgr : UAVObjManager R}.

Local Abbreviation Conn := UAVTalkConnectionData.

Lemma take_inserts_0 (k l : list Z) :
  (length k <= length l)%nat -> take (length k) (list_inserts 0 k l) = k.
Proof.
  intros H. rewrite <- (take_drop (length k) l) at 1.
  rewrite list_inserts_0_r by (rewrite length_take; lia).
  apply take_app_length.
Qed.

(** Frames of single-instance objects make the round trip: a frame without
    instance id for a known single-instance object, of the payload length
    the receiver expects, is dispatched once, with its type, object id,
    instance 0 and payload, and the machine is back in the sync state. *)
Theorem single_instance_frame_dispatched (c : Conn) (r : R) (t id : Z) (payload : list Z) :
  ip_state (iproc c) = UAVTALK_STATE_SYNC ->
  1 <= txSize c ->
  Z.land t UAVTALK_TYPE_MASK = UAVTALK_TYPE_VER ->
  0 <= id < 4294967296 ->
  UAVObjGetByID r id <> 0 ->
  UAVObjIsSingleInstance r (UAVObjGetByID r id) = true ->
  rx_length r t (UAVObjGetByID r id) = Z.of_nat (length payload) ->
  Z.of_nat (length payload) < UAVTALK_MAX_PAYLOAD_LENGTH ->
  (length payload <= length (rxBuffer c))%nat ->
  exists c' r',
    feed c r (frame_of t id [] payload) = Some (c', r') /\
    dispLog c' = dispLog c ++ [mkCall t id 0 payload] /\
    rxErrors (stats c') = rxErrors (stats c) /\
    ip_state (iproc c') = UAVTALK_STATE_SYNC.
Proof.
  intros Hst Htx Ht Hid Hobj Hsingle Hlen Hmax Hrx.
  destruct c as [[o ty ps oi ii len cs rc st rpl] sts os lk tl sem ro ri txs rxb txb ol dl].
  cbn [ip_state iproc txSize rxBuffer] in Hst, Htx, Hrx. subst st.
  rewrite feed_frame by assumption.
  match goal with |- context [receiveObject ?c1 r t id 0 ?d ?l] =>
    destruct (receiveObject_evolves c1 r t id 0 d l) as (c2 & r2 & ret & He & _ & Hd & Hi & Hs);
      [exact Htx | rewrite He]
  end.
  cbn [dispLog stats iproc] in Hd, Hi, Hs.
  rewrite Nat2Z.id, take_inserts_0 in Hd by exact Hrx.
  change (mbind ?f (Some ?x)) with (f x). cbv beta iota.
  eexists _, _. split; [reflexivity|].
  destruct c2 as [[] [] ? ? ? ? ? ? ? ? ? ? ?]. destruct sts. simpl in *. auto.
Qed.

(** X2. A wrong checksum byte at the end of a frame for a known
    single-instance object: one receive error is counted, the dispatcher is
    not called, nothing is written and the machine is back in the sync
    state. *)
Theorem single_instance_bad_checksum (c : Conn) (r : R) (t id : Z) (payload : list Z)
    (bad : Z) :
  ip_state (iproc c) = UAVTALK_STATE_SYNC ->
  Z.land t UAVTALK_TYPE_MASK = UAVTALK_TYPE_VER ->
  0 <= id < 4294967296 ->
  UAVObjGetByID r id <> 0 ->
  UAVObjIsSingleInstance r (UAVObjGetByID r id) = true ->
  rx_length r t (UAVObjGetByID r id) = Z.of_nat (length payload) ->
  Z.of_nat (length payload) < UAVTALK_MAX_PAYLOAD_LENGTH ->
  bad <> PIOS_CRC_updateCRC 0 (frame_body t id [] payload) ->
  exists c',
    feed c r (frame_body t id [] payload ++ [bad]) = Some (c', r) /\
    dispLog c' = dispLog c /\ outLog c' = outLog c /\
    rxErrors (stats c') = incr32 (rxErrors (stats c)) /\
    ip_state (iproc c') = UAVTALK_STATE_SYNC.
Proof.
  intros Hst Ht Hid Hobj Hsingle Hlen Hmax Hbad.
  destruct c as [[o ty ps oi ii len cs rc st rpl] sts os lk tl sem ro ri txs rxb txb ol dl].
  cbn [ip_state iproc] in Hst. subst st.
  rewrite feed_frame_bad_cs by assumption.
  eexists. split; [reflexivity|]. destruct sts. simpl. auto.
Qed.

(** X3. Frames of multi-instance objects do not make the round trip: the
    frame the transmitter builds for an instance of a known multi-instance
    object is dropped when its object id is complete, with a receive error
    and without a dispatch; what follows is read as bytes between frames. *)
Theorem multi_instance_frame_dropped (c : Conn) (r : R) (t id instId : Z)
    (payload : list Z) :
  ip_state (iproc c) = UAVTALK_STATE_SYNC ->
  Z.land t UAVTALK_TYPE_MASK = UAVTALK_TYPE_VER ->
  0 <= id < 4294967296 ->
  UAVObjGetByID r id <> 0 ->
  UAVObjIsSingleInstance r (UAVObjGetByID r id) = false ->
  rx_length r t (UAVObjGetByID r id) = Z.of_nat (length payload) ->
  Z.of_nat (length payload) < UAVTALK_MAX_PAYLOAD_LENGTH ->
  Forall (fun b => b <> UAVTALK_SYNC_VAL)
    (le16 instId ++ payload
       ++ [PIOS_CRC_updateCRC 0 (frame_body t id (le16 instId) payload)]) ->
  exists c',
    feed c r (frame_of t id (le16 instId) payload) = Some (c', r) /\
    dispLog c' = dispLog c /\ outLog c' = outLog c /\
    rxErrors (stats c') = incr32 (rxErrors (stats c)) /\
    ip_state (iproc c') = UAVTALK_STATE_SYNC.
Proof.
  intros Hst Ht Hid Hobj _ Hlen Hmax Htail.
  pose proof max_payload_length as [Hmp1 Hmp2]. pose proof max_header_length as Hmh.
  pose proof min_header_length as Hmin.
  destruct c as [[o ty ps oi ii len cs rc st rpl] sts os lk tl sem ro ri txs rxb txb ol dl].
  cbn [ip_state iproc] in Hst. subst st.
  set (L := Z.of_nat (length payload)) in *.
  set (crc := PIOS_CRC_updateCRC 0 (frame_body t id (le16 instId) payload)) in *.
  unfold frame_of. fold crc. unfold frame_body.
  replace (8 + Z.of_nat (length (le16 instId)) + Z.of_nat (length payload)) with (10 + L)
    by (unfold L; simpl length; lia).
  match goal with |- context [feed _ _ ?l] =>
    replace l with ((UAVTALK_SYNC_VAL :: t :: le16 (10 + L)
                     ++ [Z.land id 255; Z.land (Z.shiftr id 8) 255;
                         Z.land (Z.shiftr id 16) 255])
                   ++ Z.land (Z.shiftr id 24) 255 :: (le16 instId ++ payload ++ [crc]))
      by (unfold le16, le32; simpl; rewrite <- ?app_assoc; reflexivity)
  end.
  rewrite feed_app, feed_header by (assumption || lia). next.
  cbn [feed].
  rewrite step_objid_mismatch;
    [| lia | lia | rewrite le32_decode by lia; exact Hobj
     | rewrite le32_decode by lia; lia
     | rewrite le32_decode by lia; lia ].
  next.
  match goal with |- context [feed ?c1 r ?tail] =>
    destruct (feed_skip tail c1 r eq_refl Htail) as (c' & He & H1 & H2 & H3 & H4)
  end.
  exists c'. split; [exact He|]. destruct sts. simpl in *. auto.
Qed.
End RoundTrip.

(** ** A DATA-WITH-ACK exchange *)

Section Exchange.

Context {priv : UAVTalkPriv} {ok : UAVTalkPrivOK priv} {R : Type} {mgr : UAVObjManager R}.

Local Abbreviation Conn := UAVTalkConnectionData.

Lemma after_send_fields c chunks tx total len :
  outLog (after_send c chunks tx total len)
    = (if outStream c then outLog c ++ chunks else outLog c) /\
  dispLog (after_send c chunks tx total len) = dispLog c /\
  iproc (after_send c chunks tx total len) = iproc c /\
  rxErrors (stats (after_send c chunks tx total len)) = rxErrors (stats c).
Proof. destruct c as [? [] []]; repeat split. Qed.

(** C2, with the length field the code writes. The registry holds a
    single-instance object [A] of 4 bytes. Sending [A] as DATA-WITH-ACK puts on
    the wire, in order: the sync byte, the type byte, the length field 12
    low byte first (8 header bytes and 4 payload bytes, the checksum not
    counted), the four bytes of the object id, the 4 payload bytes and the
    checksum of all that. A peer that knows [A] and receives the frame calls
    the dispatcher once, unpacks a buffer that starts with the payload into
    [A] and, the unpack having succeeded, writes an ACK frame for [A] without
    payload. *)
Theorem data_with_ack_exchange (c : Conn) (r : R) (A : Z) (c2 : Conn) (r2 : R)
    (p0 p1 p2 p3 : Z) :
  let id := UAVObjGetID r A in
  let payload := [p0; p1; p2; p3] in
  (* the sender and its registry *)
  UAVObjIsSingleInstance r A = true ->
  UAVObjGetNumBytes r A = 4 ->
  UAVObjPack r A 0 = (0, payload) ->
  0 <= id < 4294967296 ->
  4 < UAVTALK_MAX_PAYLOAD_LENGTH ->
  1 <= txSize c -> outStream c = true -> (13 <= length (txBuffer c))%nat ->
  (* the peer and its registry *)
  let A2 := UAVObjGetByID r2 id in
  ip_state (iproc c2) = UAVTALK_STATE_SYNC ->
  A2 <> 0 ->
  UAVObjIsSingleInstance r2 A2 = true ->
  UAVObjGetNumBytes r2 A2 = 4 ->
  1 <= txSize c2 -> outStream c2 = true ->
  (9 <= length (txBuffer c2))%nat -> (4 <= length (rxBuffer c2))%nat ->
  let buf := list_inserts 0 payload (rxBuffer c2) in
  let r2' := snd (UAVObjUnpack r2 A2 0 buf) in
  fst (UAVObjUnpack r2 A2 0 buf) = 0 ->
  UAVObjIsSingleInstance r2' A2 = true ->
  UAVObjGetID r2' A2 = id ->
  exists c' chunks c2' achunks,
    (* on the wire *)
    sendSingleObject c r A 0 UAVTALK_TYPE_OBJ_ACK = Some (c', 0) /\
    outLog c' = outLog c ++ chunks /\
    concat chunks
      = [UAVTALK_SYNC_VAL; UAVTALK_TYPE_OBJ_ACK; 12; 0] ++ le32 id ++ payload
        ++ [PIOS_CRC_updateCRC 0
              ([UAVTALK_SYNC_VAL; UAVTALK_TYPE_OBJ_ACK; 12; 0] ++ le32 id ++ payload)] /\
    (* at the peer *)
    feed c2 r2 (concat chunks) = Some (c2', r2') /\
    take 4 buf = payload /\
    dispLog c2' = dispLog c2 ++ [mkCall UAVTALK_TYPE_OBJ_ACK id 0 payload] /\
    outLog c2' = outLog c2 ++ achunks /\
    concat achunks = frame_of UAVTALK_TYPE_ACK id [] [] /\
    ip_state (iproc c2') = UAVTALK_STATE_SYNC.
Proof.
  intros id payload Hs Hn Hpk Hid Hmax Htx Hos Hlen A2 Hst HA2 Hs2 Hn2 Htx2 Hos2 Hlen2 Hrx
    buf r2' Hun Hs2' Hid2.
  assert (Hbd : buf = list_inserts 0 payload (rxBuffer c2)) by reflexivity.
  assert (Hrd : r2' = snd (UAVObjUnpack r2 A2 0 buf)) by reflexivity.
  assert (Had : A2 = UAVObjGetByID r2 id) by reflexivity.
  clearbody buf r2' A2.
  pose proof types_byte as (_ & _ & [Hab Hav] & [Hkb Hkv] & _).
  pose proof types_neq as Hneq.
  pose proof all_instances as Hall.
  (* the sender *)
  destruct (sendSingleObject_ok c r A 0 UAVTALK_TYPE_OBJ_ACK Hab) as (chunks & tx & He & Hc & _).
  { replace (_ || _) with false by (symmetry; apply orb_false_iff; split; apply Z.eqb_neq; intuition congruence).
    rewrite Hn. lia. }
  { replace (_ || _) with false by (symmetry; apply orb_false_iff; split; apply Z.eqb_neq; intuition congruence).
    rewrite Hn, Hpk. simpl. intros _. split; lia. }
  { rewrite Hs. replace (_ || _) with false by (symmetry; apply orb_false_iff; split; apply Z.eqb_neq; intuition congruence).
    rewrite Hn. simpl. lia. }
  { exact Htx. }
  revert He Hc.
  replace (_ || _) with false by (symmetry; apply orb_false_iff; split; apply Z.eqb_neq; intuition congruence).
  rewrite Hs, Hn, Hpk. simpl fst. simpl snd. change (4 >? 0) with true. cbv iota.
  fold id. fold payload. intros He Hc.
  exists (after_send c chunks tx (8 + Z.of_nat (length (@nil Z)) + 4 + 1) 4), chunks.
  assert (Hrl : rx_length r2 UAVTALK_TYPE_OBJ_ACK A2 = 4).
  { unfold rx_length.
    replace (_ || _) with false
      by (symmetry; rewrite !orb_false_iff; repeat split; apply Z.eqb_neq; intuition congruence).
    exact Hn2. }
  assert (Hbuf : take 4 buf = payload).
  { rewrite Hbd. destruct (rxBuffer c2) as [|? [|? [|? [|? rest]]]]; simpl in Hrx; try lia.
    reflexivity. }
  (* the acknowledgment sent by the peer *)
  destruct c2 as [[o ty ps oi ii len cs rc st rpl] sts os2 lk tl sem ro ri txs rxb txb ol dl].
  cbn [ip_state iproc txSize outStream txBuffer rxBuffer] in Hst, Htx2, Hos2, Hlen2, Hrx, Hbd.
  subst st os2.
  set (cd := logged
      (mkConn (mkIProc A2 UAVTALK_TYPE_OBJ_ACK (8 + 4) id 0 4
                 (PIOS_CRC_updateCRC 0 (frame_body UAVTALK_TYPE_OBJ_ACK id [] payload))
                 0 UAVTALK_STATE_CS (8 + 4 + 1))
              (set_rxBytes (add32 (8 + 4 + 1)) sts) true (S lk) tl sem ro ri txs buf txb ol dl)
      UAVTALK_TYPE_OBJ_ACK id 0 buf 4).
  destruct (sendSingleObject_ok cd r2' A2 0 UAVTALK_TYPE_ACK Hkb) as (achunks & atx & Hea & Hca & _).
  { rewrite Z.eqb_refl, orb_true_r. lia. }
  { rewrite Z.eqb_refl, orb_true_r. lia. }
  { rewrite Hs2', Z.eqb_refl, orb_true_r. simpl. lia. }
  { exact Htx2. }
  revert Hea Hca. rewrite Hs2', Hid2, Z.eqb_refl, orb_true_r. change (0 >? 0) with false.
  cbv iota. intros Hea Hca.
  eexists _, achunks.
  split; [exact He|].
  split; [destruct (after_send_fields c chunks tx (8 + Z.of_nat (length (@nil Z)) + 4 + 1) 4)
            as (-> & _); rewrite Hos; reflexivity|].
  split; [rewrite Hc; reflexivity|].
  rewrite Hc.
  rewrite feed_frame by (assumption || (rewrite <- Had; (assumption || (simpl length; lia)))).
  rewrite <- Had, <- Hbd. simpl length. change (Z.of_nat 4) with 4.
  rewrite receiveObject_OBJ_ACK by congruence. rewrite <- Had, <- Hrd, Hun.
  change (0 =? 0) with true. cbv iota.
  rewrite sendObject_ACK by congruence. fold cd. rewrite Hea. 
  change (mbind ?f (Some ?x)) with (f x). cbv beta iota.
  change (mbind ?f (Some ?x)) with (f x). cbv beta iota.
  split; [reflexivity|]. split; [exact Hbuf|].
  destruct (after_send_fields cd achunks atx (8 + Z.of_nat (length (@nil Z)) + 0 + 1) 0)
    as (Ho & Hd & Hi & _).
  set (X := after_send cd achunks atx (8 + Z.of_nat (length (@nil Z)) + 0 + 1) 0) in *.
  assert (Hcd : outLog cd = ol /\ outStream cd = true /\
                dispLog cd = dl ++ [mkCall UAVTALK_TYPE_OBJ_ACK id 0 (take (Z.to_nat 4) buf)])
    by (repeat split).
  destruct Hcd as (Hcd1 & Hcd2 & Hcd3).
  rewrite Hcd1, Hcd2 in Ho. rewrite Hcd3 in Hd. change (Z.to_nat 4) with 4%nat in Hd.
  rewrite Hbuf in Hd.
  clearbody X cd. destruct X as [[] [] ? ? ? ? ? ? ? ? ? ? ?]. simpl in *.
  auto.
Qed.
End Exchange.

(** ** Failure of the transmitter *)

Section TransmitFailure.

Context {priv : UAVTalkPriv} {ok : UAVTalkPrivOK priv} {R : Type} {mgr : UAVObjManager R}.

Local Abbreviation Conn := UAVTalkConnectionData.

(** C6, with the bound the code tests. On a connection with a positive
    chunk size the single-frame transmit operation returns, with -1 or 0. It
    returns -1 exactly when the payload length is greater than or equal to the
    maximum payload length, or the payload is not empty and the pack fails;
    then nothing is written to the output stream. When it returns 0 (so, in
    particular, for a payload length below the maximum with a successful
    pack) the whole frame is written, in writes of at most the chunk size. *)
Theorem transmit_fails_iff_length_or_pack (c : Conn) (r : R) (obj instId type : Z) :
  1 <= txSize c ->
  let len := if (type =? UAVTALK_TYPE_OBJ_REQ) || (type =? UAVTALK_TYPE_ACK) then 0
             else UAVObjGetNumBytes r obj in
  let inst := if UAVObjIsSingleInstance r obj then [] else le16 instId in
  let payload := if len >? 0 then snd (UAVObjPack r obj instId) else [] in
  exists c' ret,
    sendSingleObject c r obj instId type = Some (c', ret) /\
    (ret = -1 \/ ret = 0) /\
    (ret = -1 <->
       UAVTALK_MAX_PAYLOAD_LENGTH <= len \/
       (0 < len /\ fst (UAVObjPack r obj instId) < 0)) /\
    (ret = -1 -> outLog c' = outLog c) /\
    (ret = 0 ->
     is_byte type -> 0 <= len -> Z.of_nat (length payload) = len ->
     8 + Z.of_nat (length inst) + len + 1 <= Z.of_nat (length (txBuffer c)) ->
     outStream c = true ->
     exists chunks,
       outLog c' = outLog c ++ chunks /\
       concat chunks = frame_of type (UAVObjGetID r obj) inst payload /\
       Forall (fun w => Z.of_nat (length w) <= txSize c) chunks).
Proof.
  intros Htx len inst payload.
  destruct (sendSingleObject_rel c r obj instId type Htx) as (c' & ret & He & _ & Hret & Hiff & Hno).
  fold len in Hiff. exists c', ret. repeat (split; [assumption|]).
  intros H0 Hty Hlen Hpl Hbuf Hos. subst ret.
  destruct (sendSingleObject_ok c r obj instId type Hty) as (chunks & tx & He' & Hc & Hall & _);
    fold len; fold inst; fold payload; try assumption.
  - split; [assumption|]. destruct (Z.le_gt_cases UAVTALK_MAX_PAYLOAD_LENGTH len); [|lia].
    assert (0 = -1) by (apply Hiff; auto). lia.
  - intros Hpos. split; [|assumption].
    destruct (Z.le_gt_cases 0 (fst (UAVObjPack r obj instId))); [assumption|].
    assert (0 = -1) by (apply Hiff; right; split; lia). lia.
  - fold len inst payload in He', Hc. rewrite He in He'. injection He' as ->.
    exists chunks. split; [|split; assumption].
    destruct (after_send_fields c chunks tx (8 + Z.of_nat (length inst) + len + 1) len) as (-> & _).
    rewrite Hos. reflexivity.
Qed.

End TransmitFailure.

(** ** Blocking transactions *)

Section Transactions.

Context {priv : UAVTalkPriv} {ok : UAVTalkPrivOK priv} {R : Type} {mgr : UAVObjManager R}.

Local Abbreviation Conn := UAVTalkConnectionData.

(** C8. A blocking transaction (a request, or a send with acknowledgment)
    started on a connection with a positive chunk size and no completion
    signal left over: if the completion signal is raised when the caller is
    resumed from its wait, the operation returns 0 and the pending slot is
    cleared; if the signal was never raised, the operation returns -1 and the
    pending slot is cleared; on both paths the transaction lock (and the
    connection lock) is back to what it was when the operation returns. *)
Theorem blocking_transaction_outcome (rxWait rxLate : list Z) (c : Conn) (r : R)
    (obj instId type timeoutMs : Z) :
  type = UAVTALK_TYPE_OBJ_REQ \/ type = UAVTALK_TYPE_OBJ_ACK ->
  1 <= txSize c ->
  respSema c = false ->
  exists cw rw c' r' ret,
    wakeup rxWait c r obj instId type = Some (cw, rw) /\
    objectTransaction rxWait rxLate c r obj instId type timeoutMs = Some (c', r', ret) /\
    (respSema cw = true -> ret = 0 /\ respObj c' = 0) /\
    (respSema cw = false -> ret = -1 /\ respObj c' = 0) /\
    transLock c' = transLock c /\ lock c' = lock c.
Proof.
  intros Hty Htx Hsem. unfold wakeup, objectTransaction. cbv zeta.
  replace ((type =? UAVTALK_TYPE_OBJ_ACK) || (type =? UAVTALK_TYPE_OBJ_REQ)) with true
    by (destruct Hty as [-> | ->]; rewrite Z.eqb_refl, ?orb_true_r; reflexivity).
  set (c1 := set_respInstId instId _).
  assert (Hc1 : txSize c1 = txSize c /\ respSema c1 = false /\
                transLock c1 = S (transLock c) /\ lock c1 = S (lock c))
    by (unfold c1; destruct c; simpl in *; auto).
  destruct Hc1 as (Ht1 & Hs1 & Htl1 & Hl1).
  destruct (sendObject_rel c1 r obj instId type) as (c2 & ret2 & He2 & H2); [lia|].
  rewrite He2. simpl. clearbody c1.
  set (c3 := set_lock Nat.pred c2).
  assert (Hc3 : txSize c3 = txSize c /\ respSema c3 = false /\
                transLock c3 = S (transLock c) /\ lock c3 = lock c).
  { destruct H2. unfold c3. destruct c2; simpl in *.
    repeat split; try congruence. rewrite tx_lock0, Hl1. reflexivity. }
  destruct Hc3 as (Ht3 & Hs3 & Htl3 & Hl3). clearbody c3.
  destruct (feed_evolves rxWait c3 r) as (cw & rw & Hew & Hw); [lia|].
  rewrite Hew. simpl.
  exists cw, rw.
  destruct (respSema cw) eqn:Hsw; simpl.
  - (* the signal was raised *)
    eexists _, _, _. split; [reflexivity|]. split; [reflexivity|].
    destruct Hw. destruct ev_resp0 as [[Ha _] | [_ Hb]]; [congruence|].
    destruct cw; simpl in *. repeat split; try discriminate; try congruence.
    rewrite ev_transLock0, Htl3. reflexivity.
  - (* timeout *)
    destruct (feed_evolves rxLate (set_respSema false cw) rw) as (cl & rl & Hel & Hl).
    { destruct Hw. destruct cw; simpl in *. lia. }
    rewrite Hel. simpl.
    eexists _, _, _. split; [reflexivity|]. split; [reflexivity|].
    destruct Hw, Hl. destruct cw, cl; simpl in *.
    repeat split; try discriminate; try congruence.
    + rewrite ev_transLock1, ev_transLock0, Htl3. reflexivity.
Qed.

(** C3, as the code behaves. Sending with the wildcard instance id and an
    acknowledgment required is not rejected at the call boundary: the call
    goes through the blocking transaction and returns 0 when the completion
    signal is raised at the end of the wait and -1 (timeout) otherwise. For a
    single-instance object whose payload packs, the wildcard is replaced by
    instance 0 and one complete DATA-WITH-ACK frame is written to the output
    stream before the wait. *)
Theorem wildcard_acked_send_goes_out (rxWait rxLate : list Z) (c : Conn) (r : R)
    (obj timeoutMs : Z) :
  1 <= txSize c ->
  exists cw rw c' r' ret,
    wakeup rxWait c r obj UAVOBJ_ALL_INSTANCES UAVTALK_TYPE_OBJ_ACK = Some (cw, rw) /\
    UAVTalkSendObject rxWait rxLate c r obj UAVOBJ_ALL_INSTANCES 1 timeoutMs
      = Some (c', r', ret) /\
    ret = (if respSema cw then 0 else -1) /\
    (UAVObjIsSingleInstance r obj = true ->
     let len := UAVObjGetNumBytes r obj in
     let payload := if len >? 0 then snd (UAVObjPack r obj 0) else [] in
     outStream c = true ->
     0 <= len < UAVTALK_MAX_PAYLOAD_LENGTH ->
     (0 < len -> 0 <= fst (UAVObjPack r obj 0) /\ Z.of_nat (length payload) = len) ->
     8 + len + 1 <= Z.of_nat (length (txBuffer c)) ->
     exists chunks more,
       outLog c' = outLog c ++ chunks ++ more /\
       concat chunks = frame_of UAVTALK_TYPE_OBJ_ACK (UAVObjGetID r obj) [] payload).
Proof.
  intros Htx. unfold UAVTalkSendObject, wakeup, objectTransaction. cbv zeta.
  rewrite !Z.eqb_refl. cbn [orb].
  set (c1 := set_respInstId _ _).
  assert (Hc1 : txSize c1 = txSize c /\ outLog c1 = outLog c /\ outStream c1 = outStream c /\
                txBuffer c1 = txBuffer c)
    by (unfold c1; destruct c; simpl in *; auto).
  destruct Hc1 as (Ht1 & Ho1 & Hs1 & Hb1).
  destruct (sendObject_rel c1 r obj UAVOBJ_ALL_INSTANCES UAVTALK_TYPE_OBJ_ACK)
    as (c2 & ret2 & He2 & H2); [lia|].
  rewrite He2. simpl.
  set (c3 := set_lock Nat.pred c2).
  assert (Hc3 : txSize c3 = txSize c /\ outLog c3 = outLog c2).
  { destruct H2. unfold c3. destruct c2; simpl in *. split; congruence. }
  destruct Hc3 as (Ht3 & Ho3). clearbody c3.
  destruct (feed_evolves rxWait c3 r) as (cw & rw & Hew & Hw); [lia|].
  rewrite Hew. simpl.
  exists cw, rw.
  assert (Hfin : exists c' r' ret more,
    (if negb (respSema cw)
     then feed (set_respSema false cw) rw rxLate
          ≫= λ '(c, r),
               Some (set_transLock Nat.pred
                       (set_lock Nat.pred
                          (set_respObj 0 (set_respSema false (set_lock S c)))), r, -1)
     else Some (set_transLock Nat.pred (set_respSema false cw), rw, 0))
    = Some (c', r', ret) /\ ret = (if respSema cw then 0 else -1) /\
    outLog c' = outLog cw ++ more).
  { destruct (respSema cw) eqn:Hsw; simpl.
    - eexists _, _, _, []. split; [reflexivity|]. split; [reflexivity|].
      destruct cw; simpl. rewrite app_nil_r. reflexivity.
    - destruct (feed_evolves rxLate (set_respSema false cw) rw) as (cl & rl & Hel & Hl).
      { destruct Hw as [_ _ _ _ Hts _ _]. destruct cw; simpl in *. lia. }
      rewrite Hel. simpl. destruct Hl as [_ _ _ _ _ [more Hm] _].
      eexists _, _, _, more. split; [reflexivity|]. split; [reflexivity|].
      destruct cw, cl; simpl in *. exact Hm. }
  destruct Hfin as (c' & r' & ret & more & Hfin & Hret & Hmore).
  exists c', r', ret. split; [reflexivity|]. split; [exact Hfin|]. split; [exact Hret|].
  intros Hsingle Hos Hlen Hpack Hbuf.
  set (len := UAVObjGetNumBytes r obj) in *.
  set (payload := if len >? 0 then snd (UAVObjPack r obj 0) else []) in *.
  pose proof types_byte as (_ & _ & [Hab _] & _).
  pose proof types_neq as Hneq.
  rewrite sendObject_all_single in He2 by auto.
  destruct (sendSingleObject_ok c1 r obj 0 UAVTALK_TYPE_OBJ_ACK Hab) as (chunks & tx & He & Hc & _).
  all: try replace (_ || _) with false
      by (symmetry; apply orb_false_iff; split; apply Z.eqb_neq; intuition congruence).
  all: try rewrite Hsingle; try fold len; try fold payload; try assumption.
  - rewrite Hb1. simpl. lia.
  - lia.
  - revert He Hc. replace (_ || _) with false
      by (symmetry; apply orb_false_iff; split; apply Z.eqb_neq; intuition congruence).
    rewrite Hsingle. fold len. fold payload. intros He Hc.
    assert (Hc2 : c2 = after_send c1 chunks tx (8 + Z.of_nat (length (@nil Z)) + len + 1) len)
      by congruence.
    destruct Hw as [_ _ _ _ _ [more2 Hm2] _].
    exists chunks, (more2 ++ more). split; [|exact Hc].
    rewrite Hmore, Hm2, Ho3, Hc2.
    destruct (after_send_fields c1 chunks tx (8 + Z.of_nat (length (@nil Z)) + len + 1) len)
      as (-> & _).
    rewrite Hs1, Hos, Ho1, <- !app_assoc. reflexivity.
Qed.
End Transactions.

(** ** Counters of the transmitter *)

Section Counters.
Context {priv : UAVTalkPriv} {ok : UAVTalkPrivOK priv} {R : Type} {mgr : UAVObjManager R}.
Local Abbreviation Conn := UAVTalkConnectionData.

Lemma buf_rel_stats c c' : buf_rel c c' -> stats c' = stats c.
Proof. intros [_ He]. rewrite He. destruct c; reflexivity. Qed.

Lemma send_loop_stats turns : forall total sent c c',
  send_loop turns total sent c = Some c' -> stats c' = stats c.
Proof.
  induction turns as [|turns IH]; intros total sent c c'; simpl;
    destruct (sent <? total); try discriminate; try (intros [= <-]; reflexivity).
  intros He. apply IH in He. rewrite He.
  unfold outStream_write. destruct c as [? ? []]; reflexivity.
Qed.

(** The counters after [sendSingleObject]: untouched when it fails, the frame
    counted when it returns 0. *)
Lemma sendSingleObject_stats c r obj instId type c' ret :
  sendSingleObject c r obj instId type = Some (c', ret) ->
  let len := if (type =? UAVTALK_TYPE_OBJ_REQ) || (type =? UAVTALK_TYPE_ACK) then 0
             else UAVObjGetNumBytes r obj in
  let off := if UAVObjIsSingleInstance r obj then 8 else 10 in
  (ret = -1 /\ stats c' = stats c) \/
  (ret = 0 /\
   stats c' = set_txObjectBytes (add32 len)
                (set_txBytes (add32 (off + len + UAVTALK_CHECKSUM_LENGTH))
                   (set_txObjects incr32 (stats c)))).
Proof.
  intros He len off. revert He. unfold sendSingleObject. fold len. cbv zeta.
  set (c1 := tx_store 7 _ _).
  assert (H1 : buf_rel c c1) by (unfold c1; auto 10 using buf_rel_refl, buf_rel_tx_store).
  set (cd := if UAVObjIsSingleInstance r obj then _ else _).
  assert (Hcd : exists c2, cd = (c2, off) /\ buf_rel c c2).
  { unfold cd, off. destruct (UAVObjIsSingleInstance r obj); eexists; split;
      try reflexivity; auto 10 using buf_rel_tx_store. }
  destruct Hcd as (c2 & -> & H2). clearbody c1. clear H1 c1.
  destruct (len >=? UAVTALK_MAX_PAYLOAD_LENGTH).
  { intros [= <- <-]. left. split; [reflexivity | apply buf_rel_stats; exact H2]. }
  set (cp := if len >? 0 then _ else _).
  assert (Hcp : exists c3 packed, cp = (c3, packed) /\ buf_rel c c3).
  { unfold cp. destruct (len >? 0).
    - destruct (UAVObjPack r obj instId) as [ret' bytes]. simpl.
      eexists _, _; split; [reflexivity|]. auto using buf_rel_inserts.
    - eexists _, _; split; [reflexivity|]. exact H2. }
  destruct Hcp as (c3 & packed & -> & H3).
  destruct (packed <? 0).
  { intros [= <- <-]. left. split; [reflexivity | apply buf_rel_stats; exact H3]. }
  match goal with
  | |- context [send_loop ?t ?tot 0 ?c4] =>
      assert (H4 : buf_rel c c4) by auto 10 using buf_rel_tx_store;
      destruct (send_loop t tot 0 c4) as [c5|] eqn:Hl; [|discriminate];
      apply send_loop_stats in Hl; rewrite (buf_rel_stats _ _ H4) in Hl
  end.
  simpl. intros [= <- <-]. right. split; [reflexivity|].
  destruct c5; simpl in *. subst. reflexivity.
Qed.

End Counters.

(** ** What every run of the receive task keeps *)

Section Invariant.
Context {priv : UAVTalkPriv} {ok : UAVTalkPrivOK priv} {R : Type} {mgr : UAVObjManager R}.
Local Abbreviation Conn := UAVTalkConnectionData.

Lemma ack_pending_idle c obj instId :
  respObj c = 0 -> obj <> 0 -> updateAck c obj instId = c.
Proof.
  intros H0 Ho. unfold updateAck, ack_pending. rewrite H0.
  rewrite (proj2 (Z.eqb_neq 0 obj)) by congruence. reflexivity.
Qed.

(** The dispatcher on a connection without pending transaction: it raises no
    completion signal, unless it is handed a DATA or ACK message for an object
    that does not exist. *)
Lemma receiveObject_idle c r ty objId instId data len c' r' ret :
  receiveObject c r ty objId instId data len = Some (c', r', ret) ->
  1 <= txSize c ->
  ty = UAVTALK_TYPE_OBJ_REQ \/ UAVObjGetByID r objId <> 0 ->
  respObj c = 0 -> respSema c = false ->
  respObj c' = 0 /\ respSema c' = false.
Proof.
  intros He Htx Hk H0 Hs. revert He. unfold receiveObject. cbv zeta.
  set (c0 := set_dispLog _ c).
  assert (Hc0 : respObj c0 = 0 /\ respSema c0 = false /\ txSize c0 = txSize c)
    by (unfold c0; destruct c; simpl in *; auto).
  destruct Hc0 as (H00 & Hs0 & Ht0). clearbody c0.
  pose proof types_neq as Hneq.
  set (obj := UAVObjGetByID r objId) in *.
  assert (Htxrel : forall c1, tx_rel c0 c1 -> respObj c1 = 0 /\ respSema c1 = false).
  { intros c1 []. split; congruence. }
  destruct (Z.eqb_spec ty UAVTALK_TYPE_OBJ) as [Ety|_].
  { assert (Ho : obj <> 0) by (destruct Hk; [intuition congruence | assumption]).
    destruct (negb _).
    - destruct (UAVObjUnpack r obj instId data) as [st r1].
      rewrite ack_pending_idle by assumption. intros [= <- <- <-]. auto.
    - intros [= <- <- <-]. auto. }
  destruct (Z.eqb_spec ty UAVTALK_TYPE_OBJ_ACK) as [Ety|_].
  { destruct (negb _); [|intros [= <- <- <-]; auto].
    destruct (UAVObjUnpack r obj instId data) as [st r1].
    destruct (st =? 0); [|intros [= <- <- <-]; auto].
    destruct (sendObject_rel c0 r1 obj instId UAVTALK_TYPE_ACK) as (c1 & ret1 & He1 & H1); [lia|].
    rewrite He1. simpl. intros [= <- <- <-]. auto. }
  destruct (Z.eqb_spec ty UAVTALK_TYPE_OBJ_REQ) as [Ety|_].
  { destruct (obj =? 0).
    - destruct (sendNack_rel c0 objId) as [H1 _].
      destruct (sendNack c0 objId) as [c1 ret1]. simpl in H1. intros [= <- <- <-]. auto.
    - destruct (sendObject_rel c0 r obj instId UAVTALK_TYPE_OBJ) as (c1 & ret1 & He1 & H1); [lia|].
      rewrite He1. simpl. intros [= <- <- <-]. auto. }
  destruct (Z.eqb_spec ty UAVTALK_TYPE_NACK) as [Ety|_].
  { intros [= <- <- <-]. auto. }
  destruct (Z.eqb_spec ty UAVTALK_TYPE_ACK) as [Ety|_].
  { assert (Ho : obj <> 0) by (destruct Hk; [intuition congruence | assumption]).
    destruct (negb _).
    - rewrite ack_pending_idle by assumption. intros [= <- <- <-]. auto.
    - intros [= <- <- <-]. auto. }
  intros [= <- <- <-]. auto.
Qed.

(** The dispatcher does not write to the receive buffer. *)
Lemma receiveObject_rxBuffer c r ty objId instId data len c' r' ret :
  receiveObject c r ty objId instId data len = Some (c', r', ret) ->
  1 <= txSize c ->
  rxBuffer c' = rxBuffer c.
Proof.
  intros He Htx. revert He. unfold receiveObject. cbv zeta.
  set (c0 := set_dispLog _ c).
  assert (Hc0 : rxBuffer c0 = rxBuffer c /\ txSize c0 = txSize c)
    by (unfold c0; destruct c; simpl in *; auto).
  destruct Hc0 as (Hb0 & Ht0). clearbody c0.
  set (obj := UAVObjGetByID r objId).
  assert (Hack : rxBuffer (updateAck c0 obj instId) = rxBuffer c)
    by (unfold updateAck; destruct (ack_pending c0 obj instId); destruct c0; exact Hb0).
  assert (Htxrel : forall c1, tx_rel c0 c1 -> rxBuffer c1 = rxBuffer c)
    by (intros c1 H1; rewrite (tx_rxBuffer _ _ H1); exact Hb0).
  destruct (ty =? UAVTALK_TYPE_OBJ).
  { destruct (negb _); [|intros [= <- _ _]; auto].
    destruct (UAVObjUnpack r obj instId data) as [st r1]. intros [= <- _ _]. auto. }
  destruct (ty =? UAVTALK_TYPE_OBJ_ACK).
  { destruct (negb _); [|intros [= <- _ _]; auto].
    destruct (UAVObjUnpack r obj instId data) as [st r1].
    destruct (st =? 0); [|intros [= <- _ _]; auto].
    destruct (sendObject_rel c0 r1 obj instId UAVTALK_TYPE_ACK) as (c1 & ret1 & He1 & H1); [lia|].
    rewrite He1. simpl. intros [= <- _ _]. auto. }
  destruct (ty =? UAVTALK_TYPE_OBJ_REQ).
  { destruct (obj =? 0).
    - destruct (sendNack_rel c0 objId) as [H1 _].
      destruct (sendNack c0 objId) as [c1 ret1]. simpl in H1. intros [= <- _ _]. auto.
    - destruct (sendObject_rel c0 r obj instId UAVTALK_TYPE_OBJ) as (c1 & ret1 & He1 & H1); [lia|].
      rewrite He1. simpl. intros [= <- _ _]. auto. }
  destruct (ty =? UAVTALK_TYPE_NACK); [intros [= <- _ _]; auto|].
  destruct (ty =? UAVTALK_TYPE_ACK).
  { destruct (negb _); intros [= <- _ _]; auto. }
  intros [= <- _ _]. auto.
Qed.

(** Splits the goal along the tests of the state machine. *)
Ltac split_tests :=
  repeat match goal with
         | |- context [?a >? ?b] => rewrite (Z.gtb_ltb a b)
         | |- context [?a >=? ?b] => rewrite (Z.geb_leb a b)
         | |- context [?a <? ?b] => destruct (Z.ltb_spec a b); cbn [negb andb orb]
         | |- context [?a <=? ?b] => destruct (Z.leb_spec a b); cbn [negb andb orb]
         | |- context [?a =? ?b] => destruct (Z.eqb_spec a b); cbn [negb andb orb]
         | |- context [if ?b then _ else _] => destruct b eqn:?; cbn [negb andb orb]
         end.

(** What a byte that is not dispatched leaves as it was. *)
Ltac quiet_step :=
  split; [reflexivity|];
  split; [exists []; rewrite app_nil_r; split; [reflexivity | intros _; apply Forall_nil_2]|];
  split; [tauto|];
  cbn [rxBuffer]; rewrite ?length_insert; reflexivity.

(** One byte keeps the invariant; a call of the dispatcher made for it has
    instance id 0; without pending transaction no completion signal is
    raised; the receive buffer keeps its length. *)
Lemma process_inv c r b :
  1 <= txSize c ->
  rx_inv r (iproc c) ->
  exists c' r',
    UAVTalkProcessInputStream c r b = Some (c', r', 0) /\
    rx_inv r' (iproc c') /\
    txSize c' = txSize c /\
    (exists calls, dispLog c' = dispLog c ++ calls /\
                   (UAVTALK_MAX_HEADER_LENGTH + UAVTALK_MAX_PAYLOAD_LENGTH < 65534 ->
                    Forall (fun d => dc_instId d = 0) calls)) /\
    (respObj c = 0 -> respSema c = false -> respObj c' = 0 /\ respSema c' = false) /\
    length (rxBuffer c') = length (rxBuffer c).
Proof.
  intros Htx Hinv.
  destruct c as [[o ty ps oi ii len cs rc st rpl] sts os lk tl sem ro ri txs rxb txb ol dl].
  unfold rx_inv in Hinv.
  cbn [iproc ip_state ip_type ip_objId ip_packet_size ip_rxCount ip_rxPacketLength ip_length
       ip_instId txSize dispLog respObj respSema rxBuffer] in *.
  set (rpl' := if rpl <? 65535 then rpl + 1 else rpl).
  assert (Hr : (rpl < 65535 /\ rpl' = rpl + 1) \/ (65535 <= rpl /\ rpl' = rpl))
    by (unfold rpl'; destruct (Z.ltb_spec rpl 65535); auto).
  unfold UAVTalkProcessInputStream. cbv zeta.
  set (c0 := if _ <? 65535 then _ else _).
  assert (Hc0 : c0 = mkConn (mkIProc o ty ps oi ii len cs rc st rpl') (set_rxBytes incr32 sts)
                       os lk tl sem ro ri txs rxb txb ol dl)
    by (unfold c0, rpl'; simpl; destruct (rpl <? 65535); reflexivity).
  clearbody c0 rpl'. subst c0.
  destruct st; simpl.
  1-6: split_tests;
    (eexists _, _; split; [reflexivity|]; split; [|quiet_step];
     unfold rx_inv; simpl; cbn [orb] in *; repeat split; try tauto; try lia).
  (* the checksum state *)
  destruct (Z.eqb_spec b cs) as [->|Hb]; cbn [negb].
  2: { eexists _, _; split; [reflexivity|]. split; [exact I | quiet_step]. }
  destruct (Z.eqb_spec rpl' (ps + 1)) as [Hp|Hp]; cbn [negb].
  2: { eexists _, _; split; [reflexivity|]. split; [exact I | quiet_step]. }
  destruct Hinv as (Hps & Hk & Hi).
  match goal with
  | |- context [receiveObject ?c1 r ?ty ?oi ?ii ?d ?l] =>
      destruct (receiveObject_evolves c1 r ty oi ii d l)
        as (c2 & r' & ret & He & H2 & Hd & Hip & _); [exact Htx |];
      pose proof (receiveObject_idle c1 r ty oi ii d l c2 r' ret He Htx Hk) as Hidle;
      pose proof (receiveObject_rxBuffer c1 r ty oi ii d l c2 r' ret He Htx) as Hrxb;
      rewrite He
  end.
  pose proof (ev_txSize _ _ H2) as Ht2.
  next. eexists _, _. split; [reflexivity|].
  destruct c2 as [[] ? ? ? ? ? ? ? ? ? ? ? ?]. simpl in *.
  split; [exact I|]. split; [exact Ht2|].
  split; [|split; [exact Hidle | rewrite Hrxb; reflexivity]].
  eexists. split; [exact Hd|]. intros Hbound. apply Forall_singleton. simpl. lia.
Qed.

(** A run that begins in the sync state. *)
Lemma feed_inv bytes : forall c r,
  1 <= txSize c ->
  rx_inv r (iproc c) ->
  exists c' r',
    feed c r bytes = Some (c', r') /\
    rx_inv r' (iproc c') /\
    (exists calls, dispLog c' = dispLog c ++ calls /\
                   (UAVTALK_MAX_HEADER_LENGTH + UAVTALK_MAX_PAYLOAD_LENGTH < 65534 ->
                    Forall (fun d => dc_instId d = 0) calls)) /\
    (respObj c = 0 -> respSema c = false -> respObj c' = 0 /\ respSema c' = false) /\
    length (rxBuffer c') = length (rxBuffer c).
Proof.
  induction bytes as [|b bytes IH]; intros c r Htx Hinv; simpl.
  - exists c, r. split; [reflexivity|]. split; [exact Hinv|]. split; [|tauto].
    exists []. rewrite app_nil_r. split; [reflexivity | intros _; apply Forall_nil_2].
  - destruct (process_inv c r b Htx Hinv)
      as (c1 & r1 & He & Hi1 & Ht1 & (k1 & Hd1 & Hf1) & Hs1 & Hl1).
    rewrite He. simpl.
    destruct (IH c1 r1) as (c2 & r2 & He2 & Hi2 & (k2 & Hd2 & Hf2) & Hs2 & Hl2);
      [lia | exact Hi1 |].
    exists c2, r2. split; [exact He2|]. split; [exact Hi2|]. split; [|split].
    + exists (k1 ++ k2). rewrite Hd2, Hd1, app_assoc. split; [reflexivity|].
      intros Hbound. apply Forall_app; auto.
    + intros H0 Hs. destruct (Hs1 H0 Hs). auto.
    + congruence.
Qed.

Lemma rx_inv_sync r c : ip_state (iproc c) = UAVTALK_STATE_SYNC -> rx_inv r (iproc c).
Proof. intros Hst. unfold rx_inv. rewrite Hst. exact I. Qed.

(** X4. The receive task never hands a non-zero instance id to the dispatcher:
    whatever bytes arrive, every call of the dispatcher is for instance 0.
    (A frame that carries an instance id has two bytes more than the
    receiver allowed for when it compared the length field, and fails the
    length test at the checksum.) *)
Theorem dispatched_instance_is_always_zero (bytes : list Z) (c : Conn) (r : R) :
  UAVTALK_MAX_HEADER_LENGTH + UAVTALK_MAX_PAYLOAD_LENGTH < 65534 ->
  ip_state (iproc c) = UAVTALK_STATE_SYNC ->
  1 <= txSize c ->
  exists c' r' calls,
    feed c r bytes = Some (c', r') /\
    dispLog c' = dispLog c ++ calls /\
    Forall (fun d => dc_instId d = 0) calls.
Proof.
  intros Hbound Hst Htx.
  destruct (feed_inv bytes c r Htx (rx_inv_sync r c Hst)) as (c' & r' & He & _ & (calls & Hd & Hf) & _).
  exists c', r', calls. auto.
Qed.

(** X11. Without a pending transaction the receive task raises no completion
    signal, whatever bytes arrive: the pending slot stays empty and the
    signal stays down. *)
Theorem no_completion_without_transaction (bytes : list Z) (c : Conn) (r : R) :
  ip_state (iproc c) = UAVTALK_STATE_SYNC ->
  1 <= txSize c ->
  respObj c = 0 -> respSema c = false ->
  exists c' r',
    feed c r bytes = Some (c', r') /\ respObj c' = 0 /\ respSema c' = false.
Proof.
  intros Hst Htx H0 Hs.
  destruct (feed_inv bytes c r Htx (rx_inv_sync r c Hst)) as (c' & r' & He & _ & _ & Hidle & _).
  exists c', r'. split; [exact He | exact (Hidle H0 Hs)].
Qed.


End Invariant.

(** ** Sends without acknowledgment, sends of all instances *)

Section TransmitMore.
Context {priv : UAVTalkPriv} {ok : UAVTalkPrivOK priv} {R : Type} {mgr : UAVObjManager R}.
Local Abbreviation Conn := UAVTalkConnectionData.

Lemma buf_rel_trans c1 c2 c3 : buf_rel c1 c2 -> buf_rel c2 c3 -> buf_rel c1 c3.
Proof.
  intros [Hl1 He1] [Hl2 He2]. split; [congruence|].
  rewrite He2. rewrite He1. destruct c1; reflexivity.
Qed.

Lemma buf_rel_fields c c' :
  buf_rel c c' ->
  iproc c' = iproc c /\ stats c' = stats c /\ outStream c' = outStream c /\
  lock c' = lock c /\ transLock c' = transLock c /\ respSema c' = respSema c /\
  respObj c' = respObj c /\ respInstId c' = respInstId c /\ txSize c' = txSize c /\
  rxBuffer c' = rxBuffer c /\ outLog c' = outLog c /\ dispLog c' = dispLog c.
Proof. intros [_ He]. rewrite He. destruct c; repeat split. Qed.

(** An object that is too long is refused before anything is written or
    counted. *)
Lemma sendSingleObject_too_long c r obj instId type :
  UAVTALK_MAX_PAYLOAD_LENGTH
    <= (if (type =? UAVTALK_TYPE_OBJ_REQ) || (type =? UAVTALK_TYPE_ACK) then 0
        else UAVObjGetNumBytes r obj) ->
  exists c', sendSingleObject c r obj instId type = Some (c', -1) /\ buf_rel c c'.
Proof.
  intros Hlen. unfold sendSingleObject. cbv zeta.
  set (c1 := tx_store 7 _ _).
  assert (H1 : buf_rel c c1) by (unfold c1; auto 10 using buf_rel_refl, buf_rel_tx_store).
  set (cd := if UAVObjIsSingleInstance r obj then _ else _).
  assert (Hcd : exists c2 off, cd = (c2, off) /\ buf_rel c c2).
  { unfold cd. destruct (UAVObjIsSingleInstance r obj); eexists _, _; split;
      try reflexivity; auto 10 using buf_rel_tx_store. }
  destruct Hcd as (c2 & off & -> & H2).
  rewrite Z.geb_leb, (proj2 (Z.leb_le _ _) Hlen). eauto.
Qed.

Lemma send_instances_too_long r obj type ns : forall c,
  UAVTALK_MAX_PAYLOAD_LENGTH
    <= (if (type =? UAVTALK_TYPE_OBJ_REQ) || (type =? UAVTALK_TYPE_ACK) then 0
        else UAVObjGetNumBytes r obj) ->
  exists c', send_instances c r obj type ns = Some c' /\ buf_rel c c'.
Proof.
  induction ns as [|n ns IH]; intros c Hlen; simpl.
  - exists c. split; [reflexivity | apply buf_rel_refl].
  - destruct (sendSingleObject_too_long c r obj (u16 n) type Hlen) as (c1 & -> & H1). simpl.
    destruct (IH c1 Hlen) as (c2 & -> & H2). eauto using buf_rel_trans.
Qed.

(** X14. A send without acknowledgment reports success whatever became of the
    frame: the result of [sendObject] is dropped. The caller does not wait,
    and the pending transaction, the completion signal and the locks are as
    before. An object whose length reaches the maximum payload length is
    not sent at all, and not counted; the call returns 0 all the same. *)
Theorem unacked_send_reports_success (rxWait rxLate : list Z) (c : Conn) (r : R)
    (obj instId acked timeoutMs : Z) :
  acked <> 1 ->
  1 <= txSize c ->
  exists c',
    UAVTalkSendObject rxWait rxLate c r obj instId acked timeoutMs = Some (c', r, 0) /\
    iproc c' = iproc c /\ lock c' = lock c /\ transLock c' = transLock c /\
    respObj c' = respObj c /\ respInstId c' = respInstId c /\ respSema c' = respSema c /\
    (UAVTALK_MAX_PAYLOAD_LENGTH <= UAVObjGetNumBytes r obj ->
     outLog c' = outLog c /\ stats c' = stats c).
Proof.
  intros Hack Htx. unfold UAVTalkSendObject, objectTransaction.
  rewrite (proj2 (Z.eqb_neq _ _) Hack).
  pose proof types_neq as Hneq.
  replace ((UAVTALK_TYPE_OBJ =? UAVTALK_TYPE_OBJ_ACK) || (UAVTALK_TYPE_OBJ =? UAVTALK_TYPE_OBJ_REQ))
    with false
    by (symmetry; apply orb_false_iff; split; apply Z.eqb_neq; intuition congruence).
  rewrite Z.eqb_refl. cbv zeta.
  set (c1 := set_lock S c).
  assert (Hc1 : iproc c1 = iproc c /\ lock c1 = S (lock c) /\ transLock c1 = transLock c /\
                respObj c1 = respObj c /\ respInstId c1 = respInstId c /\
                respSema c1 = respSema c /\ txSize c1 = txSize c /\
                outLog c1 = outLog c /\ stats c1 = stats c)
    by (unfold c1; destruct c; repeat split).
  destruct Hc1 as (Hi1 & Hl1 & Htl1 & Hro1 & Hri1 & Hs1 & Ht1 & Ho1 & Hst1).
  destruct (sendObject_rel c1 r obj instId UAVTALK_TYPE_OBJ) as (c2 & ret2 & He2 & H2); [lia|].
  rewrite He2. simpl.
  eexists. split; [reflexivity|].
  pose proof (tx_iproc _ _ H2) as Hi2. pose proof (tx_lock _ _ H2) as Hl2.
  pose proof (tx_transLock _ _ H2) as Htl2. pose proof (tx_respObj _ _ H2) as Hro2.
  pose proof (tx_respInstId _ _ H2) as Hri2. pose proof (tx_respSema _ _ H2) as Hs2.
  split; [destruct c2; simpl in *; congruence|].
  split; [destruct c2; simpl in *; rewrite Hl2, Hl1; reflexivity|].
  do 4 (split; [destruct c2; simpl in *; congruence|]).
  intros Hlong.
  assert (Hb : buf_rel c1 c2).
  { revert He2. unfold sendObject. cbv zeta.
    set (inst := if _ && _ then 0 else instId).
    rewrite Z.eqb_refl. cbn [orb].
    assert (Hlen : UAVTALK_MAX_PAYLOAD_LENGTH
              <= (if (UAVTALK_TYPE_OBJ =? UAVTALK_TYPE_OBJ_REQ)
                     || (UAVTALK_TYPE_OBJ =? UAVTALK_TYPE_ACK) then 0
                  else UAVObjGetNumBytes r obj)).
    { replace (_ || _) with false
        by (symmetry; apply orb_false_iff; split; apply Z.eqb_neq; intuition congruence).
      exact Hlong. }
    destruct (inst =? UAVOBJ_ALL_INSTANCES).
    - destruct (send_instances_too_long r obj UAVTALK_TYPE_OBJ
                  (seqZ 0 (UAVObjGetNumInstances r obj)) c1 Hlen) as (c3 & -> & H3).
      simpl. intros [= <- _]. exact H3.
    - destruct (sendSingleObject_too_long c1 r obj inst UAVTALK_TYPE_OBJ Hlen) as (c3 & -> & H3).
      intros [= <- _]. exact H3. }
  destruct (buf_rel_fields _ _ Hb) as (_ & Hst & _ & _ & _ & _ & _ & _ & _ & _ & Hol & _).
  destruct c2; simpl in *. split; congruence.
Qed.

Lemma after_send_conn c chunks tx total len :
  txSize (after_send c chunks tx total len) = txSize c /\
  outStream (after_send c chunks tx total len) = outStream c /\
  txBuffer (after_send c chunks tx total len) = tx /\
  stats (after_send c chunks tx total len)
    = set_txObjectBytes (add32 len)
        (set_txBytes (add32 total) (set_txObjects incr32 (stats c))).
Proof. destruct c as [? [] []]; repeat split. Qed.

Lemma u16_small k : 0 <= k < 65536 -> u16 k = k.
Proof. intros. unfold u16. apply Z.mod_small. lia. Qed.

(** The frames of the instances [ns] of a multi-instance object, one after
    the other. *)
Lemma send_instances_ok r obj type ns : forall c,
  is_byte type ->
  UAVObjIsSingleInstance r obj = false ->
  let len := if (type =? UAVTALK_TYPE_OBJ_REQ) || (type =? UAVTALK_TYPE_ACK) then 0
             else UAVObjGetNumBytes r obj in
  let payload k := if len >? 0 then snd (UAVObjPack r obj k) else [] in
  0 <= len < UAVTALK_MAX_PAYLOAD_LENGTH ->
  Forall (fun k => 0 <= k < 65536 /\
                   (0 < len -> 0 <= fst (UAVObjPack r obj k) /\
                               Z.of_nat (length (payload k)) = len)) ns ->
  8 + 2 + len + 1 <= Z.of_nat (length (txBuffer c)) ->
  1 <= txSize c ->
  exists c' chunks,
    send_instances c r obj type ns = Some c' /\
    outLog c' = (if outStream c then outLog c ++ chunks else outLog c) /\
    concat chunks
      = concat (map (fun k => frame_of type (UAVObjGetID r obj) (le16 k) (payload k)) ns) /\
    Forall (fun w => Z.of_nat (length w) <= txSize c) chunks.
Proof.
  induction ns as [|k ns IH]; intros c Hty Hm len payload Hlen Hall Hbuf Htx.
  - exists c, []. simpl. rewrite app_nil_r. destruct (outStream c); auto using Forall_nil_2.
  - apply Forall_cons in Hall. destruct Hall as [[Hk Hpk] Hall].
    cbn [send_instances]. rewrite (u16_small k Hk).
    pose proof (sendSingleObject_ok c r obj k type Hty) as Hok.
    cbv zeta in Hok. fold len in Hok. rewrite Hm in Hok. fold (payload k) in Hok.
    destruct (Hok Hlen Hpk ltac:(simpl length; lia) Htx) as (ch1 & tx1 & He1 & Hc1 & Hf1 & Hl1).
    clear Hok. rewrite He1. next.
    set (c1 := after_send c ch1 tx1 (8 + Z.of_nat (length (le16 k)) + len + 1) len) in *.
    destruct (after_send_conn c ch1 tx1 (8 + Z.of_nat (length (le16 k)) + len + 1) len)
      as (Ht1 & Hos1 & Hb1 & _).
    destruct (after_send_fields c ch1 tx1 (8 + Z.of_nat (length (le16 k)) + len + 1) len)
      as (Hol1 & _).
    fold c1 in Ht1, Hos1, Hb1, Hol1.
    destruct (IH c1 Hty Hm) as (c2 & ch2 & He2 & Hol2 & Hc2 & Hf2); try assumption.
    { rewrite Hb1, Hl1. exact Hbuf. }
    { rewrite Ht1. exact Htx. }
    exists c2, (ch1 ++ ch2). split; [exact He2|]. split; [|split].
    + rewrite Hol2, Hos1, Hol1. destruct (outStream c); [rewrite app_assoc|]; reflexivity.
    + rewrite concat_app, Hc1, Hc2. reflexivity.
    + apply Forall_app. split; [exact Hf1|]. rewrite Ht1 in Hf2. exact Hf2.
Qed.

(** X16. Sending all instances of a multi-instance object writes the frame of
    every instance, from instance 0 on, each with its instance id after the
    object id, and each in writes of at most the chunk size. *)
Theorem all_instances_sent_in_order (c : Conn) (r : R) (obj type : Z) :
  type = UAVTALK_TYPE_OBJ \/ type = UAVTALK_TYPE_OBJ_ACK ->
  UAVObjIsSingleInstance r obj = false ->
  let n := UAVObjGetNumInstances r obj in
  let len := UAVObjGetNumBytes r obj in
  let payload k := if len >? 0 then snd (UAVObjPack r obj k) else [] in
  n <= 65536 ->
  0 <= len < UAVTALK_MAX_PAYLOAD_LENGTH ->
  (forall k, 0 <= k < n -> 0 < len ->
             0 <= fst (UAVObjPack r obj k) /\ Z.of_nat (length (payload k)) = len) ->
  8 + 2 + len + 1 <= Z.of_nat (length (txBuffer c)) ->
  1 <= txSize c ->
  outStream c = true ->
  exists c' chunks,
    sendObject c r obj UAVOBJ_ALL_INSTANCES type = Some (c', 0) /\
    outLog c' = outLog c ++ chunks /\
    concat chunks
      = concat (map (fun k => frame_of type (UAVObjGetID r obj) (le16 k) (payload k))
                    (seqZ 0 n)) /\
    Forall (fun w => Z.of_nat (length w) <= txSize c) chunks.
Proof.
  intros Hty Hm n len payload Hn Hlen Hpk Hbuf Htx Hos.
  pose proof types_neq as Hneq. pose proof types_byte as (Hb1 & _ & Hb3 & _).
  assert (Hl : (if (type =? UAVTALK_TYPE_OBJ_REQ) || (type =? UAVTALK_TYPE_ACK) then 0
                else UAVObjGetNumBytes r obj) = len).
  { replace (_ || _) with false; [reflexivity|].
    symmetry; apply orb_false_iff; split; apply Z.eqb_neq; destruct Hty; intuition congruence. }
  rewrite sendObject_all_multi by assumption. fold n.
  destruct (send_instances_ok r obj type (seqZ 0 n) c) as (c' & chunks & He & Hol & Hc & Hf);
    rewrite ?Hl; try assumption.
  { destruct Hty as [-> | ->]; tauto. }
  { apply Forall_forall. intros k Hk. apply elem_of_seqZ in Hk. split; [lia|].
    intros Hpos. apply Hpk; lia. }
  rewrite He. next. rewrite Hl in Hc. rewrite Hos in Hol.
  exists c', chunks. auto.
Qed.

(** X18. With a chunk size of 0 the transmitter never returns from a frame that
    passed its checks: the loop that hands the buffer to the output stream
    makes no progress. *)
Theorem zero_chunk_size_send_never_returns (c : Conn) (r : R) (obj instId type : Z) :
  txSize c = 0 ->
  let len := if (type =? UAVTALK_TYPE_OBJ_REQ) || (type =? UAVTALK_TYPE_ACK) then 0
             else UAVObjGetNumBytes r obj in
  0 <= len < UAVTALK_MAX_PAYLOAD_LENGTH ->
  (0 < len -> 0 <= fst (UAVObjPack r obj instId)) ->
  sendSingleObject c r obj instId type = None.
Proof.
  intros Htx len Hlen Hpk. unfold sendSingleObject. fold len. cbv zeta.
  pose proof checksum_length as Hck.
  set (c1 := tx_store 7 _ _).
  assert (H1 : buf_rel c c1) by (unfold c1; auto 10 using buf_rel_refl, buf_rel_tx_store).
  set (cd := if UAVObjIsSingleInstance r obj then _ else _).
  assert (Hcd : exists c2 off, cd = (c2, off) /\ buf_rel c c2 /\ 8 <= off).
  { unfold cd. destruct (UAVObjIsSingleInstance r obj); eexists _, _; split;
      try reflexivity; split; try lia; auto 10 using buf_rel_tx_store. }
  destruct Hcd as (c2 & off & -> & H2 & Hoff). clearbody c1. clear H1 c1.
  replace (len >=? UAVTALK_MAX_PAYLOAD_LENGTH) with false
    by (symmetry; rewrite Z.geb_leb; apply Z.leb_gt; lia).
  set (cp := if len >? 0 then _ else _).
  assert (Hcp : exists c3 packed, cp = (c3, packed) /\ buf_rel c c3 /\ 0 <= packed).
  { unfold cp. destruct (len >? 0) eqn:Hpos; rewrite Z.gtb_ltb in Hpos;
      [apply Z.ltb_lt in Hpos | apply Z.ltb_ge in Hpos].
    - specialize (Hpk Hpos). destruct (UAVObjPack r obj instId) as [ret bytes]. simpl in *.
      eexists _, _; split; [reflexivity|]. split; [auto using buf_rel_inserts | exact Hpk].
    - eexists _, _; split; [reflexivity|]. split; [exact H2 | lia]. }
  destruct Hcp as (c3 & packed & -> & H3 & Hp).
  replace (packed <? 0) with false by (symmetry; apply Z.ltb_ge; lia).
  rewrite send_loop_stuck; [reflexivity | | lia].
  match goal with
  | |- txSize ?c4 = 0 =>
      assert (H4 : buf_rel c c4) by auto 10 using buf_rel_tx_store;
      destruct (buf_rel_fields _ _ H4) as (_ & _ & _ & _ & _ & _ & _ & _ & -> & _)
  end.
  exact Htx.
Qed.


End TransmitMore.

(** ** Transmitter and receiver together *)

Section Compose.
Context {priv : UAVTalkPriv} {ok : UAVTalkPrivOK priv} {R : Type} {mgr : UAVObjManager R}.
Local Abbreviation Conn := UAVTalkConnectionData.

(** Decides the comparisons between message types in the goal. *)
Ltac decide_types :=
  let H := fresh "Hneq" in
  pose proof types_neq as H;
  repeat match goal with
         | |- context [?a =? ?b] =>
             first [ rewrite (Z.eqb_refl a)
                   | replace (a =? b) with false
                       by (symmetry; apply Z.eqb_neq; intuition congruence) ]
         end;
  clear H.



Lemma receiveObject_REQ_known c r objId instId data len :
  UAVObjGetByID r objId <> 0 ->
  receiveObject c r UAVTALK_TYPE_OBJ_REQ objId instId data len
  = '(c', _) ← sendObject (logged c UAVTALK_TYPE_OBJ_REQ objId instId data len) r
                  (UAVObjGetByID r objId) instId UAVTALK_TYPE_OBJ;
    Some (c', r, 0).
Proof.
  intros Ho. unfold receiveObject, logged. decide_types.
  try rewrite (proj2 (Z.eqb_neq _ _) Ho). reflexivity.
Qed.

Lemma receiveObject_NACK c r objId instId data len :
  receiveObject c r UAVTALK_TYPE_NACK objId instId data len
  = Some (logged c UAVTALK_TYPE_NACK objId instId data len, r, 0).
Proof. unfold receiveObject, logged. decide_types. reflexivity. Qed.

(** The payload length the receiver expects is the one the transmitter
    used, for the four types the transmitter builds object frames of. *)
Lemma rx_length_sender r ty obj :
  ty = UAVTALK_TYPE_OBJ \/ ty = UAVTALK_TYPE_OBJ_REQ \/
  ty = UAVTALK_TYPE_OBJ_ACK \/ ty = UAVTALK_TYPE_ACK ->
  rx_length r ty obj
  = if (ty =? UAVTALK_TYPE_OBJ_REQ) || (ty =? UAVTALK_TYPE_ACK) then 0
    else UAVObjGetNumBytes r obj.
Proof.
  intros Hty. unfold rx_length.
  destruct Hty as [-> | [-> | [-> | ->]]]; decide_types; rewrite ?orb_true_r; reflexivity.
Qed.

Lemma sender_type ty :
  ty = UAVTALK_TYPE_OBJ \/ ty = UAVTALK_TYPE_OBJ_REQ \/
  ty = UAVTALK_TYPE_OBJ_ACK \/ ty = UAVTALK_TYPE_ACK ->
  is_byte ty /\ Z.land ty UAVTALK_TYPE_MASK = UAVTALK_TYPE_VER.
Proof.
  pose proof types_byte as (H1 & H2 & H3 & H4 & _).
  intros [-> | [-> | [-> | ->]]]; assumption.
Qed.

(** X1. Round trip through transmitter and receiver, for single-instance
    objects: what [sendSingleObject] writes for a DATA, REQUEST,
    DATA-WITH-ACK or ACK message, fed byte by byte to a receiver in the sync
    state that knows the object with the same length, makes one call of the
    dispatcher, with the type, the object id, instance 0 and the payload that
    were sent, and leaves the receiver in the sync state without receive
    error. *)
Theorem single_instance_round_trip (c : Conn) (r : R) (obj type : Z)
    (c2 : Conn) (r2 : R) :
  type = UAVTALK_TYPE_OBJ \/ type = UAVTALK_TYPE_OBJ_REQ \/
  type = UAVTALK_TYPE_OBJ_ACK \/ type = UAVTALK_TYPE_ACK ->
  let id := UAVObjGetID r obj in
  let len := if (type =? UAVTALK_TYPE_OBJ_REQ) || (type =? UAVTALK_TYPE_ACK) then 0
             else UAVObjGetNumBytes r obj in
  let payload := if len >? 0 then snd (UAVObjPack r obj 0) else [] in
  (* the sender *)
  UAVObjIsSingleInstance r obj = true ->
  0 <= id < 4294967296 ->
  0 <= len < UAVTALK_MAX_PAYLOAD_LENGTH ->
  (0 < len -> 0 <= fst (UAVObjPack r obj 0) /\ Z.of_nat (length payload) = len) ->
  8 + len + 1 <= Z.of_nat (length (txBuffer c)) ->
  1 <= txSize c -> outStream c = true ->
  (* the receiver *)
  ip_state (iproc c2) = UAVTALK_STATE_SYNC ->
  1 <= txSize c2 ->
  UAVObjGetByID r2 id <> 0 ->
  UAVObjIsSingleInstance r2 (UAVObjGetByID r2 id) = true ->
  UAVObjGetNumBytes r2 (UAVObjGetByID r2 id) = UAVObjGetNumBytes r obj ->
  (length payload <= length (rxBuffer c2))%nat ->
  exists c' chunks c2' r2',
    sendSingleObject c r obj 0 type = Some (c', 0) /\
    outLog c' = outLog c ++ chunks /\
    feed c2 r2 (concat chunks) = Some (c2', r2') /\
    dispLog c2' = dispLog c2 ++ [mkCall type id 0 payload] /\
    rxErrors (stats c2') = rxErrors (stats c2) /\
    ip_state (iproc c2') = UAVTALK_STATE_SYNC.
Proof.
  intros Hty id len payload Hs Hid Hlen Hpk Hbuf Htx Hos Hst Htx2 Ho2 Hs2 Hn2 Hrx.
  destruct (sender_type type Hty) as [Hb Hv].
  assert (Hpl : Z.of_nat (length payload) = len).
  { destruct (Z.ltb_spec 0 len) as [Hpos|Hz]; [apply Hpk; exact Hpos|].
    unfold payload. replace (len >? 0) with false
      by (symmetry; rewrite Z.gtb_ltb; apply Z.ltb_ge; lia).
    simpl. lia. }
  pose proof (sendSingleObject_ok c r obj 0 type Hb) as Hok.
  cbv zeta in Hok. fold len in Hok. rewrite Hs in Hok. fold payload id in Hok.
  destruct (Hok Hlen Hpk ltac:(simpl length; lia) Htx) as (chunks & tx & He & Hc & _).
  clear Hok.
  assert (Hrl : rx_length r2 type (UAVObjGetByID r2 id) = Z.of_nat (length payload)).
  { rewrite rx_length_sender by exact Hty. rewrite Hn2. fold len. lia. }
  assert (Hfeed : exists c2' r2',
            feed c2 r2 (frame_of type id [] payload) = Some (c2', r2') /\
            dispLog c2' = dispLog c2 ++ [mkCall type id 0 payload] /\
            rxErrors (stats c2') = rxErrors (stats c2) /\
            ip_state (iproc c2') = UAVTALK_STATE_SYNC).
  { destruct c2 as [[o ty ps oi ii ln cs rc st rpl] sts os lk tl sem ro ri txs rxb txb ol dl].
    cbn [ip_state iproc txSize rxBuffer] in Hst, Htx2, Hrx. subst st.
    rewrite feed_frame by (assumption || lia).
    match goal with |- context [receiveObject ?c1 r2 type id 0 ?d ?l] =>
      destruct (receiveObject_evolves c1 r2 type id 0 d l)
        as (c3 & r3 & ret & He3 & _ & Hd & Hi & Herr); [exact Htx2 | rewrite He3]
    end.
    cbn [dispLog stats iproc] in Hd, Hi, Herr.
    rewrite Nat2Z.id, take_inserts_0 in Hd by exact Hrx.
    next. eexists _, _. split; [reflexivity|].
    destruct c3 as [[] [] ? ? ? ? ? ? ? ? ? ? ?]. destruct sts. simpl in *. auto. }
  destruct Hfeed as (c2' & r2' & Hf & Hd & Herr & Hsy).
  exists (after_send c chunks tx (8 + Z.of_nat (length (@nil Z)) + len + 1) len), chunks, c2', r2'.
  split; [exact He|].
  split; [destruct (after_send_fields c chunks tx (8 + Z.of_nat (length (@nil Z)) + len + 1) len)
            as (-> & _); rewrite Hos; reflexivity|].
  rewrite Hc. auto.
Qed.

(** X10. A request for a known single-instance object is answered with the
    object: the receiver writes one DATA frame with the packed object to the
    output stream, counts no receive error and is back in the sync state. The
    pending transaction of the receiving side is not touched. *)
Theorem request_answered_with_object (c : Conn) (r : R) (id : Z) :
  ip_state (iproc c) = UAVTALK_STATE_SYNC ->
  0 <= id < 4294967296 ->
  let obj := UAVObjGetByID r id in
  let len := UAVObjGetNumBytes r obj in
  let payload := if len >? 0 then snd (UAVObjPack r obj 0) else [] in
  obj <> 0 ->
  UAVObjIsSingleInstance r obj = true ->
  0 <= len < UAVTALK_MAX_PAYLOAD_LENGTH ->
  (0 < len -> 0 <= fst (UAVObjPack r obj 0) /\ Z.of_nat (length payload) = len) ->
  8 + len + 1 <= Z.of_nat (length (txBuffer c)) ->
  1 <= txSize c -> outStream c = true ->
  exists c' chunks,
    feed c r (frame_of UAVTALK_TYPE_OBJ_REQ id [] []) = Some (c', r) /\
    outLog c' = outLog c ++ chunks /\
    concat chunks = frame_of UAVTALK_TYPE_OBJ (UAVObjGetID r obj) [] payload /\
    Forall (fun w => Z.of_nat (length w) <= txSize c) chunks /\
    dispLog c' = dispLog c ++ [mkCall UAVTALK_TYPE_OBJ_REQ id 0 []] /\
    rxErrors (stats c') = rxErrors (stats c) /\
    ip_state (iproc c') = UAVTALK_STATE_SYNC /\
    respObj c' = respObj c /\ respSema c' = respSema c.
Proof.
  intros Hst Hid obj len payload Ho Hs Hlen Hpk Hbuf Htx Hos.
  pose proof types_byte as ([Hb1 Hv1] & [Hb2 Hv2] & _).
  pose proof types_neq as Hneq. pose proof all_instances as Hall.
  assert (Hrl : rx_length r UAVTALK_TYPE_OBJ_REQ obj = Z.of_nat (length (@nil Z))).
  { unfold rx_length. rewrite Z.eqb_refl. reflexivity. }
  destruct c as [[o ty ps oi ii ln cs rc st rpl] sts os lk tl sem ro ri txs rxb txb ol dl].
  cbn [ip_state iproc txSize txBuffer outStream outLog dispLog stats respObj respSema]
    in Hst, Htx, Hbuf, Hos |- *.
  subst st os.
  pose proof max_payload_length as [Hmp _].
  rewrite feed_frame by (assumption || (simpl length; lia)).
  fold obj. simpl length. change (Z.of_nat 0) with 0.
  rewrite receiveObject_REQ_known by exact Ho. fold obj.
  rewrite sendObject_instance by (auto; congruence).
  match goal with |- context [sendSingleObject ?c1 r obj 0 UAVTALK_TYPE_OBJ] =>
    pose proof (sendSingleObject_ok c1 r obj 0 UAVTALK_TYPE_OBJ Hb1) as Hok;
    set (cd := c1) in *
  end.
  cbv zeta in Hok. rewrite Hs in Hok.
  replace ((UAVTALK_TYPE_OBJ =? UAVTALK_TYPE_OBJ_REQ) || (UAVTALK_TYPE_OBJ =? UAVTALK_TYPE_ACK))
    with false in Hok
    by (symmetry; apply orb_false_iff; split; apply Z.eqb_neq; intuition congruence).
  fold len in Hok. fold payload in Hok.
  destruct (Hok Hlen Hpk ltac:(simpl length; exact Hbuf) Htx) as (chunks & tx & He & Hc & Hf & _).
  change (txSize cd) with txs in Hf.
  clear Hok. rewrite He. next. next.
  destruct (after_send_fields cd chunks tx (8 + Z.of_nat (length (@nil Z)) + len + 1) len)
    as (Hol & Hd & Hi & Herr).
  destruct (after_send_conn cd chunks tx (8 + Z.of_nat (length (@nil Z)) + len + 1) len)
    as (_ & _ & _ & Hstats).
  assert (Hro : respObj (after_send cd chunks tx (8 + Z.of_nat (length (@nil Z)) + len + 1) len) = ro /\
                respSema (after_send cd chunks tx (8 + Z.of_nat (length (@nil Z)) + len + 1) len) = sem)
    by (destruct sts; split; reflexivity).
  destruct Hro as [Hro Hsem].
  set (X := after_send cd chunks tx (8 + Z.of_nat (length (@nil Z)) + len + 1) len) in *.
  assert (Hcd : outLog cd = ol /\ outStream cd = true /\
                dispLog cd = dl ++ [mkCall UAVTALK_TYPE_OBJ_REQ id 0 (take (Z.to_nat 0) (list_inserts 0 [] rxb))] /\
                rxErrors (stats cd) = rxErrors sts)
    by (destruct sts; repeat split).
  destruct Hcd as (Hcd1 & Hcd2 & Hcd3 & Hcd4).
  rewrite Hcd1, Hcd2 in Hol. rewrite Hcd3 in Hd. rewrite Hcd4 in Herr.
  change (take (Z.to_nat 0) (list_inserts 0 [] rxb)) with (@nil Z) in Hd.
  clearbody X cd.
  exists (set_iproc (set_ip_state UAVTALK_STATE_SYNC)
            (set_lock Nat.pred
               (set_stats (set_rxObjects incr32) (set_stats (set_rxObjectBytes (add32 0)) X)))),
    chunks.
  split; [reflexivity|].
  destruct X as [[] [] ? ? ? ? ? ? ? ? ? ? ?]. simpl in *. auto 10.
Qed.

(** X9. A DATA-WITH-ACK frame whose unpack fails: the dispatcher returns -1,
    which the state machine drops. The frame is counted as a received
    object, no receive error is counted and no ACK is written. *)
Theorem failed_unpack_counts_as_received (c : Conn) (r : R) (id : Z) (payload : list Z) :
  ip_state (iproc c) = UAVTALK_STATE_SYNC ->
  0 <= id < 4294967296 ->
  let obj := UAVObjGetByID r id in
  let buf := list_inserts 0 payload (rxBuffer c) in
  obj <> 0 ->
  UAVObjIsSingleInstance r obj = true ->
  UAVObjGetNumBytes r obj = Z.of_nat (length payload) ->
  Z.of_nat (length payload) < UAVTALK_MAX_PAYLOAD_LENGTH ->
  fst (UAVObjUnpack r obj 0 buf) <> 0 ->
  exists c',
    feed c r (frame_of UAVTALK_TYPE_OBJ_ACK id [] payload)
      = Some (c', snd (UAVObjUnpack r obj 0 buf)) /\
    outLog c' = outLog c /\
    rxErrors (stats c') = rxErrors (stats c) /\
    rxObjects (stats c') = incr32 (rxObjects (stats c)) /\
    rxObjectBytes (stats c') = add32 (Z.of_nat (length payload)) (rxObjectBytes (stats c)) /\
    ip_state (iproc c') = UAVTALK_STATE_SYNC.
Proof.
  intros Hst Hid obj buf Ho Hs Hn Hmax Hun.
  pose proof types_byte as (_ & _ & [Hb Hv] & _).
  pose proof types_neq as Hneq. pose proof all_instances as Hall.
  assert (Hrl : rx_length r UAVTALK_TYPE_OBJ_ACK obj = Z.of_nat (length payload)).
  { rewrite rx_length_sender by auto.
    replace (_ || _) with false
      by (symmetry; apply orb_false_iff; split; apply Z.eqb_neq; intuition congruence).
    exact Hn. }
  destruct c as [[o ty ps oi ii ln cs rc st rpl] sts os lk tl sem ro ri txs rxb txb ol dl].
  cbn [ip_state iproc rxBuffer] in Hst, buf. subst st.
  rewrite feed_frame by assumption.
  fold obj. fold buf.
  rewrite receiveObject_OBJ_ACK by congruence. fold obj.
  rewrite (proj2 (Z.eqb_neq _ _) Hun). next.
  eexists. split; [reflexivity|]. destruct sts. simpl. auto.
Qed.

Lemma step_type_bad os lk tl sem ro ri txs txb ol dl o ty ps oi ii len cs rc rpl s rxb (r : R) t :
  Z.land t UAVTALK_TYPE_MASK <> UAVTALK_TYPE_VER ->
  UAVTalkProcessInputStream
    (mkConn (mkIProc o ty ps oi ii len cs rc UAVTALK_STATE_TYPE rpl) s
            os lk tl sem ro ri txs rxb txb ol dl) r t
  = Some (mkConn (mkIProc o ty ps oi ii len (PIOS_CRC_updateByte cs t) rc
                          UAVTALK_STATE_SYNC (if rpl <? 65535 then rpl + 1 else rpl))
                 (set_rxBytes incr32 s) os lk tl sem ro ri txs rxb txb ol dl, r, 0).
Proof.
  intros Ht. apply Z.eqb_neq in Ht.
  unfold UAVTalkProcessInputStream; simpl.
  destruct (rpl <? 65535); simpl; rewrite Ht; reflexivity.
Qed.

Lemma step_size_bad os lk tl sem ro ri txs txb ol dl o ty ps oi ii len cs rpl s rxb (r : R) b :
  u16 (ps + Z.shiftl b 8) < UAVTALK_MIN_HEADER_LENGTH \/
  UAVTALK_MAX_HEADER_LENGTH + UAVTALK_MAX_PAYLOAD_LENGTH < u16 (ps + Z.shiftl b 8) ->
  UAVTalkProcessInputStream
    (mkConn (mkIProc o ty ps oi ii len cs (0 + 1) UAVTALK_STATE_SIZE rpl) s
            os lk tl sem ro ri txs rxb txb ol dl) r b
  = Some (mkConn (mkIProc o ty (u16 (ps + Z.shiftl b 8)) oi ii len (PIOS_CRC_updateByte cs b)
                          (0 + 1) UAVTALK_STATE_SYNC (if rpl <? 65535 then rpl + 1 else rpl))
                 (set_rxBytes incr32 s) os lk tl sem ro ri txs rxb txb ol dl, r, 0).
Proof.
  intros Hs.
  assert (Hb : (u16 (ps + Z.shiftl b 8) <? UAVTALK_MIN_HEADER_LENGTH)
               || (u16 (ps + Z.shiftl b 8) >? UAVTALK_MAX_HEADER_LENGTH + UAVTALK_MAX_PAYLOAD_LENGTH)
               = true).
  { apply orb_true_iff. rewrite Z.gtb_ltb, !Z.ltb_lt. exact Hs. }
  unfold UAVTalkProcessInputStream; simpl.
  destruct (rpl <? 65535); simpl; rewrite Hb; reflexivity.
Qed.

(** X6. A header that fails the checks made before the object id is dropped
    without a trace: after a type byte that does not carry the version tag,
    and after a length field outside the bounds, the machine is back in the
    sync state, and no receive error is counted. *)
Theorem bad_header_dropped_silently (c : Conn) (r : R) :
  ip_state (iproc c) = UAVTALK_STATE_SYNC ->
  (forall t,
     Z.land t UAVTALK_TYPE_MASK <> UAVTALK_TYPE_VER ->
     exists c',
       feed c r [UAVTALK_SYNC_VAL; t] = Some (c', r) /\
       ip_state (iproc c') = UAVTALK_STATE_SYNC /\
       stats c' = set_rxBytes incr32 (set_rxBytes incr32 (stats c)) /\
       dispLog c' = dispLog c /\ outLog c' = outLog c) /\
  (forall t size,
     Z.land t UAVTALK_TYPE_MASK = UAVTALK_TYPE_VER ->
     0 <= size < 65536 ->
     size < UAVTALK_MIN_HEADER_LENGTH \/
     UAVTALK_MAX_HEADER_LENGTH + UAVTALK_MAX_PAYLOAD_LENGTH < size ->
     exists c',
       feed c r (UAVTALK_SYNC_VAL :: t :: le16 size) = Some (c', r) /\
       ip_state (iproc c') = UAVTALK_STATE_SYNC /\
       rxErrors (stats c') = rxErrors (stats c) /\
       dispLog c' = dispLog c /\ outLog c' = outLog c).
Proof.
  intros Hst.
  destruct c as [[o ty ps oi ii len cs rc st rpl] sts os lk tl sem ro ri txs rxb txb ol dl].
  cbn [ip_state iproc] in Hst. subst st. split.
  - intros t Ht. cbn [feed]. rewrite step_sync. next.
    rewrite step_type_bad by exact Ht. next.
    eexists. split; [reflexivity|]. simpl. auto.
  - intros t size Ht Hsz Hbad. unfold le16. cbn [feed].
    rewrite step_sync. next.
    rewrite step_type by (lia || assumption). next.
    rewrite step_size_lo by lia. next.
    rewrite step_size_bad by (rewrite le16_decode by lia; exact Hbad). next.
    eexists. split; [reflexivity|]. destruct sts. simpl. auto.
Qed.

(** X5. Bytes that come before a frame and are not the sync byte are passed
    over: the frame that follows is dispatched as if they had not been
    there. *)
Theorem noise_before_frame_is_skipped (c : Conn) (r : R) (noise : list Z) (t id : Z)
    (payload : list Z) :
  ip_state (iproc c) = UAVTALK_STATE_SYNC ->
  1 <= txSize c ->
  Forall (fun b => b <> UAVTALK_SYNC_VAL) noise ->
  Z.land t UAVTALK_TYPE_MASK = UAVTALK_TYPE_VER ->
  0 <= id < 4294967296 ->
  UAVObjGetByID r id <> 0 ->
  UAVObjIsSingleInstance r (UAVObjGetByID r id) = true ->
  rx_length r t (UAVObjGetByID r id) = Z.of_nat (length payload) ->
  Z.of_nat (length payload) < UAVTALK_MAX_PAYLOAD_LENGTH ->
  (length payload <= length (rxBuffer c))%nat ->
  exists c' r',
    feed c r (noise ++ frame_of t id [] payload) = Some (c', r') /\
    dispLog c' = dispLog c ++ [mkCall t id 0 payload] /\
    rxErrors (stats c') = rxErrors (stats c) /\
    ip_state (iproc c') = UAVTALK_STATE_SYNC.
Proof.
  intros Hst Htx Hnoise Ht Hid Hobj Hsingle Hlen Hmax Hrx.
  destruct (feed_skip noise c r Hst Hnoise) as (c1 & He1 & Hs1 & Herr1 & Hd1 & _).
  destruct (feed_inv noise c r Htx (rx_inv_sync r c Hst)) as (c1' & r1' & He1' & _ & _ & _ & Hl1).
  destruct (feed_evolves noise c r Htx) as (c1'' & r1'' & He1'' & Hev).
  rewrite He1 in He1', He1''. injection He1' as <- <-. injection He1'' as <- <-.
  pose proof (ev_txSize _ _ Hev) as Ht1.
  rewrite feed_app, He1. next.
  rewrite <- Hd1, <- Herr1. rewrite <- Hl1 in Hrx. rewrite <- Ht1 in Htx.
  clear He1 Hev Hd1 Herr1 Hl1 Ht1 Hst. revert Hs1 Htx Hrx. generalize c1. clear c1 c.
  intros c Hst Htx Hrx.
  destruct c as [[o ty ps oi ii len cs rc st rpl] sts os lk tl sem ro ri txs rxb txb ol dl].
  cbn [ip_state iproc txSize rxBuffer] in Hst, Htx, Hrx. subst st.
  rewrite feed_frame by assumption.
  match goal with |- context [receiveObject ?c1 r t id 0 ?d ?l] =>
    destruct (receiveObject_evolves c1 r t id 0 d l) as (c2 & r2 & ret & He & _ & Hd & Hi & Hs);
      [exact Htx | rewrite He]
  end.
  cbn [dispLog stats iproc] in Hd, Hi, Hs.
  rewrite Nat2Z.id, take_inserts_0 in Hd by exact Hrx.
  next. eexists _, _. split; [reflexivity|].
  destruct c2 as [[] [] ? ? ? ? ? ? ? ? ? ? ?]. destruct sts. simpl in *. auto.
Qed.

End Compose.

(** ** Replies to a blocking transaction *)

Section Replies.
Context {priv : UAVTalkPriv} {ok : UAVTalkPrivOK priv} {R : Type} {mgr : UAVObjManager R}.
Local Abbreviation Conn := UAVTalkConnectionData.

(** A blocking transaction up to its wait: the connection on which the
    receive task runs while the caller is suspended. *)
Lemma transaction_sent c r obj instId type :
  type = UAVTALK_TYPE_OBJ_REQ \/ type = UAVTALK_TYPE_OBJ_ACK ->
  1 <= txSize c ->
  exists c3,
    (forall rxWait rxLate timeoutMs,
       objectTransaction rxWait rxLate c r obj instId type timeoutMs
       = '(cw, rw) ← feed c3 r rxWait;
         if negb (respSema cw) then
           '(cl, rl) ← feed (set_respSema false cw) rw rxLate;
           Some (set_transLock Nat.pred
                   (set_lock Nat.pred
                      (set_respObj 0 (set_respSema false (set_lock S cl)))), rl, -1)
         else Some (set_transLock Nat.pred (set_respSema false cw), rw, 0)) /\
    iproc c3 = iproc c /\ rxBuffer c3 = rxBuffer c /\ respObj c3 = obj /\
    respInstId c3 = instId /\ respSema c3 = respSema c /\ txSize c3 = txSize c /\
    lock c3 = lock c /\ transLock c3 = S (transLock c).
Proof.
  intros Hty Htx.
  set (c1 := set_respInstId instId (set_respObj obj (set_lock S (set_transLock S c)))).
  assert (Hc1 : txSize c1 = txSize c /\ respSema c1 = respSema c /\
                transLock c1 = S (transLock c) /\ lock c1 = S (lock c) /\
                iproc c1 = iproc c /\ rxBuffer c1 = rxBuffer c /\
                respObj c1 = obj /\ respInstId c1 = instId)
    by (unfold c1; destruct c; repeat split).
  destruct Hc1 as (Ht1 & Hs1 & Htl1 & Hl1 & Hi1 & Hrx1 & Hro1 & Hri1).
  destruct (sendObject_rel c1 r obj instId type) as (c2 & ret2 & He2 & H2); [lia|].
  exists (set_lock Nat.pred c2). split.
  - intros rxWait rxLate timeoutMs. unfold objectTransaction. cbv zeta.
    replace ((type =? UAVTALK_TYPE_OBJ_ACK) || (type =? UAVTALK_TYPE_OBJ_REQ)) with true
      by (destruct Hty as [-> | ->]; rewrite Z.eqb_refl, ?orb_true_r; reflexivity).
    fold c1. rewrite He2. next.
    destruct (feed (set_lock Nat.pred c2) r rxWait) as [[cw rw]|]; [|reflexivity].
    next. destruct (respSema cw); reflexivity.
  - pose proof (tx_iproc _ _ H2). pose proof (tx_rxBuffer _ _ H2).
    pose proof (tx_respObj _ _ H2). pose proof (tx_respInstId _ _ H2).
    pose proof (tx_respSema _ _ H2). pose proof (tx_txSize _ _ H2).
    pose proof (tx_lock _ _ H2) as Hl2. pose proof (tx_transLock _ _ H2).
    destruct c2; simpl in *. repeat split; try congruence.
    rewrite Hl2, Hl1. reflexivity.
Qed.

(** X12. A blocking transaction is completed by the arrival, during the wait, of
    a DATA or an ACK frame for the pending object, whichever of the two kinds
    of transaction it is: the call returns 0, the pending slot is cleared and
    no completion signal is left over. A DATA frame is unpacked into the
    object on the way. *)
Theorem transaction_completed_by_reply (rxLate : list Z) (c : Conn) (r : R)
    (obj instId type reply : Z) (payload : list Z) (timeoutMs : Z) :
  type = UAVTALK_TYPE_OBJ_REQ \/ type = UAVTALK_TYPE_OBJ_ACK ->
  reply = UAVTALK_TYPE_OBJ \/ reply = UAVTALK_TYPE_ACK ->
  instId = 0 \/ instId = UAVOBJ_ALL_INSTANCES ->
  ip_state (iproc c) = UAVTALK_STATE_SYNC ->
  1 <= txSize c ->
  let id := UAVObjGetID r obj in
  let buf := list_inserts 0 payload (rxBuffer c) in
  0 <= id < 4294967296 ->
  UAVObjGetByID r id = obj ->
  obj <> 0 ->
  UAVObjIsSingleInstance r obj = true ->
  rx_length r reply obj = Z.of_nat (length payload) ->
  Z.of_nat (length payload) < UAVTALK_MAX_PAYLOAD_LENGTH ->
  exists c',
    objectTransaction (frame_of reply id [] payload) rxLate c r obj instId type timeoutMs
      = Some (c', (if reply =? UAVTALK_TYPE_OBJ then snd (UAVObjUnpack r obj 0 buf) else r), 0) /\
    respObj c' = 0 /\ respSema c' = false /\
    lock c' = lock c /\ transLock c' = transLock c /\
    ip_state (iproc c') = UAVTALK_STATE_SYNC.
Proof.
  intros Hty Hrep Hinst Hst Htx id buf Hid Hobj Ho Hs Hrl Hmax.
  pose proof types_neq as Hneq. pose proof all_instances as Hall.
  pose proof types_byte as ([_ Hv1] & _ & _ & [_ Hv4] & _).
  destruct (transaction_sent c r obj instId type Hty Htx)
    as (c3 & Heq & Hi3 & Hrx3 & Hro3 & Hri3 & _ & Ht3 & Hl3 & Htl3).
  rewrite Heq. clear Heq.
  destruct c3 as [[o ty ps oi ii ln cs rc st rpl] sts os lk tl sem ro ri txs rxb txb ol dl].
  cbn [iproc rxBuffer respObj respInstId txSize lock transLock] in *.
  rewrite <- Hi3 in Hst. cbn [ip_state] in Hst. subst st ro ri lk tl.
  unfold buf. rewrite <- Hrx3.
  assert (Hv : Z.land reply UAVTALK_TYPE_MASK = UAVTALK_TYPE_VER)
    by (destruct Hrep as [-> | ->]; assumption).
  rewrite feed_frame by (rewrite ?Hobj; assumption).
  rewrite Hobj.
  assert (Hpend : forall c0,
            respObj c0 = obj ->
            respInstId c0 = instId ->
            updateAck c0 obj 0 = set_respObj 0 (set_respSema true c0)).
  { intros c0 H1 H2. unfold updateAck, ack_pending. rewrite H1, H2, Z.eqb_refl.
    destruct Hinst as [-> | ->]; rewrite Z.eqb_refl, ?orb_true_r; reflexivity. }
  destruct Hrep as [-> | ->].
  - rewrite receiveObject_OBJ by congruence. rewrite Hobj, Z.eqb_refl.
    rewrite Hpend by reflexivity. next.
    eexists. split; [reflexivity|]. simpl. auto.
  - rewrite receiveObject_ACK by congruence. rewrite Hobj.
    replace (UAVTALK_TYPE_ACK =? UAVTALK_TYPE_OBJ) with false
      by (symmetry; apply Z.eqb_neq; intuition congruence).
    rewrite Hpend by reflexivity. next.
    eexists. split; [reflexivity|]. simpl. auto.
Qed.

(** X13. A NACK does not end a request: the dispatcher does nothing with it, so
    when a NACK frame for the requested object is all that arrives during
    the wait, the request runs into its timeout and returns -1 (the pending
    slot cleared, the locks released). *)
Theorem nack_leaves_request_to_time_out (rxLate : list Z) (c : Conn) (r : R)
    (obj instId timeout : Z) :
  ip_state (iproc c) = UAVTALK_STATE_SYNC ->
  1 <= txSize c ->
  respSema c = false ->
  let id := UAVObjGetID r obj in
  0 <= id < 4294967296 ->
  UAVObjGetByID r id = obj ->
  obj <> 0 ->
  UAVObjIsSingleInstance r obj = true ->
  exists c' r',
    UAVTalkSendObjectRequest (frame_of UAVTALK_TYPE_NACK id [] []) rxLate c r obj instId timeout
      = Some (c', r', -1) /\
    respObj c' = 0 /\ respSema c' = false /\
    lock c' = lock c /\ transLock c' = transLock c.
Proof.
  intros Hst Htx Hsem id Hid Hobj Ho Hs.
  pose proof types_byte as (_ & _ & _ & _ & [_ Hv5]).
  pose proof max_payload_length as [Hmp _].
  unfold UAVTalkSendObjectRequest.
  destruct (transaction_sent c r obj instId UAVTALK_TYPE_OBJ_REQ (or_introl eq_refl) Htx)
    as (c3 & Heq & Hi3 & Hrx3 & Hro3 & Hri3 & Hs3 & Ht3 & Hl3 & Htl3).
  rewrite Heq. clear Heq.
  destruct c3 as [[o ty ps oi ii ln cs rc st rpl] sts os lk tl sem ro ri txs rxb txb ol dl].
  cbn [iproc rxBuffer respObj respInstId respSema txSize lock transLock] in *.
  rewrite <- Hi3 in Hst. cbn [ip_state] in Hst. subst st ro ri lk tl sem. rewrite Hsem.
  assert (Hrl : rx_length r UAVTALK_TYPE_NACK obj = Z.of_nat (length (@nil Z))).
  { unfold rx_length. rewrite Z.eqb_refl, !orb_true_r. reflexivity. }
  rewrite feed_frame by (rewrite ?Hobj; (assumption || (simpl length; lia))).
  rewrite receiveObject_NACK. next. next. unfold logged.
  cbn [respSema set_iproc set_lock set_stats set_dispLog set_respSema negb].
  match goal with |- context [feed ?c0 r rxLate] =>
    destruct (feed_evolves rxLate c0 r) as (cl & rl & Hel & Hev); [cbn [txSize]; lia|]; rewrite Hel
  end.
  next. eexists _, _. split; [reflexivity|].
  pose proof (ev_lock _ _ Hev) as Hl. pose proof (ev_transLock _ _ Hev) as Htl.
  destruct cl; simpl in *. repeat split; try congruence.
  rewrite Htl. reflexivity.
Qed.

(** Whatever the instance id, an object whose length reaches the maximum
    payload length is not sent: nothing is written and nothing counted. *)
Lemma sendObject_too_long c r obj instId type :
  type = UAVTALK_TYPE_OBJ \/ type = UAVTALK_TYPE_OBJ_ACK ->
  UAVTALK_MAX_PAYLOAD_LENGTH <= UAVObjGetNumBytes r obj ->
  exists c' ret, sendObject c r obj instId type = Some (c', ret) /\ buf_rel c c'.
Proof.
  intros Hty Hlong. pose proof types_neq as Hneq.
  assert (Hlen : UAVTALK_MAX_PAYLOAD_LENGTH
            <= (if (type =? UAVTALK_TYPE_OBJ_REQ) || (type =? UAVTALK_TYPE_ACK) then 0
                else UAVObjGetNumBytes r obj)).
  { replace (_ || _) with false; [exact Hlong|].
    symmetry; apply orb_false_iff; split; apply Z.eqb_neq; destruct Hty; intuition congruence. }
  unfold sendObject. cbv zeta.
  set (inst := if _ && _ then 0 else instId).
  replace ((type =? UAVTALK_TYPE_OBJ) || (type =? UAVTALK_TYPE_OBJ_ACK)) with true
    by (destruct Hty as [-> | ->]; rewrite Z.eqb_refl, ?orb_true_r; reflexivity).
  destruct (inst =? UAVOBJ_ALL_INSTANCES).
  - destruct (send_instances_too_long r obj type (seqZ 0 (UAVObjGetNumInstances r obj)) c Hlen)
      as (c3 & -> & H3).
    simpl. eauto.
  - destruct (sendSingleObject_too_long c r obj inst type Hlen) as (c3 & -> & H3). eauto.
Qed.

(** X15. A send with acknowledgment of an object that the transmitter refuses
    (its length reaches the maximum payload length) is not reported as such:
    nothing is written, the caller waits all the same and, no reply coming,
    gets the timeout result. *)
Theorem refused_acked_send_waits_for_timeout (c : Conn) (r : R) (obj instId timeoutMs : Z) :
  1 <= txSize c ->
  respSema c = false ->
  UAVTALK_MAX_PAYLOAD_LENGTH <= UAVObjGetNumBytes r obj ->
  exists c',
    UAVTalkSendObject [] [] c r obj instId 1 timeoutMs = Some (c', r, -1) /\
    outLog c' = outLog c /\ stats c' = stats c /\
    respObj c' = 0 /\ respSema c' = false /\
    lock c' = lock c /\ transLock c' = transLock c.
Proof.
  intros Htx Hsem Hlong. unfold UAVTalkSendObject, objectTransaction.
  rewrite !Z.eqb_refl. cbn [orb]. cbv zeta.
  set (c1 := set_respInstId instId _).
  assert (Hc1 : outLog c1 = outLog c /\ stats c1 = stats c /\ respSema c1 = false /\
                lock c1 = S (lock c) /\ transLock c1 = S (transLock c))
    by (unfold c1; destruct c; simpl in *; auto).
  destruct Hc1 as (Ho1 & Hs1 & Hsem1 & Hl1 & Htl1).
  destruct (sendObject_too_long c1 r obj instId UAVTALK_TYPE_OBJ_ACK (or_intror eq_refl) Hlong)
    as (c2 & ret2 & -> & H2).
  destruct (buf_rel_fields _ _ H2) as (_ & Hst2 & _ & Hl2 & Htl2 & Hsem2 & _ & _ & _ & _ & Hol2 & _).
  clearbody c1. next. cbn [feed]. next.
  assert (Hr : respSema (set_lock Nat.pred c2) = false) by (destruct c2; simpl in *; congruence).
  rewrite Hr. cbn [negb feed]. next.
  eexists. split; [reflexivity|].
  destruct c2; simpl in *. repeat split; try congruence.
  - rewrite Hl2, Hl1. reflexivity.
  - rewrite Htl2, Htl1. reflexivity.
Qed.

End Replies.

(** ** Counting the received bytes *)

Section ByteCount.
Context {priv : UAVTalkPriv} {ok : UAVTalkPrivOK priv} {R : Type} {mgr : UAVObjManager R}.
Local Abbreviation Conn := UAVTalkConnectionData.

Lemma counted_refl c : counted c c.
Proof. split; reflexivity. Qed.

Lemma counted_trans c1 c2 c3 : counted c1 c2 -> counted c2 c3 -> counted c1 c3.
Proof. intros [] []. split; congruence. Qed.

Lemma sendSingleObject_counted c r obj instId type c' ret :
  sendSingleObject c r obj instId type = Some (c', ret) -> counted c c'.
Proof.
  intros He. destruct (sendSingleObject_stats c r obj instId type c' ret He) as [[_ Hs] | [_ Hs]];
    unfold counted; rewrite Hs; destruct (stats c); split; reflexivity.
Qed.

Lemma send_instances_counted r obj type ns : forall c c',
  send_instances c r obj type ns = Some c' -> counted c c'.
Proof.
  induction ns as [|n ns IH]; intros c c'; simpl.
  - intros [= <-]. apply counted_refl.
  - destruct (sendSingleObject c r obj (u16 n) type) as [[c1 ret]|] eqn:He; [|discriminate].
    simpl. intros He2. eapply counted_trans; eauto using sendSingleObject_counted.
Qed.

Lemma sendObject_counted c r obj instId type c' ret :
  sendObject c r obj instId type = Some (c', ret) -> counted c c'.
Proof.
  unfold sendObject. cbv zeta. set (inst := if _ && _ then 0 else instId).
  destruct (_ || _).
  - destruct (inst =? UAVOBJ_ALL_INSTANCES).
    + destruct (send_instances c r obj type _) as [c1|] eqn:He; [|discriminate].
      simpl. intros [= <- _]. eauto using send_instances_counted.
    + apply sendSingleObject_counted.
  - destruct (type =? UAVTALK_TYPE_OBJ_REQ); [apply sendSingleObject_counted|].
    destruct (type =? UAVTALK_TYPE_ACK); [destruct (negb _)|].
    + apply sendSingleObject_counted.
    + intros [= <- _]. apply counted_refl.
    + intros [= <- _]. apply counted_refl.
Qed.

Lemma sendNack_counted c objId : counted c (fst (sendNack c objId)).
Proof.
  unfold sendNack, tx_store, outStream_write. cbv zeta.
  destruct c as [? [] []]; split; reflexivity.
Qed.

Lemma updateAck_counted c obj instId : counted c (updateAck c obj instId).
Proof.
  destruct (updateAck_fields c obj instId) as (_ & Hs & _). unfold counted. rewrite Hs. auto.
Qed.

Lemma receiveObject_counted c r type objId instId data len c' r' ret :
  receiveObject c r type objId instId data len = Some (c', r', ret) -> counted c c'.
Proof.
  unfold receiveObject. cbv zeta.
  set (c0 := set_dispLog _ c).
  assert (H0 : counted c c0) by (unfold c0; destruct c; split; reflexivity).
  clearbody c0.
  set (obj := UAVObjGetByID r objId).
  destruct (type =? UAVTALK_TYPE_OBJ).
  { destruct (negb _).
    - destruct (UAVObjUnpack r obj instId data) as [st r1]. intros [= <- _ _].
      eauto using counted_trans, updateAck_counted.
    - intros [= <- _ _]. exact H0. }
  destruct (type =? UAVTALK_TYPE_OBJ_ACK).
  { destruct (negb _); [|intros [= <- _ _]; exact H0].
    destruct (UAVObjUnpack r obj instId data) as [st r1].
    destruct (st =? 0); [|intros [= <- _ _]; exact H0].
    destruct (sendObject c0 r1 obj instId UAVTALK_TYPE_ACK) as [[c1 ret1]|] eqn:He; [|discriminate].
    simpl. intros [= <- _ _]. eauto using counted_trans, sendObject_counted. }
  destruct (type =? UAVTALK_TYPE_OBJ_REQ).
  { destruct (obj =? 0).
    - pose proof (sendNack_counted c0 objId) as H1.
      destruct (sendNack c0 objId) as [c1 ret1]. simpl in H1. intros [= <- _ _].
      eauto using counted_trans.
    - destruct (sendObject c0 r obj instId UAVTALK_TYPE_OBJ) as [[c1 ret1]|] eqn:He; [|discriminate].
      simpl. intros [= <- _ _]. eauto using counted_trans, sendObject_counted. }
  destruct (type =? UAVTALK_TYPE_NACK); [intros [= <- _ _]; exact H0|].
  destruct (type =? UAVTALK_TYPE_ACK).
  { destruct (negb _); intros [= <- _ _]; eauto using counted_trans, updateAck_counted. }
  intros [= <- _ _]. exact H0.
Qed.

Lemma counted_set_iproc c c1 f : counted c c1 -> counted c (set_iproc f c1).
Proof. intros []. destruct c1; split; assumption. Qed.

Lemma counted_set_rxBuffer c c1 f : counted c c1 -> counted c (set_rxBuffer f c1).
Proof. intros []. destruct c1; split; assumption. Qed.

Lemma counted_set_lock c c1 f : counted c c1 -> counted c (set_lock f c1).
Proof. intros []. destruct c1; split; assumption. Qed.

Lemma counted_rxErrors c c1 f : counted c c1 -> counted c (set_stats (set_rxErrors f) c1).
Proof. intros []. destruct c1 as [? []]; split; assumption. Qed.

Lemma counted_rxObjects c c1 f : counted c c1 -> counted c (set_stats (set_rxObjects f) c1).
Proof. intros []. destruct c1 as [? []]; split; assumption. Qed.

Lemma counted_rxObjectBytes c c1 f :
  counted c c1 -> counted c (set_stats (set_rxObjectBytes f) c1).
Proof. intros []. destruct c1 as [? []]; split; assumption. Qed.

Create HintDb cnt discriminated.
#[local] Hint Resolve counted_refl counted_set_iproc counted_set_rxBuffer counted_set_lock
  counted_rxErrors counted_rxObjects counted_rxObjectBytes : cnt.

(** Every byte is counted once, whatever the state machine does with it. *)
Lemma process_counted c r b c' r' ret :
  UAVTalkProcessInputStream c r b = Some (c', r', ret) ->
  counted (set_stats (set_rxBytes incr32) c) c'.
Proof.
  unfold UAVTalkProcessInputStream. cbv zeta.
  set (c0 := if _ <? 65535 then _ else _).
  assert (H0 : counted (set_stats (set_rxBytes incr32) c) c0)
    by (unfold c0; destruct (_ <? _); auto with cnt).
  clearbody c0. revert H0. generalize (set_stats (set_rxBytes incr32) c). intros cb H0.
  destruct (ip_state (iproc c0)).
  all: try solve
    [ repeat match goal with
             | |- context [if ?b then _ else _] => destruct b
             end;
      intros [= <- _ _]; auto 20 with cnt ].
  destruct (negb (b =? _)); [intros [= <- _ _]; auto 20 with cnt|].
  destruct (negb (_ =? _)); [intros [= <- _ _]; auto 20 with cnt|].
  match goal with
  | |- context [receiveObject ?c1 r ?ty ?oi ?ii ?d ?l] =>
      destruct (receiveObject c1 r ty oi ii d l) as [[[c2 r2] ret2]|] eqn:He; [|discriminate];
      apply receiveObject_counted in He
  end.
  simpl. intros [= <- _ _].
  assert (H2 : counted cb c2) by (eapply counted_trans; [|exact He]; auto with cnt).
  auto 20 with cnt.
Qed.

Lemma feed_counted bytes : forall c r c' r',
  0 <= rxBytes (stats c) < 4294967296 ->
  feed c r bytes = Some (c', r') ->
  rxBytes (stats c') = add32 (Z.of_nat (length bytes)) (rxBytes (stats c)) /\
  txErrors (stats c') = txErrors (stats c).
Proof.
  induction bytes as [|b bytes IH]; intros c r c' r' Hrange; cbn [feed].
  - intros [= <- _]. split; [|reflexivity]. simpl. unfold add32, u32.
    rewrite Z.add_0_r, Z.mod_small by lia. reflexivity.
  - destruct (UAVTalkProcessInputStream c r b) as [[[c1 r1] ret1]|] eqn:He; [|discriminate].
    apply process_counted in He. simpl. intros He2.
    destruct He as [Ha Hb].
    assert (Ha' : rxBytes (stats c1) = incr32 (rxBytes (stats c)))
      by (rewrite Ha; destruct c as [? []]; reflexivity).
    assert (Hb' : txErrors (stats c1) = txErrors (stats c))
      by (rewrite Hb; destruct c as [? []]; reflexivity).
    apply IH in He2; [|rewrite Ha'; unfold incr32, u32; apply Z.mod_pos_bound; lia].
    destruct He2 as [Hc Hd]. split; [|congruence].
    rewrite Hc, Ha'. unfold add32, incr32, u32. rewrite Zplus_mod_idemp_l. f_equal. lia.
Qed.

(** X8. Since the counters were last reset, [rxBytes] is the number of bytes
    handed to the receive task, modulo 2^32, whatever the bytes were and
    whatever became of them; no transmit error is ever counted; and the
    receive task has released the locks it took. *)
Theorem every_byte_counted (bytes : list Z) (c : Conn) (r : R) :
  1 <= txSize c ->
  exists c' r',
    feed (UAVTalkResetStats c) r bytes = Some (c', r') /\
    rxBytes (snd (UAVTalkGetStats c')) = Z.of_nat (length bytes) mod 4294967296 /\
    txErrors (snd (UAVTalkGetStats c')) = 0 /\
    lock c' = lock c /\ transLock c' = transLock c.
Proof.
  intros Htx.
  assert (Hr : txSize (UAVTalkResetStats c) = txSize c /\
               lock (UAVTalkResetStats c) = lock c /\
               transLock (UAVTalkResetStats c) = transLock c /\
               rxBytes (stats (UAVTalkResetStats c)) = 0 /\
               txErrors (stats (UAVTalkResetStats c)) = 0)
    by (destruct c; repeat split).
  destruct Hr as (Ht & Hl & Htl & Hb & He).
  destruct (feed_evolves bytes (UAVTalkResetStats c) r) as (c' & r' & Hf & Hev); [lia|].
  exists c', r'. split; [exact Hf|].
  destruct (feed_counted bytes _ _ _ _ ltac:(rewrite Hb; lia) Hf) as [H1 H2].
  assert (Hg : snd (UAVTalkGetStats c') = stats c') by (destruct c'; reflexivity).
  rewrite Hg, H1, H2, Hb, He.
  split; [reflexivity|]. split; [reflexivity|].
  rewrite (ev_lock _ _ Hev), (ev_transLock _ _ Hev). auto.
Qed.

End ByteCount.

(** * Frames refused by the length tests and frames of unknown type *)

Section Rejections.
Context {priv : UAVTalkPriv} {ok : UAVTalkPrivOK priv} {R : Type} {mgr : UAVObjManager R}.
Local Abbreviation Conn := UAVTalkConnectionData.

(** The last byte of the object id of a known object whose payload length
    reaches the maximum. *)
Lemma step_objid_too_long os lk tl sem ro ri txs txb ol dl o ty ps oi ii len cs rc rpl s rxb
    (r : R) b :
  rpl < 65535 -> 4 <= rc + 1 ->
  let objId := u32 (oi + Z.shiftl b (8 * rc)) in
  let obj := UAVObjGetByID r objId in
  obj <> 0 ->
  UAVTALK_MAX_PAYLOAD_LENGTH <= rx_length r ty obj ->
  UAVTalkProcessInputStream
    (mkConn (mkIProc o ty ps oi ii len cs rc UAVTALK_STATE_OBJID rpl) s
            os lk tl sem ro ri txs rxb txb ol dl) r b
  = Some (mkConn (mkIProc obj ty ps objId ii (rx_length r ty obj)
                          (PIOS_CRC_updateByte cs b) (rc + 1)
                          UAVTALK_STATE_SYNC (rpl + 1))
                 (set_rxErrors incr32 (set_rxBytes incr32 s))
                 os lk tl sem ro ri txs rxb txb ol dl, r, 0).
Proof.
  intros Hl Hc objId obj Ho Hm.
  unfold UAVTalkProcessInputStream; simpl.
  rewrite (proj2 (Z.ltb_lt _ _) Hl). simpl.
  apply Z.ltb_ge in Hc. rewrite Hc. fold objId. fold obj. fold (rx_length r ty obj).
  apply Z.eqb_neq in Ho. rewrite Ho. simpl.
  replace (_ >=? _) with true by (symmetry; rewrite Z.geb_leb; apply Z.leb_le; lia).
  reflexivity.
Qed.

(** X20. A frame for a known object that fails one of the two length tests made
    when the object id is complete (the payload length of the object
    reaches the maximum, or header and payload do not add up to the length
    field) is dropped there: one receive error, no call of the dispatcher,
    the machine back in the sync state; the bytes that follow are read
    as bytes between frames. *)
Theorem frame_failing_length_check_dropped (c : Conn) (r : R) (t size id : Z)
    (tail : list Z) :
  ip_state (iproc c) = UAVTALK_STATE_SYNC ->
  Z.land t UAVTALK_TYPE_MASK = UAVTALK_TYPE_VER ->
  0 <= size ->
  UAVTALK_MIN_HEADER_LENGTH <= size
    <= UAVTALK_MAX_HEADER_LENGTH + UAVTALK_MAX_PAYLOAD_LENGTH ->
  0 <= id < 4294967296 ->
  let obj := UAVObjGetByID r id in
  obj <> 0 ->
  UAVTALK_MAX_PAYLOAD_LENGTH <= rx_length r t obj \/ 8 + rx_length r t obj <> size ->
  Forall (fun b => b <> UAVTALK_SYNC_VAL) tail ->
  exists c',
    feed c r (UAVTALK_SYNC_VAL :: t :: le16 size ++ le32 id ++ tail) = Some (c', r) /\
    rxErrors (stats c') = incr32 (rxErrors (stats c)) /\
    ip_state (iproc c') = UAVTALK_STATE_SYNC /\
    dispLog c' = dispLog c /\ outLog c' = outLog c.
Proof.
  intros Hst Ht Hsz0 Hsz Hid obj Ho Hbad Htail.
  pose proof max_payload_length as [Hmp1 Hmp2]. pose proof max_header_length as Hmh.
  destruct c as [[o ty ps oi ii len cs rc st rpl] sts os lk tl sem ro ri txs rxb txb ol dl].
  cbn [ip_state iproc] in Hst. subst st.
  match goal with |- context [feed _ _ ?l] =>
    change l with ((UAVTALK_SYNC_VAL :: t :: le16 size
                     ++ [Z.land id 255; Z.land (Z.shiftr id 8) 255;
                         Z.land (Z.shiftr id 16) 255])
                   ++ Z.land (Z.shiftr id 24) 255 :: tail)
  end.
  rewrite feed_app, feed_header by (assumption || lia). next.
  cbn [feed].
  destruct (Z.le_gt_cases UAVTALK_MAX_PAYLOAD_LENGTH (rx_length r t obj)) as [Hlong|Hshort].
  - rewrite step_objid_too_long;
      [| lia | lia | rewrite le32_decode by lia; exact Ho
       | rewrite le32_decode by lia; exact Hlong ].
    next.
    match goal with |- context [feed ?c1 r tail] =>
      destruct (feed_skip tail c1 r eq_refl Htail) as (c' & He & H1 & H2 & H3 & H4)
    end.
    exists c'. split; [exact He|]. destruct sts. simpl in *. auto.
  - destruct Hbad as [Hbad|Hbad]; [lia|].
    rewrite step_objid_mismatch;
      [| lia | lia | rewrite le32_decode by lia; exact Ho
       | rewrite le32_decode by lia; fold obj; lia
       | rewrite le32_decode by lia; fold obj; lia ].
    next.
    match goal with |- context [feed ?c1 r tail] =>
      destruct (feed_skip tail c1 r eq_refl Htail) as (c' & He & H1 & H2 & H3 & H4)
    end.
    exists c'. split; [exact He|]. destruct sts. simpl in *. auto.
Qed.

Lemma receiveObject_other c r ty objId instId data len :
  ty <> UAVTALK_TYPE_OBJ -> ty <> UAVTALK_TYPE_OBJ_REQ -> ty <> UAVTALK_TYPE_OBJ_ACK ->
  ty <> UAVTALK_TYPE_ACK -> ty <> UAVTALK_TYPE_NACK ->
  receiveObject c r ty objId instId data len = Some (logged c ty objId instId data len, r, -1).
Proof.
  intros H1 H2 H3 H4 H5. unfold receiveObject, logged.
  rewrite !(proj2 (Z.eqb_neq ty _)) by assumption. reflexivity.
Qed.

(** X21. A frame whose type byte carries the version tag but is none of the five
    message types is received like an object frame and handed to the
    dispatcher, which refuses it; the state machine drops the refusal. The
    frame is counted as a received object, nothing is unpacked, nothing is
    written, no receive error is counted and the pending transaction is not
    touched. *)
Theorem unknown_message_type_is_ignored (c : Conn) (r : R) (t id : Z) (payload : list Z) :
  ip_state (iproc c) = UAVTALK_STATE_SYNC ->
  Z.land t UAVTALK_TYPE_MASK = UAVTALK_TYPE_VER ->
  t <> UAVTALK_TYPE_OBJ -> t <> UAVTALK_TYPE_OBJ_REQ -> t <> UAVTALK_TYPE_OBJ_ACK ->
  t <> UAVTALK_TYPE_ACK -> t <> UAVTALK_TYPE_NACK ->
  0 <= id < 4294967296 ->
  let obj := UAVObjGetByID r id in
  obj <> 0 ->
  UAVObjIsSingleInstance r obj = true ->
  UAVObjGetNumBytes r obj = Z.of_nat (length payload) ->
  Z.of_nat (length payload) < UAVTALK_MAX_PAYLOAD_LENGTH ->
  (length payload <= length (rxBuffer c))%nat ->
  exists c',
    feed c r (frame_of t id [] payload) = Some (c', r) /\
    dispLog c' = dispLog c ++ [mkCall t id 0 payload] /\
    outLog c' = outLog c /\
    rxErrors (stats c') = rxErrors (stats c) /\
    rxObjects (stats c') = incr32 (rxObjects (stats c)) /\
    respObj c' = respObj c /\ respSema c' = respSema c /\
    ip_state (iproc c') = UAVTALK_STATE_SYNC.
Proof.
  intros Hst Ht H1 H2 H3 H4 H5 Hid obj Ho Hs Hn Hmax Hrx.
  assert (Hrl : rx_length r t obj = Z.of_nat (length payload)).
  { unfold rx_length. rewrite !(proj2 (Z.eqb_neq t _)) by assumption. exact Hn. }
  destruct c as [[o ty ps oi ii len cs rc st rpl] sts os lk tl sem ro ri txs rxb txb ol dl].
  cbn [ip_state iproc rxBuffer] in Hst, Hrx. subst st.
  rewrite feed_frame by assumption.
  rewrite receiveObject_other by assumption. next.
  eexists. split; [reflexivity|]. unfold logged. destruct sts. simpl.
  rewrite Nat2Z.id, take_inserts_0 by exact Hrx. auto 10.
Qed.

End Rejections.

(** ** The general theorems on the concrete instance *)

Section Witnesses.
Import Ref.

(** Closed comparisons, decided by evaluation. *)
Ltac by_eval :=
  match goal with
  | |- _ /\ _ => split; by_eval
  | |- ?x <= ?y => apply Z.leb_le; vm_compute; reflexivity
  | |- ?x < ?y => apply Z.ltb_lt; vm_compute; reflexivity
  | |- (?x <= ?y)%nat => apply Nat.leb_le; vm_compute; reflexivity
  | |- ?x <> ?y => let H := fresh in intro H; vm_compute in H; discriminate H
  | |- ?x = ?y => vm_compute; reflexivity
  end.


Lemma data_checks_pending_whatever_unpack_witness :
  0 <> UAVOBJ_ALL_INSTANCES /\
  exists c',
    receiveObject waitingA peer UAVTALK_TYPE_OBJ 3735928559 0 [1; 2; 3; 4] 4
      = Some (c', snd (UAVObjUnpack peer (UAVObjGetByID peer 3735928559) 0 [1; 2; 3; 4]), 0) /\
    respSema c' = true /\ respObj c' = 0.
Proof.
  assert (H2 : 0 <> UAVOBJ_ALL_INSTANCES) by by_eval.
  assert (H3 : respObj waitingA = UAVObjGetByID peer 3735928559) by by_eval.
  assert (H4 : respInstId waitingA = 0) by by_eval.
  split; [exact H2|].
  exact (proj2 (proj1 (data_checks_pending_whatever_unpack waitingA peer 3735928559 0
                         [1; 2; 3; 4] 4 H2)) H3 (or_introl H4)).
Defined.

Lemma blocking_transaction_outcome_witness :
  1 <= txSize c64 /\ respSema c64 = false /\
  exists cw rw c' r' ret,
    wakeup [60; 35; 8; 0; 239; 190; 173; 222; 144] c64 sender 1 0 UAVTALK_TYPE_OBJ_ACK
      = Some (cw, rw) /\
    objectTransaction [60; 35; 8; 0; 239; 190; 173; 222; 144] [] c64 sender 1 0
      UAVTALK_TYPE_OBJ_ACK 100 = Some (c', r', ret) /\
    (respSema cw = true -> ret = 0 /\ respObj c' = 0) /\
    (respSema cw = false -> ret = -1 /\ respObj c' = 0) /\
    transLock c' = transLock c64 /\ lock c' = lock c64.
Proof.
  assert (H1 : 1 <= txSize c64) by by_eval.
  assert (H2 : respSema c64 = false) by by_eval.
  split; [exact H1|]. split; [exact H2|].
  exact (blocking_transaction_outcome [60; 35; 8; 0; 239; 190; 173; 222; 144] [] c64 sender
           1 0 UAVTALK_TYPE_OBJ_ACK 100 (or_intror eq_refl) H1 H2).
Defined.


Lemma data_with_ack_exchange_witness :
  UAVObjPack sender 1 0 = (0, [1; 2; 3; 4]) /\
  exists c' chunks c2' achunks,
    sendSingleObject c64 sender 1 0 UAVTALK_TYPE_OBJ_ACK = Some (c', 0) /\
    outLog c' = outLog c64 ++ chunks /\
    concat chunks
      = [UAVTALK_SYNC_VAL; UAVTALK_TYPE_OBJ_ACK; 12; 0] ++ le32 (UAVObjGetID sender 1)
        ++ [1; 2; 3; 4]
        ++ [PIOS_CRC_updateCRC 0
              ([UAVTALK_SYNC_VAL; UAVTALK_TYPE_OBJ_ACK; 12; 0] ++ le32 (UAVObjGetID sender 1)
                 ++ [1; 2; 3; 4])] /\
    feed c64 peer (concat chunks)
      = Some (c2', snd (UAVObjUnpack peer (UAVObjGetByID peer (UAVObjGetID sender 1)) 0
                          (list_inserts 0 [1; 2; 3; 4] (rxBuffer c64)))) /\
    take 4 (list_inserts 0 [1; 2; 3; 4] (rxBuffer c64)) = [1; 2; 3; 4] /\
    dispLog c2'
      = dispLog c64 ++ [mkCall UAVTALK_TYPE_OBJ_ACK (UAVObjGetID sender 1) 0 [1; 2; 3; 4]] /\
    outLog c2' = outLog c64 ++ achunks /\
    concat achunks = frame_of UAVTALK_TYPE_ACK (UAVObjGetID sender 1) [] [] /\
    ip_state (iproc c2') = UAVTALK_STATE_SYNC.
Proof.
  assert (Hs : UAVObjIsSingleInstance sender 1 = true) by by_eval.
  assert (Hn : UAVObjGetNumBytes sender 1 = 4) by by_eval.
  assert (Hpk : UAVObjPack sender 1 0 = (0, [1; 2; 3; 4])) by by_eval.
  assert (Hid : 0 <= UAVObjGetID sender 1 < 4294967296) by by_eval.
  assert (Hmax : 4 < UAVTALK_MAX_PAYLOAD_LENGTH) by by_eval.
  assert (Htx : 1 <= txSize c64) by by_eval.
  assert (Hos : outStream c64 = true) by by_eval.
  assert (Hlen : (13 <= length (txBuffer c64))%nat) by by_eval.
  assert (Hst : ip_state (iproc c64) = UAVTALK_STATE_SYNC) by by_eval.
  assert (HA2 : UAVObjGetByID peer (UAVObjGetID sender 1) <> 0) by by_eval.
  assert (Hs2 : UAVObjIsSingleInstance peer (UAVObjGetByID peer (UAVObjGetID sender 1)) = true)
    by by_eval.
  assert (Hn2 : UAVObjGetNumBytes peer (UAVObjGetByID peer (UAVObjGetID sender 1)) = 4)
    by by_eval.
  assert (Hlen2 : (9 <= length (txBuffer c64))%nat) by by_eval.
  assert (Hrx : (4 <= length (rxBuffer c64))%nat) by by_eval.
  assert (Hun : fst (UAVObjUnpack peer (UAVObjGetByID peer (UAVObjGetID sender 1)) 0
                       (list_inserts 0 [1; 2; 3; 4] (rxBuffer c64))) = 0) by by_eval.
  assert (Hs2' : UAVObjIsSingleInstance
                   (snd (UAVObjUnpack peer (UAVObjGetByID peer (UAVObjGetID sender 1)) 0
                           (list_inserts 0 [1; 2; 3; 4] (rxBuffer c64))))
                   (UAVObjGetByID peer (UAVObjGetID sender 1)) = true) by by_eval.
  assert (Hid2 : UAVObjGetID
                   (snd (UAVObjUnpack peer (UAVObjGetByID peer (UAVObjGetID sender 1)) 0
                           (list_inserts 0 [1; 2; 3; 4] (rxBuffer c64))))
                   (UAVObjGetByID peer (UAVObjGetID sender 1)) = UAVObjGetID sender 1)
    by by_eval.
  split; [exact Hpk|].
  exact (data_with_ack_exchange c64 sender 1 c64 peer 1 2 3 4
           Hs Hn Hpk Hid Hmax Htx Hos Hlen Hst HA2 Hs2 Hn2 Htx Hos Hlen2 Hrx Hun Hs2' Hid2).
Defined.

Lemma wildcard_acked_send_goes_out_witness :
  1 <= txSize c64 /\
  exists cw rw c' r' ret,
    wakeup [60; 35; 8; 0; 239; 190; 173; 222; 144] c64 sender 1 UAVOBJ_ALL_INSTANCES
      UAVTALK_TYPE_OBJ_ACK = Some (cw, rw) /\
    UAVTalkSendObject [60; 35; 8; 0; 239; 190; 173; 222; 144] [] c64 sender 1
      UAVOBJ_ALL_INSTANCES 1 100 = Some (c', r', ret) /\
    ret = (if respSema cw then 0 else -1) /\
    exists chunks more,
      outLog c' = outLog c64 ++ chunks ++ more /\
      concat chunks
        = frame_of UAVTALK_TYPE_OBJ_ACK (UAVObjGetID sender 1) []
            (if UAVObjGetNumBytes sender 1 >? 0 then snd (UAVObjPack sender 1 0) else []).
Proof.
  assert (H1 : 1 <= txSize c64) by by_eval.
  assert (H2 : UAVObjIsSingleInstance sender 1 = true) by by_eval.
  assert (H3 : outStream c64 = true) by by_eval.
  assert (H4 : 0 <= UAVObjGetNumBytes sender 1 < UAVTALK_MAX_PAYLOAD_LENGTH) by by_eval.
  assert (H5 : 0 <= fst (UAVObjPack sender 1 0) /\
               Z.of_nat (length (if UAVObjGetNumBytes sender 1 >? 0
                                 then snd (UAVObjPack sender 1 0) else []))
               = UAVObjGetNumBytes sender 1) by by_eval.
  assert (H6 : 8 + UAVObjGetNumBytes sender 1 + 1 <= Z.of_nat (length (txBuffer c64)))
    by by_eval.
  split; [exact H1|].
  destruct (wildcard_acked_send_goes_out [60; 35; 8; 0; 239; 190; 173; 222; 144] []
              c64 sender 1 100 H1) as (cw & rw & c' & r' & ret & Hw & He & Hr & Hf).
  exists cw, rw, c', r', ret.
  split; [exact Hw|]. split; [exact He|]. split; [exact Hr|].
  exact (Hf H2 H3 H4 (fun _ => H5) H6).
Defined.

Lemma transmit_fails_iff_length_or_pack_witness :
  1 <= txSize c64 /\
  exists c' ret,
    sendSingleObject c64 sender 1 0 UAVTALK_TYPE_OBJ = Some (c', ret) /\
    (ret = -1 \/ ret = 0) /\
    (ret = -1 ->
       UAVTALK_MAX_PAYLOAD_LENGTH <= UAVObjGetNumBytes sender 1 \/
       (0 < UAVObjGetNumBytes sender 1 /\ fst (UAVObjPack sender 1 0) < 0)) /\
    (ret = -1 -> outLog c' = outLog c64).
Proof.
  assert (H1 : 1 <= txSize c64) by by_eval.
  split; [exact H1|].
  destruct (transmit_fails_iff_length_or_pack c64 sender 1 0 UAVTALK_TYPE_OBJ H1)
    as (c' & ret & He & Hr & Hiff & Hno & _).
  exists c', ret.
  split; [exact He|]. split; [exact Hr|]. split; [exact (proj1 Hiff) | exact Hno].
Defined.
Lemma single_instance_bad_checksum_witness :
  0 <> PIOS_CRC_updateCRC 0 (frame_body UAVTALK_TYPE_OBJ 3735928559 [] [1; 2; 3; 4]) /\
  exists c',
    feed c64 peer (frame_body UAVTALK_TYPE_OBJ 3735928559 [] [1; 2; 3; 4] ++ [0])
      = Some (c', peer) /\
    dispLog c' = dispLog c64 /\ outLog c' = outLog c64 /\
    rxErrors (stats c') = incr32 (rxErrors (stats c64)) /\
    ip_state (iproc c') = UAVTALK_STATE_SYNC.
Proof.
  assert (H1 : ip_state (iproc c64) = UAVTALK_STATE_SYNC) by by_eval.
  assert (H3 : Z.land UAVTALK_TYPE_OBJ UAVTALK_TYPE_MASK = UAVTALK_TYPE_VER) by by_eval.
  assert (H4 : 0 <= 3735928559 < 4294967296) by by_eval.
  assert (H5 : UAVObjGetByID peer 3735928559 <> 0) by by_eval.
  assert (H6 : UAVObjIsSingleInstance peer (UAVObjGetByID peer 3735928559) = true) by by_eval.
  assert (H7 : rx_length peer UAVTALK_TYPE_OBJ (UAVObjGetByID peer 3735928559)
               = Z.of_nat (length [1; 2; 3; 4])) by by_eval.
  assert (H8 : Z.of_nat (length [1; 2; 3; 4]) < UAVTALK_MAX_PAYLOAD_LENGTH) by by_eval.
  assert (H9 : 0 <> PIOS_CRC_updateCRC 0 (frame_body UAVTALK_TYPE_OBJ 3735928559 [] [1; 2; 3; 4]))
    by by_eval.
  split; [exact H9|].
  exact (single_instance_bad_checksum c64 peer UAVTALK_TYPE_OBJ 3735928559 [1; 2; 3; 4] 0
           H1 H3 H4 H5 H6 H7 H8 H9).
Defined.

Lemma multi_instance_frame_dropped_witness :
  UAVObjIsSingleInstance peer (UAVObjGetByID peer 305419896) = false /\
  exists c',
    feed c64 peer (frame_of UAVTALK_TYPE_OBJ 305419896 (le16 1) [9]) = Some (c', peer) /\
    dispLog c' = dispLog c64 /\ outLog c' = outLog c64 /\
    rxErrors (stats c') = incr32 (rxErrors (stats c64)) /\
    ip_state (iproc c') = UAVTALK_STATE_SYNC.
Proof.
  assert (H1 : ip_state (iproc c64) = UAVTALK_STATE_SYNC) by by_eval.
  assert (H3 : Z.land UAVTALK_TYPE_OBJ UAVTALK_TYPE_MASK = UAVTALK_TYPE_VER) by by_eval.
  assert (H4 : 0 <= 305419896 < 4294967296) by by_eval.
  assert (H5 : UAVObjGetByID peer 305419896 <> 0) by by_eval.
  assert (H6 : UAVObjIsSingleInstance peer (UAVObjGetByID peer 305419896) = false) by by_eval.
  assert (H7 : rx_length peer UAVTALK_TYPE_OBJ (UAVObjGetByID peer 305419896)
               = Z.of_nat (length [9])) by by_eval.
  assert (H8 : Z.of_nat (length [9]) < UAVTALK_MAX_PAYLOAD_LENGTH) by by_eval.
  assert (H9 : Forall (fun b => b <> UAVTALK_SYNC_VAL)
                 (le16 1 ++ [9]
                    ++ [PIOS_CRC_updateCRC 0 (frame_body UAVTALK_TYPE_OBJ 305419896 (le16 1) [9])])).
  { repeat (apply Forall_cons; split; [by_eval|]). apply Forall_nil_2. }
  split; [exact H6|].
  exact (multi_instance_frame_dropped c64 peer UAVTALK_TYPE_OBJ 305419896 1 [9]
           H1 H3 H4 H5 H6 H7 H8 H9).
Defined.


Lemma single_instance_round_trip_witness :
  UAVObjGetByID peer (UAVObjGetID sender 1) <> 0 /\
  exists c' chunks c2' r2',
    sendSingleObject c64 sender 1 0 UAVTALK_TYPE_OBJ = Some (c', 0) /\
    outLog c' = outLog c64 ++ chunks /\
    feed c64 peer (concat chunks) = Some (c2', r2') /\
    dispLog c2'
      = dispLog c64
        ++ [mkCall UAVTALK_TYPE_OBJ (UAVObjGetID sender 1) 0
              (if (if (UAVTALK_TYPE_OBJ =? UAVTALK_TYPE_OBJ_REQ)
                      || (UAVTALK_TYPE_OBJ =? UAVTALK_TYPE_ACK)
                   then 0 else UAVObjGetNumBytes sender 1) >? 0
               then snd (UAVObjPack sender 1 0) else [])] /\
    rxErrors (stats c2') = rxErrors (stats c64) /\
    ip_state (iproc c2') = UAVTALK_STATE_SYNC.
Proof.
  assert (H0 : UAVTALK_TYPE_OBJ = UAVTALK_TYPE_OBJ \/ UAVTALK_TYPE_OBJ = UAVTALK_TYPE_OBJ_REQ \/
               UAVTALK_TYPE_OBJ = UAVTALK_TYPE_OBJ_ACK \/ UAVTALK_TYPE_OBJ = UAVTALK_TYPE_ACK)
    by (left; reflexivity).
  assert (H1 : UAVObjIsSingleInstance sender 1 = true) by by_eval.
  assert (H2 : 0 <= UAVObjGetID sender 1 < 4294967296) by by_eval.
  assert (H3 : 0 <= (if (UAVTALK_TYPE_OBJ =? UAVTALK_TYPE_OBJ_REQ)
                        || (UAVTALK_TYPE_OBJ =? UAVTALK_TYPE_ACK)
                     then 0 else UAVObjGetNumBytes sender 1) < UAVTALK_MAX_PAYLOAD_LENGTH)
    by by_eval.
  assert (H4 : 0 <= fst (UAVObjPack sender 1 0) /\
               Z.of_nat (length (if (if (UAVTALK_TYPE_OBJ =? UAVTALK_TYPE_OBJ_REQ)
                                        || (UAVTALK_TYPE_OBJ =? UAVTALK_TYPE_ACK)
                                     then 0 else UAVObjGetNumBytes sender 1) >? 0
                                 then snd (UAVObjPack sender 1 0) else []))
               = (if (UAVTALK_TYPE_OBJ =? UAVTALK_TYPE_OBJ_REQ)
                     || (UAVTALK_TYPE_OBJ =? UAVTALK_TYPE_ACK)
                  then 0 else UAVObjGetNumBytes sender 1)) by by_eval.
  assert (H5 : 8 + (if (UAVTALK_TYPE_OBJ =? UAVTALK_TYPE_OBJ_REQ)
                       || (UAVTALK_TYPE_OBJ =? UAVTALK_TYPE_ACK)
                    then 0 else UAVObjGetNumBytes sender 1) + 1
               <= Z.of_nat (length (txBuffer c64))) by by_eval.
  assert (H6 : 1 <= txSize c64) by by_eval.
  assert (H7 : outStream c64 = true) by by_eval.
  assert (H8 : ip_state (iproc c64) = UAVTALK_STATE_SYNC) by by_eval.
  assert (H9 : UAVObjGetByID peer (UAVObjGetID sender 1) <> 0) by by_eval.
  assert (H10 : UAVObjIsSingleInstance peer (UAVObjGetByID peer (UAVObjGetID sender 1)) = true)
    by by_eval.
  assert (H11 : UAVObjGetNumBytes peer (UAVObjGetByID peer (UAVObjGetID sender 1))
                = UAVObjGetNumBytes sender 1) by by_eval.
  assert (H12 : le (length (if (if (UAVTALK_TYPE_OBJ =? UAVTALK_TYPE_OBJ_REQ)
                                   || (UAVTALK_TYPE_OBJ =? UAVTALK_TYPE_ACK)
                                then 0 else UAVObjGetNumBytes sender 1) >? 0
                            then snd (UAVObjPack sender 1 0) else []))
                   (length (rxBuffer c64))) by by_eval.
  split; [exact H9|].
  exact (single_instance_round_trip c64 sender 1 UAVTALK_TYPE_OBJ c64 peer
           H0 H1 H2 H3 (fun _ => H4) H5 H6 H7 H8 H6 H9 H10 H11 H12).
Defined.

Lemma dispatched_instance_is_always_zero_witness :
  ip_state (iproc c64) = UAVTALK_STATE_SYNC /\
  exists c' r' calls,
    feed c64 peer [60; 35; 8; 0; 239; 190; 173; 222; 144;
                   60; 32; 11; 0; 120; 86; 52; 18; 1; 0; 9; 246] = Some (c', r') /\
    dispLog c' = dispLog c64 ++ calls /\
    Forall (fun d => dc_instId d = 0) calls.
Proof.
  assert (H1 : UAVTALK_MAX_HEADER_LENGTH + UAVTALK_MAX_PAYLOAD_LENGTH < 65534) by by_eval.
  assert (H2 : ip_state (iproc c64) = UAVTALK_STATE_SYNC) by by_eval.
  assert (H3 : 1 <= txSize c64) by by_eval.
  split; [exact H2|].
  exact (dispatched_instance_is_always_zero
           [60; 35; 8; 0; 239; 190; 173; 222; 144;
            60; 32; 11; 0; 120; 86; 52; 18; 1; 0; 9; 246] c64 peer H1 H2 H3).
Defined.

Lemma no_completion_without_transaction_witness :
  respObj c64 = 0 /\ respSema c64 = false /\
  exists c' r',
    feed c64 peer [60; 35; 8; 0; 239; 190; 173; 222; 144] = Some (c', r') /\
    respObj c' = 0 /\ respSema c' = false.
Proof.
  assert (H1 : ip_state (iproc c64) = UAVTALK_STATE_SYNC) by by_eval.
  assert (H2 : 1 <= txSize c64) by by_eval.
  assert (H3 : respObj c64 = 0) by by_eval.
  assert (H4 : respSema c64 = false) by by_eval.
  split; [exact H3|]. split; [exact H4|].
  exact (no_completion_without_transaction [60; 35; 8; 0; 239; 190; 173; 222; 144] c64 peer
           H1 H2 H3 H4).
Defined.


Lemma unacked_send_reports_success_witness :
  UAVTALK_MAX_PAYLOAD_LENGTH <= UAVObjGetNumBytes sender 3 /\
  exists c',
    UAVTalkSendObject [] [] c64 sender 3 0 0 100 = Some (c', sender, 0) /\
    outLog c' = outLog c64 /\ stats c' = stats c64.
Proof.
  assert (H1 : 0 <> 1) by by_eval.
  assert (H2 : 1 <= txSize c64) by by_eval.
  assert (H3 : UAVTALK_MAX_PAYLOAD_LENGTH <= UAVObjGetNumBytes sender 3) by by_eval.
  split; [exact H3|].
  destruct (unacked_send_reports_success [] [] c64 sender 3 0 0 100 H1 H2)
    as (c' & He & _ & _ & _ & _ & _ & _ & Hlong).
  exists c'. split; [exact He | exact (Hlong H3)].
Defined.

Lemma all_instances_sent_in_order_witness :
  UAVObjIsSingleInstance sender 2 = false /\
  exists c' chunks,
    sendObject c64 sender 2 UAVOBJ_ALL_INSTANCES UAVTALK_TYPE_OBJ = Some (c', 0) /\
    outLog c' = outLog c64 ++ chunks /\
    concat chunks
      = concat (map (fun k => frame_of UAVTALK_TYPE_OBJ (UAVObjGetID sender 2) (le16 k)
                                (if UAVObjGetNumBytes sender 2 >? 0
                                 then snd (UAVObjPack sender 2 k) else []))
                    (seqZ 0 (UAVObjGetNumInstances sender 2))) /\
    Forall (fun w => Z.of_nat (length w) <= txSize c64) chunks.
Proof.
  assert (H1 : UAVObjIsSingleInstance sender 2 = false) by by_eval.
  assert (H2 : UAVObjGetNumInstances sender 2 <= 65536) by by_eval.
  assert (H3 : 0 <= UAVObjGetNumBytes sender 2 < UAVTALK_MAX_PAYLOAD_LENGTH) by by_eval.
  assert (H4 : forall k, 0 <= k < UAVObjGetNumInstances sender 2 ->
                 0 < UAVObjGetNumBytes sender 2 ->
                 0 <= fst (UAVObjPack sender 2 k) /\
                 Z.of_nat (length (if UAVObjGetNumBytes sender 2 >? 0
                                   then snd (UAVObjPack sender 2 k) else []))
                 = UAVObjGetNumBytes sender 2).
  { intros k Hk _.
    assert (Hn : UAVObjGetNumInstances sender 2 = 2) by by_eval.
    assert (Hk' : k = 0 \/ k = 1) by lia.
    destruct Hk' as [-> | ->]; by_eval. }
  assert (H5 : 8 + 2 + UAVObjGetNumBytes sender 2 + 1 <= Z.of_nat (length (txBuffer c64)))
    by by_eval.
  assert (H6 : 1 <= txSize c64) by by_eval.
  assert (H7 : outStream c64 = true) by by_eval.
  split; [exact H1|].
  exact (all_instances_sent_in_order c64 sender 2 UAVTALK_TYPE_OBJ (or_introl eq_refl)
           H1 H2 H3 H4 H5 H6 H7).
Defined.




Lemma zero_chunk_size_send_never_returns_witness :
  txSize blank = 0 /\
  sendSingleObject blank sender 1 0 UAVTALK_TYPE_OBJ = None.
Proof.
  assert (H1 : txSize blank = 0) by by_eval.
  assert (H3 : 0 <= (if (UAVTALK_TYPE_OBJ =? UAVTALK_TYPE_OBJ_REQ)
                        || (UAVTALK_TYPE_OBJ =? UAVTALK_TYPE_ACK)
                     then 0 else UAVObjGetNumBytes sender 1) < UAVTALK_MAX_PAYLOAD_LENGTH)
    by by_eval.
  assert (H4 : 0 <= fst (UAVObjPack sender 1 0)) by by_eval.
  split; [exact H1|].
  exact (zero_chunk_size_send_never_returns (priv := Ref.priv) (mgr := Ref.mgr) blank sender 1 0 UAVTALK_TYPE_OBJ H1 H3 (fun _ => H4)).
Defined.

Lemma bad_header_dropped_silently_witness :
  Z.land 0 UAVTALK_TYPE_MASK <> UAVTALK_TYPE_VER /\
  (exists c',
     feed c64 peer [UAVTALK_SYNC_VAL; 0] = Some (c', peer) /\
     ip_state (iproc c') = UAVTALK_STATE_SYNC /\
     stats c' = set_rxBytes incr32 (set_rxBytes incr32 (stats c64)) /\
     dispLog c' = dispLog c64 /\ outLog c' = outLog c64) /\
  (exists c',
     feed c64 peer (UAVTALK_SYNC_VAL :: UAVTALK_TYPE_OBJ :: le16 7) = Some (c', peer) /\
     ip_state (iproc c') = UAVTALK_STATE_SYNC /\
     rxErrors (stats c') = rxErrors (stats c64) /\
     dispLog c' = dispLog c64 /\ outLog c' = outLog c64).
Proof.
  assert (H1 : ip_state (iproc c64) = UAVTALK_STATE_SYNC) by by_eval.
  assert (H2 : Z.land 0 UAVTALK_TYPE_MASK <> UAVTALK_TYPE_VER) by by_eval.
  assert (H3 : Z.land UAVTALK_TYPE_OBJ UAVTALK_TYPE_MASK = UAVTALK_TYPE_VER) by by_eval.
  assert (H4 : 0 <= 7 < 65536) by by_eval.
  assert (H5 : 7 < UAVTALK_MIN_HEADER_LENGTH) by by_eval.
  destruct (bad_header_dropped_silently c64 peer H1) as [Ha Hb].
  split; [exact H2|]. split.
  - exact (Ha 0 H2).
  - exact (Hb UAVTALK_TYPE_OBJ 7 H3 H4 (or_introl H5)).
Defined.

Lemma every_byte_counted_witness :
  1 <= txSize c64 /\
  exists c' r',
    feed (UAVTalkResetStats c64) peer [60; 35; 8; 0; 239; 190; 173; 222; 7] = Some (c', r') /\
    rxBytes (snd (UAVTalkGetStats c'))
      = Z.of_nat (length [60; 35; 8; 0; 239; 190; 173; 222; 7]) mod 4294967296 /\
    txErrors (snd (UAVTalkGetStats c')) = 0 /\
    lock c' = lock c64 /\ transLock c' = transLock c64.
Proof.
  assert (H1 : 1 <= txSize c64) by by_eval.
  split; [exact H1|].
  exact (every_byte_counted [60; 35; 8; 0; 239; 190; 173; 222; 7] c64 peer H1).
Defined.

Lemma failed_unpack_counts_as_received_witness :
  fst (UAVObjUnpack (UAVObjManager := frozen) peer
         (UAVObjGetByID (UAVObjManager := frozen) peer 3735928559) 0
         (list_inserts 0 [1; 2; 3; 4] (rxBuffer c64))) <> 0 /\
  exists c',
    feed (mgr := frozen) c64 peer (frame_of UAVTALK_TYPE_OBJ_ACK 3735928559 [] [1; 2; 3; 4])
      = Some (c', snd (UAVObjUnpack (UAVObjManager := frozen) peer
                         (UAVObjGetByID (UAVObjManager := frozen) peer 3735928559) 0
                         (list_inserts 0 [1; 2; 3; 4] (rxBuffer c64)))) /\
    outLog c' = outLog c64 /\
    rxErrors (stats c') = rxErrors (stats c64) /\
    rxObjects (stats c') = incr32 (rxObjects (stats c64)) /\
    rxObjectBytes (stats c')
      = add32 (Z.of_nat (length [1; 2; 3; 4])) (rxObjectBytes (stats c64)) /\
    ip_state (iproc c') = UAVTALK_STATE_SYNC.
Proof.
  assert (H1 : ip_state (iproc c64) = UAVTALK_STATE_SYNC) by by_eval.
  assert (H2 : 0 <= 3735928559 < 4294967296) by by_eval.
  assert (H3 : UAVObjGetByID (UAVObjManager := frozen) peer 3735928559 <> 0) by by_eval.
  assert (H4 : UAVObjIsSingleInstance (UAVObjManager := frozen) peer
                 (UAVObjGetByID (UAVObjManager := frozen) peer 3735928559) = true) by by_eval.
  assert (H5 : UAVObjGetNumBytes (UAVObjManager := frozen) peer
                 (UAVObjGetByID (UAVObjManager := frozen) peer 3735928559)
               = Z.of_nat (length [1; 2; 3; 4])) by by_eval.
  assert (H6 : Z.of_nat (length [1; 2; 3; 4]) < UAVTALK_MAX_PAYLOAD_LENGTH) by by_eval.
  assert (H7 : fst (UAVObjUnpack (UAVObjManager := frozen) peer
                      (UAVObjGetByID (UAVObjManager := frozen) peer 3735928559) 0
                      (list_inserts 0 [1; 2; 3; 4] (rxBuffer c64))) <> 0) by by_eval.
  split; [exact H7|].
  exact (failed_unpack_counts_as_received (mgr := frozen) c64 peer 3735928559 [1; 2; 3; 4]
           H1 H2 H3 H4 H5 H6 H7).
Defined.

Lemma request_answered_with_object_witness :
  UAVObjGetByID sender 3735928559 <> 0 /\
  exists c' chunks,
    feed c64 sender (frame_of UAVTALK_TYPE_OBJ_REQ 3735928559 [] []) = Some (c', sender) /\
    outLog c' = outLog c64 ++ chunks /\
    concat chunks
      = frame_of UAVTALK_TYPE_OBJ (UAVObjGetID sender (UAVObjGetByID sender 3735928559)) []
          (if UAVObjGetNumBytes sender (UAVObjGetByID sender 3735928559) >? 0
           then snd (UAVObjPack sender (UAVObjGetByID sender 3735928559) 0) else []) /\
    rxErrors (stats c') = rxErrors (stats c64) /\
    ip_state (iproc c') = UAVTALK_STATE_SYNC.
Proof.
  assert (H1 : ip_state (iproc c64) = UAVTALK_STATE_SYNC) by by_eval.
  assert (H2 : 0 <= 3735928559 < 4294967296) by by_eval.
  assert (H3 : UAVObjGetByID sender 3735928559 <> 0) by by_eval.
  assert (H4 : UAVObjIsSingleInstance sender (UAVObjGetByID sender 3735928559) = true) by by_eval.
  assert (H5 : 0 <= UAVObjGetNumBytes sender (UAVObjGetByID sender 3735928559)
               < UAVTALK_MAX_PAYLOAD_LENGTH) by by_eval.
  assert (H6 : 0 <= fst (UAVObjPack sender (UAVObjGetByID sender 3735928559) 0) /\
               Z.of_nat (length (if UAVObjGetNumBytes sender (UAVObjGetByID sender 3735928559) >? 0
                                 then snd (UAVObjPack sender (UAVObjGetByID sender 3735928559) 0)
                                 else []))
               = UAVObjGetNumBytes sender (UAVObjGetByID sender 3735928559)) by by_eval.
  assert (H7 : 8 + UAVObjGetNumBytes sender (UAVObjGetByID sender 3735928559) + 1
               <= Z.of_nat (length (txBuffer c64))) by by_eval.
  assert (H8 : 1 <= txSize c64) by by_eval.
  assert (H9 : outStream c64 = true) by by_eval.
  split; [exact H3|].
  destruct (request_answered_with_object c64 sender 3735928559 H1 H2 H3 H4 H5 (fun _ => H6)
              H7 H8 H9) as (c' & chunks & He & Hol & Hc & _ & _ & Herr & Hst & _).
  exists c', chunks. auto.
Defined.

Lemma transaction_completed_by_reply_witness :
  UAVObjGetByID sender (UAVObjGetID sender 1) = 1 /\
  exists c',
    objectTransaction (frame_of UAVTALK_TYPE_ACK (UAVObjGetID sender 1) [] []) [] c64 sender
      1 0 UAVTALK_TYPE_OBJ_ACK 100
      = Some (c', (if UAVTALK_TYPE_ACK =? UAVTALK_TYPE_OBJ
                   then snd (UAVObjUnpack sender 1 0 (list_inserts 0 [] (rxBuffer c64)))
                   else sender), 0) /\
    respObj c' = 0 /\ respSema c' = false /\
    lock c' = lock c64 /\ transLock c' = transLock c64 /\
    ip_state (iproc c') = UAVTALK_STATE_SYNC.
Proof.
  assert (H1 : ip_state (iproc c64) = UAVTALK_STATE_SYNC) by by_eval.
  assert (H2 : 1 <= txSize c64) by by_eval.
  assert (H3 : 0 <= UAVObjGetID sender 1 < 4294967296) by by_eval.
  assert (H4 : UAVObjGetByID sender (UAVObjGetID sender 1) = 1) by by_eval.
  assert (H5 : 1 <> 0) by by_eval.
  assert (H6 : UAVObjIsSingleInstance sender 1 = true) by by_eval.
  assert (H7 : rx_length sender UAVTALK_TYPE_ACK 1 = Z.of_nat (length (@nil Z))) by by_eval.
  assert (H8 : Z.of_nat (length (@nil Z)) < UAVTALK_MAX_PAYLOAD_LENGTH) by by_eval.
  split; [exact H4|].
  exact (transaction_completed_by_reply [] c64 sender 1 0 UAVTALK_TYPE_OBJ_ACK UAVTALK_TYPE_ACK
           [] 100 (or_intror eq_refl) (or_intror eq_refl) (or_introl eq_refl)
           H1 H2 H3 H4 H5 H6 H7 H8).
Defined.

Lemma nack_leaves_request_to_time_out_witness :
  respSema c64 = false /\
  exists c' r',
    UAVTalkSendObjectRequest (frame_of UAVTALK_TYPE_NACK (UAVObjGetID sender 1) [] []) []
      c64 sender 1 0 100 = Some (c', r', -1) /\
    respObj c' = 0 /\ respSema c' = false /\
    lock c' = lock c64 /\ transLock c' = transLock c64.
Proof.
  assert (H1 : ip_state (iproc c64) = UAVTALK_STATE_SYNC) by by_eval.
  assert (H2 : 1 <= txSize c64) by by_eval.
  assert (H2' : respSema c64 = false) by by_eval.
  assert (H3 : 0 <= UAVObjGetID sender 1 < 4294967296) by by_eval.
  assert (H4 : UAVObjGetByID sender (UAVObjGetID sender 1) = 1) by by_eval.
  assert (H5 : 1 <> 0) by by_eval.
  assert (H6 : UAVObjIsSingleInstance sender 1 = true) by by_eval.
  split; [exact H2'|].
  exact (nack_leaves_request_to_time_out [] c64 sender 1 0 100 H1 H2 H2' H3 H4 H5 H6).
Defined.

Lemma noise_before_frame_is_skipped_witness :
  Forall (fun b => b <> UAVTALK_SYNC_VAL) [0; 255; 17] /\
  exists c' r',
    feed c64 peer ([0; 255; 17] ++ frame_of UAVTALK_TYPE_OBJ 3735928559 [] [1; 2; 3; 4])
      = Some (c', r') /\
    dispLog c' = dispLog c64 ++ [mkCall UAVTALK_TYPE_OBJ 3735928559 0 [1; 2; 3; 4]] /\
    rxErrors (stats c') = rxErrors (stats c64) /\
    ip_state (iproc c') = UAVTALK_STATE_SYNC.
Proof.
  assert (H1 : ip_state (iproc c64) = UAVTALK_STATE_SYNC) by by_eval.
  assert (H2 : 1 <= txSize c64) by by_eval.
  assert (H0 : Forall (fun b => b <> UAVTALK_SYNC_VAL) [0; 255; 17])
    by (repeat (apply Forall_cons; split; [by_eval|]); apply Forall_nil_2).
  assert (H3 : Z.land UAVTALK_TYPE_OBJ UAVTALK_TYPE_MASK = UAVTALK_TYPE_VER) by by_eval.
  assert (H4 : 0 <= 3735928559 < 4294967296) by by_eval.
  assert (H5 : UAVObjGetByID peer 3735928559 <> 0) by by_eval.
  assert (H6 : UAVObjIsSingleInstance peer (UAVObjGetByID peer 3735928559) = true) by by_eval.
  assert (H7 : rx_length peer UAVTALK_TYPE_OBJ (UAVObjGetByID peer 3735928559)
               = Z.of_nat (length [1; 2; 3; 4])) by by_eval.
  assert (H8 : Z.of_nat (length [1; 2; 3; 4]) < UAVTALK_MAX_PAYLOAD_LENGTH) by by_eval.
  assert (H9 : (length [1; 2; 3; 4] <= length (rxBuffer c64))%nat) by by_eval.
  split; [exact H0|].
  exact (noise_before_frame_is_skipped c64 peer [0; 255; 17] UAVTALK_TYPE_OBJ 3735928559
           [1; 2; 3; 4] H1 H2 H0 H3 H4 H5 H6 H7 H8 H9).
Defined.

Lemma refused_acked_send_waits_for_timeout_witness :
  UAVTALK_MAX_PAYLOAD_LENGTH <= UAVObjGetNumBytes sender 3 /\
  exists c',
    UAVTalkSendObject [] [] c64 sender 3 0 1 100 = Some (c', sender, -1) /\
    outLog c' = outLog c64 /\ stats c' = stats c64 /\
    respObj c' = 0 /\ respSema c' = false /\
    lock c' = lock c64 /\ transLock c' = transLock c64.
Proof.
  assert (H1 : 1 <= txSize c64) by by_eval.
  assert (H2 : respSema c64 = false) by by_eval.
  assert (H3 : UAVTALK_MAX_PAYLOAD_LENGTH <= UAVObjGetNumBytes sender 3) by by_eval.
  split; [exact H3|].
  exact (refused_acked_send_waits_for_timeout c64 sender 3 0 100 H1 H2 H3).
Defined.

Lemma frame_failing_length_check_dropped_witness :
  8 + rx_length peer UAVTALK_TYPE_OBJ (UAVObjGetByID peer 3735928559) <> 13 /\
  exists c',
    feed c64 peer
      (UAVTALK_SYNC_VAL :: UAVTALK_TYPE_OBJ :: le16 13 ++ le32 3735928559 ++ [1; 2; 3; 4; 5; 0])
      = Some (c', peer) /\
    rxErrors (stats c') = incr32 (rxErrors (stats c64)) /\
    ip_state (iproc c') = UAVTALK_STATE_SYNC /\
    dispLog c' = dispLog c64 /\ outLog c' = outLog c64.
Proof.
  assert (H1 : ip_state (iproc c64) = UAVTALK_STATE_SYNC) by by_eval.
  assert (H2 : Z.land UAVTALK_TYPE_OBJ UAVTALK_TYPE_MASK = UAVTALK_TYPE_VER) by by_eval.
  assert (H3 : 0 <= 13) by by_eval.
  assert (H4 : UAVTALK_MIN_HEADER_LENGTH <= 13
               <= UAVTALK_MAX_HEADER_LENGTH + UAVTALK_MAX_PAYLOAD_LENGTH) by by_eval.
  assert (H5 : 0 <= 3735928559 < 4294967296) by by_eval.
  assert (H6 : UAVObjGetByID peer 3735928559 <> 0) by by_eval.
  assert (H7 : 8 + rx_length peer UAVTALK_TYPE_OBJ (UAVObjGetByID peer 3735928559) <> 13)
    by by_eval.
  assert (H8 : Forall (fun b => b <> UAVTALK_SYNC_VAL) [1; 2; 3; 4; 5; 0])
    by (repeat (apply Forall_cons; split; [by_eval|]); apply Forall_nil_2).
  split; [exact H7|].
  exact (frame_failing_length_check_dropped c64 peer UAVTALK_TYPE_OBJ 13 3735928559
           [1; 2; 3; 4; 5; 0] H1 H2 H3 H4 H5 H6 (or_intror H7) H8).
Defined.

Lemma unknown_message_type_is_ignored_witness :
  Z.land 37 UAVTALK_TYPE_MASK = UAVTALK_TYPE_VER /\
  exists c',
    feed c64 peer (frame_of 37 3735928559 [] [1; 2; 3; 4]) = Some (c', peer) /\
    dispLog c' = dispLog c64 ++ [mkCall 37 3735928559 0 [1; 2; 3; 4]] /\
    outLog c' = outLog c64 /\
    rxErrors (stats c') = rxErrors (stats c64) /\
    rxObjects (stats c') = incr32 (rxObjects (stats c64)) /\
    respObj c' = respObj c64 /\ respSema c' = respSema c64 /\
    ip_state (iproc c') = UAVTALK_STATE_SYNC.
Proof.
  assert (H0 : ip_state (iproc c64) = UAVTALK_STATE_SYNC) by by_eval.
  assert (Ht : Z.land 37 UAVTALK_TYPE_MASK = UAVTALK_TYPE_VER) by by_eval.
  assert (H1 : 37 <> UAVTALK_TYPE_OBJ) by by_eval.
  assert (H2 : 37 <> UAVTALK_TYPE_OBJ_REQ) by by_eval.
  assert (H3 : 37 <> UAVTALK_TYPE_OBJ_ACK) by by_eval.
  assert (H4 : 37 <> UAVTALK_TYPE_ACK) by by_eval.
  assert (H5 : 37 <> UAVTALK_TYPE_NACK) by by_eval.
  assert (H6 : 0 <= 3735928559 < 4294967296) by by_eval.
  assert (H7 : UAVObjGetByID peer 3735928559 <> 0) by by_eval.
  assert (H8 : UAVObjIsSingleInstance peer (UAVObjGetByID peer 3735928559) = true) by by_eval.
  assert (H9 : UAVObjGetNumBytes peer (UAVObjGetByID peer 3735928559)
               = Z.of_nat (length [1; 2; 3; 4])) by by_eval.
  assert (H10 : Z.of_nat (length [1; 2; 3; 4]) < UAVTALK_MAX_PAYLOAD_LENGTH) by by_eval.
  assert (H11 : (length [1; 2; 3; 4] <= length (rxBuffer c64))%nat) by by_eval.
  split; [exact Ht|].
  exact (unknown_message_type_is_ignored (priv := Ref.priv) (mgr := Ref.mgr) c64 peer 37
           3735928559 [1; 2; 3; 4] H0 Ht H1 H2 H3 H4 H5 H6 H7 H8 H9 H10 H11).
Defined.
End Witnesses.
